(** * FlightAxis connector: a shallow embedding of [flightaxis/connector.py]

    The development follows the Python module top-down: the value
    coercion helpers ([is_number], [parse_tail]), the [ExchangeData]
    envelope ([ACTION_FMT]), the constructor of [FlightAxisConnector],
    [parse_reply] and [exchange_data].

    Conventions.
    - Python [str] and [bytes] objects are modelled as [string] (the
      telemetry dialect is ASCII).
    - Python floats are IEEE-754 binary64 numbers, modelled by the
      standard library's [spec_float] at precision 53 and [emax] 1024.
    - A Python exception is a value of [exn]; a statement that may raise
      returns the store it has reached together with [Raise e], because
      the dict held by the connector is mutated in place and the writes
      made before the exception stay visible. *)

From Stdlib Require Import ZArith NArith QArith Qabs String Ascii List Lia SpecFloat.
From stdpp Require Import base option gmap strings.

Local Open Scope string_scope.
Local Open Scope Z_scope.

Set Warnings "-register-all".

(** ** Exceptions and results *)

Inductive exn : Type :=
| ParseError          (* xml.etree.ElementTree.ParseError *)
| IndexError          (* child index / replacement index out of range *)
| ValueError          (* could not convert string to float *)
| AttributeError      (* 'NoneType' object has no attribute 'replace' *)
| KeyError            (* missing dict key *)
| TypeError           (* unsupported operand type(s) *)
| OverflowError       (* int too large to convert to float *)
| TransportError.     (* anything raised by requests.post *)

Inductive result (A : Type) : Type :=
| Return (a : A)
| Raise (e : exn).
Arguments Return {A} a.
Arguments Raise {A} e.

Definition raises {A} (r : result A) : Prop := exists e, r = Raise e.

(** ** binary64 *)

Definition float64 : Type := spec_float.

Definition prec64 : Z := 53.
Definition emax64 : Z := 1024.

Definition f64_add : float64 -> float64 -> float64 := SFadd prec64 emax64.
Definition f64_sub : float64 -> float64 -> float64 := SFsub prec64 emax64.
Definition f64_mul : float64 -> float64 -> float64 := SFmul prec64 emax64.
Definition f64_ltb : float64 -> float64 -> bool := SFltb.

Definition is_finite (x : float64) : bool :=
  match x with
  | S754_zero _ | S754_finite _ _ _ => true
  | _ => false
  end.

(** The rational number denoted by a finite float (0 for the others). *)
Definition f64_val (x : float64) : Q :=
  match x with
  | S754_finite s m e =>
      let a := if s then Z.neg m else Z.pos m in
      if 0 <=? e then inject_Z (a * 2 ^ e) else a # Z.to_pos (2 ^ (- e))
  | _ => 0%Q
  end.

(** Nearest integer to [a / b], ties to even ([0 < b]). *)
Definition rne_div (a b : Z) : Z :=
  let q := a / b in
  match 2 * (a mod b) ?= b with
  | Lt => q
  | Gt => q + 1
  | Eq => if Z.even q then q else q + 1
  end.

(** [floor (log2 (a / b))] for positive [a], [b]. *)
Definition ilog2_ratio (a b : positive) : Z :=
  let d := Z.log2 (Z.pos a) - Z.log2 (Z.pos b) in
  if 0 <=? d
  then (if Z.pos b * 2 ^ d <=? Z.pos a then d else d - 1)
  else (if Z.pos b <=? Z.pos a * 2 ^ (- d) then d else d - 1).

(** The binary64 number nearest to [a / b], ties to even: what CPython's
    correctly rounded decimal-to-double conversion returns for the
    decimal [a / 10^k], and what it stores for a decimal literal. *)
Definition round64 (neg : bool) (a b : positive) : float64 :=
  let e := Z.max (ilog2_ratio a b - 52) (-1074) in
  let m := if 0 <=? e
           then rne_div (Z.pos a) (Z.pos b * 2 ^ e)
           else rne_div (Z.pos a * 2 ^ (- e)) (Z.pos b) in
  let '(m, e) := if m =? 2 ^ 53 then (2 ^ 52, e + 1) else (m, e) in
  match m with
  | Z.pos p => if e <=? 971 then S754_finite neg p e else S754_infinity neg
  | _ => S754_zero neg
  end.

(** [sign d / 10^k] as a float: [float] applied to a decimal numeral with
    digits [d] of which the last [k] follow the point. *)
Definition dec2float (neg : bool) (d : N) (k : nat) : float64 :=
  match d with
  | N0 => S754_zero neg
  | Npos p => round64 neg p (Z.to_pos (10 ^ Z.of_nat k))
  end.

(** The float literals of [exchange_data]. *)
Definition c_0_1 : float64 := dec2float false 1 1.      (* 0.1  *)
Definition c_1em6 : float64 := dec2float false 1 6.     (* 1e-6 *)
Definition c_0_98 : float64 := dec2float false 98 2.    (* 0.98 *)
Definition c_0_02 : float64 := dec2float false 2 2.     (* 0.02 *)
Definition c_0_5 : float64 := dec2float false 5 1.      (* 0.5  *)
Definition f64_zero : float64 := S754_zero false.       (* 0.0  *)

(** ** Python numbers: [int] and [float] *)

Inductive num : Type :=
| NInt (z : Z)
| NFloat (f : float64).

(** Implicit [int -> float] conversion of mixed arithmetic: correctly
    rounded, [OverflowError] when the integer is too large. *)
Definition float_of_int (z : Z) : result float64 :=
  match binary_normalize prec64 emax64 z 0 false with
  | S754_infinity _ => Raise OverflowError
  | f => Return f
  end.

Definition float_of_num (a : num) : result float64 :=
  match a with
  | NInt z => float_of_int z
  | NFloat f => Return f
  end.

Definition num_binop (iop : Z -> Z -> Z) (fop : float64 -> float64 -> float64)
    (a b : num) : result num :=
  match a, b with
  | NInt x, NInt y => Return (NInt (iop x y))
  | _, _ =>
      match float_of_num a with
      | Raise e => Raise e
      | Return x =>
          match float_of_num b with
          | Raise e => Raise e
          | Return y => Return (NFloat (fop x y))
          end
      end
  end.

Definition num_sub : num -> num -> result num := num_binop Z.sub f64_sub.
Definition num_add : num -> num -> result num := num_binop Z.add f64_add.
Definition num_mul : num -> num -> result num := num_binop Z.mul f64_mul.

(** Python compares an [int] with a [float] exactly. *)
Definition int_lt_float (z : Z) (f : float64) : bool :=
  match f with
  | S754_nan => false
  | S754_infinity s => negb s
  | S754_zero _ => z <? 0
  | S754_finite s m e =>
      let a := if s then Z.neg m else Z.pos m in
      if 0 <=? e then z <? a * 2 ^ e else z * 2 ^ (- e) <? a
  end.

Definition float_lt_int (f : float64) (z : Z) : bool :=
  match f with
  | S754_nan => false
  | S754_infinity s => s
  | S754_zero _ => 0 <? z
  | S754_finite s m e =>
      let a := if s then Z.neg m else Z.pos m in
      if 0 <=? e then a * 2 ^ e <? z else a <? z * 2 ^ (- e)
  end.

Definition num_ltb (a b : num) : bool :=
  match a, b with
  | NInt x, NInt y => x <? y
  | NInt x, NFloat g => int_lt_float x g
  | NFloat f, NInt y => float_lt_int f y
  | NFloat f, NFloat g => f64_ltb f g
  end.

(** ** Strings *)

Definition is_digit (c : ascii) : bool :=
  let n := N_of_ascii c in ((48 <=? n) && (n <=? 57))%N.

Definition digit_val (c : ascii) : N := (N_of_ascii c - 48)%N.

Definition digit_char (d : N) : ascii := ascii_of_N (48 + d).

Fixpoint all_digits (s : string) : bool :=
  match s with
  | EmptyString => true
  | String c r => is_digit c && all_digits r
  end.

(** [s.isdigit()] on an ASCII string: [str.isdigit] also accepts digits
    outside ASCII, which a [string] of this model does not hold. *)
Definition isdigit (s : string) : bool :=
  match s with
  | EmptyString => false
  | _ => all_digits s
  end.

(** [s.replace(c, '')] for a one-character [c] *)
Fixpoint remove_char (c : ascii) (s : string) : string :=
  match s with
  | EmptyString => EmptyString
  | String a r => if Ascii.eqb a c then remove_char c r else String a (remove_char c r)
  end.

(** Value of a string of decimal digits, most significant first. *)
Fixpoint digits_value (s : string) (acc : N) : N :=
  match s with
  | EmptyString => acc
  | String c r => digits_value r (10 * acc + digit_val c)
  end.

Fixpoint str_of_N_fuel (fuel : nat) (n : N) (acc : string) : string :=
  let acc' := String (digit_char (n mod 10)) acc in
  match fuel with
  | O => acc'
  | S fuel' => if (n / 10 =? 0)%N then acc' else str_of_N_fuel fuel' (n / 10) acc'
  end.

(** [str(n)] for a non-negative [int] *)
Definition str_of_N (n : N) : string :=
  str_of_N_fuel (N.to_nat (N.log2 n)) n EmptyString.

(** [s.split('\n')] *)
Fixpoint split_lf (s : string) : list string :=
  match s with
  | EmptyString => [EmptyString]
  | String c r =>
      if Ascii.eqb c "010"%char then EmptyString :: split_lf r
      else match split_lf r with
           | h :: t => String c h :: t
           | [] => [String c EmptyString]
           end
  end.

(** [l\[-2:\]] *)
Definition last_two {A} (l : list A) : list A := skipn (length l - 2) l.

(** [''.join(l)] *)
Definition join (l : list string) : string := fold_right String.append EmptyString l.

(** ** Value coercion *)

(** [s.replace('.', '').replace('-', '').isdigit()], for an ASCII [s] *)
Definition is_number (s : string) : bool :=
  isdigit (remove_char "-" (remove_char "." s)).

(** Leading run of digits and the rest. *)
Fixpoint span_digits (s : string) : string * string :=
  match s with
  | String c r =>
      if is_digit c then let '(d, t) := span_digits r in (String c d, t)
      else (EmptyString, s)
  | EmptyString => (EmptyString, EmptyString)
  end.

(** [float(s)] on the strings that pass [is_number] (digits, ['.'] and
    ['-'] only): an optional minus sign, then digits with at most one
    point and at least one digit; anything else is a [ValueError]. *)
Definition py_float (s : string) : result float64 :=
  let '(neg, body) := match s with
                      | String "-" r => (true, r)
                      | _ => (false, s)
                      end in
  let '(ip, rest) := span_digits body in
  match rest with
  | EmptyString =>
      match ip with
      | EmptyString => Raise ValueError
      | _ => Return (dec2float neg (digits_value ip 0) 0)
      end
  | String "." fp =>
      if all_digits fp && negb (String.length ip + String.length fp =? 0)%nat
      then Return (dec2float neg (digits_value (ip ++ fp) 0) (String.length fp))
      else Raise ValueError
  | _ => Raise ValueError
  end.

(** The tagged union held by the telemetry store. *)
Inductive value : Type :=
| VInt (z : Z)
| VFloat (f : float64)
| VBool (b : bool)
| VStr (s : string).

Definition parse_tail_str (s : string) : result value :=
  if is_number s then
    match py_float s with
    | Return f => Return (VFloat f)
    | Raise e => Raise e
    end
  else if String.eqb s "true" then Return (VBool true)
  else if String.eqb s "false" then Return (VBool false)
  else Return (VStr s).

(** [parse_tail(item.text)]: [item.text] is [None] for an element with no
    character data, and [None.replace] raises. *)
Definition parse_tail (t : option string) : result value :=
  match t with
  | None => Raise AttributeError
  | Some s => parse_tail_str s
  end.

(** ** The ExchangeData envelope *)

Fixpoint pad_left_zeros (width : nat) (s : string) : string :=
  match width with
  | O => s
  | S w => if (String.length s <=? w)%nat then String "0" (pad_left_zeros w s)
           else s
  end.

(** [x] scaled by 10^4 and rounded to the nearest integer, ties to even,
    for a finite non-zero [x = m * 2^e]. *)
Definition scaled4 (m : positive) (e : Z) : Z :=
  if 0 <=? e then Z.pos m * 2 ^ e * 10000
  else rne_div (Z.pos m * 10000) (2 ^ (- e)).

Definition fixed4 (neg : bool) (n : N) : string :=
  (if neg then "-" else "")
    ++ str_of_N (n / 10000) ++ "." ++ pad_left_zeros 4 (str_of_N (n mod 10000)).

(** ['{:.4f}'.format(x)] *)
Definition fmt4 (x : float64) : string :=
  match x with
  | S754_nan => "nan"
  | S754_infinity s => if s then "-inf" else "inf"
  | S754_zero s => fixed4 s 0
  | S754_finite s m e => fixed4 s (Z.to_N (scaled4 m e))
  end.

Definition exchange_data_head : string :=
  "<?xml version='1.0' encoding='UTF-8'?> "
  ++ "<soap:Envelope xmlns:soap='http://schemas.xmlsoap.org/soap/envelope/' "
  ++ "xmlns:xsd='http://www.w3.org/2001/XMLSchema' "
  ++ "xmlns:xsi='http://www.w3.org/2001/XMLSchema-instance'> "
  ++ "<soap:Body> "
  ++ "<ExchangeData> "
  ++ "<pControlInputs> "
  ++ "<m-selectedChannels>4095</m-selectedChannels> "
  ++ "<m-channelValues-0to1> ".

Definition exchange_data_tail : string :=
  "</m-channelValues-0to1> "
  ++ "</pControlInputs> "
  ++ "</ExchangeData> "
  ++ "</soap:Body> "
  ++ "</soap:Envelope>".

Definition item_field (x : float64) : string := "<item>" ++ fmt4 x ++ "</item> ".

(** [ACTION_FMT\["ExchangeData"\].format( *servo)]: the template has twelve
    automatically numbered fields; [str.format] raises [IndexError] when
    it runs out of positional arguments and ignores the surplus ones. *)
Definition format_exchange_data (servo : list float64) : result string :=
  if (length servo <? 12)%nat then Raise IndexError
  else Return (exchange_data_head
                 ++ join (map item_field (firstn 12 servo))
                 ++ exchange_data_tail).

(** ** Element trees *)

(** An [xml.etree.ElementTree.Element]: its tag, its [text] attribute
    ([None] when there is no character data before the first child) and
    its child elements in document order. *)
Inductive Element : Type :=
| Elem (tag : string) (text : option string) (children : list Element).

Definition tag (x : Element) : string := let 'Elem t _ _ := x in t.
Definition text (x : Element) : option string := let 'Elem _ t _ := x in t.
Definition children (x : Element) : list Element := let 'Elem _ _ c := x in c.

(** [x\[i\]] *)
Definition child (x : Element) (i : nat) : result Element :=
  match nth_error (children x) i with
  | Some c => Return c
  | None => Raise IndexError
  end.

(** [x\[0\]\[0\]\[i\]] *)
Definition group (root : Element) (i : nat) : result Element :=
  match child root 0 with
  | Raise e => Raise e
  | Return body =>
      match child body 0 with
      | Raise e => Raise e
      | Return data => child data i
      end
  end.

(** *** A reference parser for plain documents

    [ET.fromstring] is a library function; the connector is verified
    against an arbitrary parser.  [xml_fromstring] implements it on the
    documents made only of start tags, end tags and empty-element tags
    without attributes and of character data without entity references,
    and rejects every other input.  It produces the concrete documents of
    the examples. *)

Inductive token : Type :=
| TOpen (name : string)
| TClose (name : string)
| TEmpty (name : string)
| TText (s : string).

Definition is_name_char (c : ascii) : bool :=
  let n := N_of_ascii c in
  (((65 <=? n) && (n <=? 90)) || ((97 <=? n) && (n <=? 122))
   || ((48 <=? n) && (n <=? 57)) || (n =? 45) || (n =? 95) || (n =? 46))%N.

Definition is_name_start (c : ascii) : bool :=
  let n := N_of_ascii c in
  (((65 <=? n) && (n <=? 90)) || ((97 <=? n) && (n <=? 122)) || (n =? 95))%N.

Fixpoint all_name_chars (s : string) : bool :=
  match s with
  | EmptyString => true
  | String c r => is_name_char c && all_name_chars r
  end.

Definition is_name (s : string) : bool :=
  match s with
  | EmptyString => false
  | String c r => is_name_start c && all_name_chars r
  end.

Fixpoint drop_last (s : string) : string :=
  match s with
  | EmptyString => EmptyString
  | String c EmptyString => EmptyString
  | String c r => String c (drop_last r)
  end.

Fixpoint last_char (s : string) : option ascii :=
  match s with
  | EmptyString => None
  | String c EmptyString => Some c
  | String _ r => last_char r
  end.

(** The markup between ['<'] and ['>']. *)
Definition classify (body : string) : option token :=
  match body with
  | String "/" name => if is_name name then Some (TClose name) else None
  | _ =>
      match last_char body with
      | Some "/"%char =>
          if is_name (drop_last body) then Some (TEmpty (drop_last body)) else None
      | _ => if is_name body then Some (TOpen body) else None
      end
  end.

Definition text_token (buf : string) : list token :=
  match buf with
  | EmptyString => []
  | _ => [TText buf]
  end.

(** [in_tag] tells whether the scanner is between ['<'] and ['>'];
    [buf] is what it has read of the current token. *)
Fixpoint lex (s : string) (in_tag : bool) (buf : string) : option (list token) :=
  match s with
  | EmptyString => if in_tag then None else Some (text_token buf)
  | String c r =>
      if in_tag then
        if Ascii.eqb c ">" then
          match classify buf, lex r false EmptyString with
          | Some t, Some ts => Some (t :: ts)
          | _, _ => None
          end
        else if Ascii.eqb c "<" then None
        else lex r true (buf ++ String c EmptyString)
      else
        if Ascii.eqb c "<" then
          match lex r true EmptyString with
          | Some ts => Some (text_token buf ++ ts)%list
          | None => None
          end
        else if Ascii.eqb c "&" then None
        else lex r false (buf ++ String c EmptyString)
  end.

(** An open element: tag, text so far, children so far (last first). *)
Definition frame : Type := string * option string * list Element.

Definition close_frame (f : frame) : Element :=
  let '(t, x, kids) := f in Elem t x (rev kids).

Definition add_child (c : Element) (f : frame) : frame :=
  let '(t, x, kids) := f in (t, x, c :: kids).

Fixpoint build (ts : list token) (stack : list frame) : option Element :=
  match ts with
  | [] => None
  | TOpen n :: ts' => build ts' ((n, None, []) :: stack)
  | TText s :: ts' =>
      match stack with
      | [] => None
      | (t, x, []) :: up => build ts' ((t, Some (default EmptyString x ++ s), []) :: up)
      | f :: up => build ts' (f :: up)          (* the tail of a child *)
      end
  | TEmpty n :: ts' =>
      match stack with
      | [] => match ts' with [] => Some (Elem n None []) | _ => None end
      | f :: up => build ts' (add_child (Elem n None []) f :: up)
      end
  | TClose n :: ts' =>
      match stack with
      | [] => None
      | f :: up =>
          if String.eqb (fst (fst f)) n then
            match up with
            | [] => match ts' with [] => Some (close_frame f) | _ => None end
            | g :: up' => build ts' (add_child (close_frame f) g :: up')
            end
          else None
      end
  end.

Definition xml_fromstring (s : string) : option Element :=
  match lex s false EmptyString with
  | Some ts => build ts []
  | None => None
  end.

(** ** The connector *)

Abbreviation State := (gmap string value).

Definition PHYSICS_TIME : string := "m-currentPhysicsTime-SEC".

(** [self.state] as built by [__init__]. *)
Definition init_state : State :=
  list_to_map
    [ ("rcin0", VFloat c_0_5);
      ("rcin1", VFloat c_0_5);
      ("rcin2", VFloat f64_zero);
      ("rcin3", VFloat c_0_5);
      ("rcin4", VFloat f64_zero);
      ("rcin5", VFloat f64_zero);
      ("rcin6", VFloat f64_zero);
      ("rcin7", VFloat f64_zero);
      ("rcin8", VFloat f64_zero);
      ("rcin9", VFloat f64_zero);
      ("rcin10", VFloat f64_zero);
      ("rcin11", VFloat f64_zero);
      ("m-currentPhysicsTime-SEC", VInt 0);
      ("m-currentPhysicsSpeedMultiplier", VInt 1);
      ("m-airspeed-MPS", VInt 0);
      ("m-altitudeASL-MTR", VInt 0);
      ("m-altitudeAGL-MTR", VInt 0);
      ("m-groundspeed-MPS", VInt 0);
      ("m-pitchRate-DEGpSEC", VInt 0);
      ("m-rollRate-DEGpSEC", VInt 0);
      ("m-yawRate-DEGpSEC", VInt 0);
      ("m-azimuth-DEG", VInt 0);
      ("m-inclination-DEG", VInt 0);
      ("m-roll-DEG", VInt 0);
      ("m-orientationQuaternion-X", VInt 0);
      ("m-orientationQuaternion-Y", VInt 0);
      ("m-orientationQuaternion-Z", VInt 0);
      ("m-orientationQuaternion-W", VInt 0);
      ("m-aircraftPositionX-MTR", VInt 0);
      ("m-aircraftPositionY-MTR", VInt 0);
      ("m-velocityWorldU-MPS", VInt 0);
      ("m-velocityWorldV-MPS", VInt 0);
      ("m-velocityWorldW-MPS", VInt 0);
      ("m-velocityBodyU-MPS", VInt 0);
      ("m-velocityBodyV-MPS", VInt 0);
      ("m-velocityBodyW-MPS", VInt 0);
      ("m-accelerationWorldAX-MPS2", VInt 0);
      ("m-accelerationWorldAY-MPS2", VInt 0);
      ("m-accelerationWorldAZ-MPS2", VInt 0);
      ("m-accelerationBodyAX-MPS2", VInt 0);
      ("m-accelerationBodyAY-MPS2", VInt 0);
      ("m-accelerationBodyAZ-MPS2", VInt 0);
      ("m-windX-MPS", VInt 0);
      ("m-windY-MPS", VInt 0);
      ("m-windZ-MPS", VInt 0);
      ("m-propRPM", VInt 0);
      ("m-heliMainRotorRPM", VInt (-1));
      ("m-batteryVoltage-VOLTS", VInt (-1));
      ("m-batteryCurrentDraw-AMPS", VInt (-1));
      ("m-batteryRemainingCapacity-MAH", VInt (-1));
      ("m-fuelRemaining-OZ", VInt 0);
      ("m-isLocked", VBool false);
      ("m-hasLostComponents", VBool false);
      ("m-anEngineIsRunning", VBool true);
      ("m-isTouchingGround", VBool true);
      ("m-flightAxisControllerIsActive", VBool false);
      ("m-currentAircraftStatus", VStr "CAS-FLYING");
      ("m-resetButtonHasBeenPressed", VBool false) ]%string.

Record Session : Type := mkSession {
  servos : list float64;
  controller_started : bool;
  frame_counter : Z;
  activation_frame_counter : Z;
  average_frame_time_s : num;
  socket_frame_counter : Z;
  state : State
}.

(** [FlightAxisConnector.__init__] *)
Definition init : Session :=
  {| servos := repeat f64_zero 12;
     controller_started := false;
     frame_counter := 0;
     activation_frame_counter := 0;
     average_frame_time_s := NInt 0;
     socket_frame_counter := 0;
     state := init_state |}.

Definition set_state (self : Session) (st : State) : Session :=
  {| servos := servos self;
     controller_started := controller_started self;
     frame_counter := frame_counter self;
     activation_frame_counter := activation_frame_counter self;
     average_frame_time_s := average_frame_time_s self;
     socket_frame_counter := socket_frame_counter self;
     state := st |}.

Definition set_average_frame_time_s (self : Session) (a : num) : Session :=
  {| servos := servos self;
     controller_started := controller_started self;
     frame_counter := frame_counter self;
     activation_frame_counter := activation_frame_counter self;
     average_frame_time_s := a;
     socket_frame_counter := socket_frame_counter self;
     state := state self |}.

Definition set_socket_frame_counter (self : Session) (n : Z) : Session :=
  {| servos := servos self;
     controller_started := controller_started self;
     frame_counter := frame_counter self;
     activation_frame_counter := activation_frame_counter self;
     average_frame_time_s := average_frame_time_s self;
     socket_frame_counter := n;
     state := state self |}.

(** The inner loop over the children of a [m-channelValues-0to1] block:
    [counter] only advances on elements tagged [item], and the target key
    is written without looking it up first. *)
Fixpoint channel_items (items : list Element) (counter : N) (st : State)
  : State * result unit :=
  match items with
  | [] => (st, Return tt)
  | item :: rest =>
      if String.eqb (tag item) "item" then
        let state_tag := ("rcin" ++ str_of_N counter)%string in
        match parse_tail (text item) with
        | Return v => channel_items rest (counter + 1)%N (<[state_tag := v]> st)
        | Raise e => (st, Raise e)
        end
      else channel_items rest counter st
  end.

(** The loop over the children of group 0. *)
Fixpoint channel_blocks (stuffs : list Element) (st : State) : State * result unit :=
  match stuffs with
  | [] => (st, Return tt)
  | stuff :: rest =>
      if String.eqb (tag stuff) "m-channelValues-0to1" then
        match channel_items (children stuff) 0%N st with
        | (st', Return _) => channel_blocks rest st'
        | (st', Raise e) => (st', Raise e)
        end
      else channel_blocks rest st
  end.

(** The loops over groups 1 and 2: only tags that are keys of the store
    are written. *)
Fixpoint known_items (items : list Element) (st : State) : State * result unit :=
  match items with
  | [] => (st, Return tt)
  | item :: rest =>
      match st !! tag item with
      | Some _ =>
          match parse_tail (text item) with
          | Return v => known_items rest (<[tag item := v]> st)
          | Raise e => (st, Raise e)
          end
      | None => known_items rest st
      end
  end.

(** [parse_reply] after [ET.fromstring] has returned [root]. *)
Definition parse_root (root : Element) (st : State) : State * result unit :=
  match group root 0 with
  | Raise e => (st, Raise e)
  | Return some_data =>
      match channel_blocks (children some_data) st with
      | (st1, Raise e) => (st1, Raise e)
      | (st1, Return _) =>
          match group root 1 with
          | Raise e => (st1, Raise e)
          | Return aircraft_state =>
              match known_items (children aircraft_state) st1 with
              | (st2, Raise e) => (st2, Raise e)
              | (st2, Return _) =>
                  match group root 2 with
                  | Raise e => (st2, Raise e)
                  | Return notification => known_items (children notification) st2
                  end
              end
          end
      end
  end.

(** The text handed to the XML parser: the last two lines of the reply. *)
Definition xml_txt (reply : string) : string := join (last_two (split_lf reply)).

Section Connector.

(** [ET.fromstring]: [None] stands for [ParseError]. *)
Variable fromstring : string -> option Element.

(** [requests.post(url, data=body, headers=...)] followed by
    [.content]: the reply body, or the exception raised. *)
Variable post : string -> string -> result string.

(** [FlightAxisConnector.parse_reply] on the store of the connector. *)
Definition parse_reply (st : State) (reply : string) : State * result unit :=
  match fromstring (xml_txt reply) with
  | None => (st, Raise ParseError)
  | Some root => parse_root root st
  end.

(** The requests handed to the transport so far, latest first, each with
    its [soapaction] header and its body. *)
Definition Wire : Type := list (string * string).

(** [FlightAxisConnector.soap_request] *)
Definition soap_request (wire : Wire) (action body : string) : Wire * result string :=
  ((action, body) :: wire, post action body).

Definition as_num (v : value) : result num :=
  match v with
  | VInt z => Return (NInt z)
  | VFloat f => Return (NFloat f)
  | VBool b => Return (NInt (if b then 1 else 0))
  | VStr _ => Raise TypeError
  end.

(** [a - b] on store values *)
Definition value_sub (a b : value) : result num :=
  match as_num a with
  | Raise e => Raise e
  | Return x =>
      match as_num b with
      | Raise e => Raise e
      | Return y => num_sub x y
      end
  end.

(** [0 < dt < 0.1] *)
Definition accepted (dt : num) : bool :=
  num_ltb (NInt 0) dt && num_ltb dt (NFloat c_0_1).

(** [average * 0.98 + dt * 0.02] *)
Definition blend (average dt : num) : result num :=
  match num_mul average (NFloat c_0_98) with
  | Raise e => Raise e
  | Return x =>
      match num_mul dt (NFloat c_0_02) with
      | Raise e => Raise e
      | Return y => num_add x y
      end
  end.

(** The body of [if reply:] in [exchange_data]. *)
Definition on_reply (self : Session) (reply : string) : Session * result unit :=
  match state self !! PHYSICS_TIME with
  | None => (self, Raise KeyError)
  | Some lastt_s =>
      let '(st1, r) := parse_reply (state self) reply in
      let self1 := set_state self st1 in
      match r with
      | Raise e => (self1, Raise e)
      | Return _ =>
          match st1 !! PHYSICS_TIME with
          | None => (self1, Raise KeyError)
          | Some now =>
              match value_sub now lastt_s with
              | Raise e => (self1, Raise e)
              | Return dt =>
                  if accepted dt then
                    let self2 :=
                      if num_ltb (average_frame_time_s self1) (NFloat c_1em6)
                      then set_average_frame_time_s self1 dt
                      else self1 in
                    match blend (average_frame_time_s self2) dt with
                    | Raise e => (self2, Raise e)
                    | Return a =>
                        let self3 := set_average_frame_time_s self2 a in
                        (set_socket_frame_counter self3 (socket_frame_counter self3 + 1),
                         Return tt)
                    end
                  else
                    (set_socket_frame_counter self1 (socket_frame_counter self1 + 1),
                     Return tt)
              end
          end
      end
  end.

(** [FlightAxisConnector.exchange_data] *)
Definition exchange_data (self : Session) (wire : Wire) (control_input : list float64)
  : Session * Wire * result unit :=
  let action := "ExchangeData"%string in
  let servo := control_input in
  match format_exchange_data servo with
  | Raise e => (self, wire, Raise e)
  | Return ex_data_msg =>
      let '(wire1, r) := soap_request wire action ex_data_msg in
      match r with
      | Raise e => (self, wire1, Raise e)
      | Return reply =>
          match reply with
          | EmptyString => (self, wire1, Return tt)
          | _ =>
              let '(self', r') := on_reply self reply in
              (self', wire1, r')
          end
      end
  end.

End Connector.

(** ** Sample replies

    Reply bodies as the simulator lays them out: an XML declaration on
    the first line, the envelope on the second, a final line feed. *)

Definition LF : string := String "010"%char EmptyString.

Definition reply_of (envelope : string) : string :=
  "<?xml version='1.0' encoding='UTF-8'?>" ++ LF ++ envelope ++ LF.

Definition envelope_of (groups : string) : string :=
  "<Envelope><Body><ReturnData>" ++ groups ++ "</ReturnData></Body></Envelope>".

Definition channel_group (items : list string) : string :=
  "<m-previousInputsState><m-selectedChannels>4095</m-selectedChannels>"
  ++ "<m-channelValues-0to1>"
  ++ join (map (fun t => "<item>" ++ t ++ "</item>") items)
  ++ "</m-channelValues-0to1></m-previousInputsState>".

(** A reply cut short after the channel values: group 0 only. *)
Definition reply_without_aircraft_state : string :=
  reply_of (envelope_of (channel_group ["1"])).

(** A reply cut in the middle of the envelope. *)
Definition reply_truncated : string :=
  reply_of "<Envelope><Body><ReturnData><m-previousInputsState>".

(** A complete reply whose channel block lists thirteen items. *)
Definition reply_13_items : string :=
  reply_of (envelope_of
    (channel_group ["0"; "0"; "0"; "0"; "0"; "0"; "0"; "0"; "0"; "0"; "0"; "0"; "1"]
     ++ "<m-aircraftState/><m-notifications/>")).

(** A complete reply that only reports the physics time [t]. *)
Definition reply_at_time (t : string) : string :=
  reply_of (envelope_of
    ("<m-previousInputsState/>"
     ++ "<m-aircraftState><m-currentPhysicsTime-SEC>" ++ t
     ++ "</m-currentPhysicsTime-SEC></m-aircraftState>"
     ++ "<m-notifications/>")).

(** A reply that reports the physics time [t] and stops after the
    aircraft state: groups 0 and 1 only. *)
Definition reply_without_notifications (t : string) : string :=
  reply_of (envelope_of
    ("<m-previousInputsState/>"
     ++ "<m-aircraftState><m-currentPhysicsTime-SEC>" ++ t
     ++ "</m-currentPhysicsTime-SEC></m-aircraftState>")).


(** A transport that answers every request with [reply]. *)
Definition always (reply : string) : string -> string -> result string :=
  fun _ _ => Return reply.

(** ** Vocabulary of the statements *)

(** The key of receiver channel [i]. *)
Definition rcin (i : N) : string := ("rcin" ++ str_of_N i)%string.

(** A reply is malformed when the parser rejects its text or when one of
    the three groups [root\[0\]\[0\]\[i\]] is missing. *)
Definition malformed (fromstring : string -> option Element) (reply : string) : Prop :=
  fromstring (xml_txt reply) = None
  \/ exists root, fromstring (xml_txt reply) = Some root
                 /\ (raises (group root 0) \/ raises (group root 1) \/ raises (group root 2)).

(** The malformed replies whose defect is met before the first write. *)
Definition malformed_early (fromstring : string -> option Element) (reply : string) : Prop :=
  fromstring (xml_txt reply) = None
  \/ exists root, fromstring (xml_txt reply) = Some root /\ raises (group root 0).

(** [n] mid-stick control values. *)
Definition control_neutral (n : nat) : list float64 := repeat c_0_5 n.

(** The exchange reaches the timing code: the envelope is encoded, the
    transport returns a non-empty [reply], [parse_reply] returns normally
    with store [st1], and the physics-time delta [dt = now - lastt_s] is
    computed. *)
Definition exchange_yields
    (fromstring : string -> option Element) (post : string -> string -> result string)
    (self : Session) (control_input : list float64)
    (st1 : State) (lastt_s now : value) (dt : num) : Prop :=
  exists msg reply,
    format_exchange_data control_input = Return msg
    /\ post "ExchangeData" msg = Return reply
    /\ reply <> EmptyString
    /\ state self !! PHYSICS_TIME = Some lastt_s
    /\ parse_reply fromstring (state self) reply = (st1, Return tt)
    /\ st1 !! PHYSICS_TIME = Some now
    /\ value_sub now lastt_s = Return dt.

(** What [__init__] and [exchange_data] ever store in
    [average_frame_time_s]: the integer 0 or a float. *)
Definition average_ok (a : num) : Prop :=
  match a with
  | NInt z => z = 0
  | NFloat _ => True
  end.

(** ** Vocabulary of the further properties *)

(** The children of a channel block that count: those tagged [item]. *)
Definition is_item (x : Element) : bool := String.eqb (tag x) "item".

(** Every [m-channelValues-0to1] block of group 0 lists at most twelve
    [item] elements. *)
Definition block_fits (blk : Element) : bool :=
  negb (String.eqb (tag blk) "m-channelValues-0to1")
  || (length (List.filter is_item (children blk)) <=? 12)%nat.

Definition reply_fits (fromstring : string -> option Element) (reply : string) : Prop :=
  match fromstring (xml_txt reply) with
  | Some root =>
      match group root 0 with
      | Return g0 => forallb block_fits (children g0) = true
      | Raise _ => True
      end
  | None => True
  end.

(** The last element of [items] tagged [k], if any. *)
Definition last_tagged (k : string) (items : list Element) : option Element :=
  List.find (fun it => String.eqb (tag it) k) (rev items).

(** [s] holds no line feed. *)
Fixpoint no_lf (s : string) : bool :=
  match s with
  | EmptyString => true
  | String c r => negb (Ascii.eqb c "010"%char) && no_lf r
  end.

(** ** Manual mode and the main loop *)

Definition c_1_0 : float64 := dec2float false 1 0.      (* 1.0 *)

Section MainLoop.

(** [float(s)] on an arbitrary [str], which NumPy applies when a [str] is
    stored into a [float64] array. *)
Variable str_to_float : string -> result float64.

Variable fromstring : string -> option Element.

(** [control\[i\] = v] for a [float64] array [control]. *)
Definition to_float64 (v : value) : result float64 :=
  match v with
  | VFloat f => Return f
  | VInt z => float_of_int z
  | VBool b => Return (if b then c_1_0 else f64_zero)
  | VStr s => str_to_float s
  end.

(** The loop of [mode_manual] from index [i], [n] rounds to go. *)
Fixpoint mode_manual_from (st : State) (i : N) (n : nat) : result (list float64) :=
  match n with
  | O => Return []
  | S n' =>
      match st !! rcin i with
      | None => Raise KeyError
      | Some v =>
          match to_float64 v with
          | Raise e => Raise e
          | Return x =>
              match mode_manual_from st (i + 1)%N n' with
              | Raise e => Raise e
              | Return xs => Return (x :: xs)
              end
          end
      end
  end.

(** [mode_manual(_fac)] *)
Definition mode_manual (fac : Session) : result (list float64) :=
  mode_manual_from (state fac) 0%N 12.

(** One round of [while 1:] without a keyboard interrupt: the bare
    [except: pass] swallows whatever [mode_manual] or [exchange_data]
    raises, and what they had written before stays written. *)
Definition main_step (post : string -> string -> result string)
    (sw : Session * list (string * string)) : Session * list (string * string) :=
  let '(fac, wire) := sw in
  match mode_manual fac with
  | Raise _ => (fac, wire)
  | Return control_input =>
      (fst (exchange_data fromstring post fac wire control_input))
  end.

(** As many rounds as [posts] is long, the transport behaving as
    [posts\[j\]] in round [j]. *)
Definition main_loop (posts : list (string -> string -> result string))
    (sw : Session * list (string * string)) : Session * list (string * string) :=
  fold_left (fun sw post => main_step post sw) posts sw.

End MainLoop.

(** [float(s)] once the sign has been split off: [py_float] on
    [body] with sign [neg]. *)
Definition py_float_body (neg : bool) (body : string) : result float64 :=
  let '(ip, rest) := span_digits body in
  match rest with
  | EmptyString =>
      match ip with
      | EmptyString => Raise ValueError
      | _ => Return (dec2float neg (digits_value ip 0) 0)
      end
  | String "." fp =>
      if all_digits fp && negb (String.length ip + String.length fp =? 0)%nat
      then Return (dec2float neg (digits_value (ip ++ fp) 0) (String.length fp))
      else Raise ValueError
  | _ => Raise ValueError
  end.

(** A finite double in units of [2^-1074], the smallest positive double:
    an integer for every exponent that a double can have. *)
Definition f64_units (x : float64) : Z :=
  match x with
  | S754_finite s m e => (if s then Z.neg m else Z.pos m) * 2 ^ (e + 1074)
  | _ => 0
  end.

(** [x] is a double: finite, with a mantissa and an exponent in range. *)
Definition is_double (x : float64) : bool :=
  is_finite x && valid_binary prec64 emax64 x.

(** The [item] element that carries [x] with four decimals, as the
    encoder prints it. *)
Definition item_of (x : float64) : Element := Elem "item" (Some (fmt4 x)) [].

(** A reply-shaped document: an envelope whose data element holds the
    three groups, the channel block listing [vs]. *)
Definition reply_document (vs : list float64) (aircraft_state notification : list Element)
  : Element :=
  Elem "Envelope" None
    [Elem "Body" None
       [Elem "ReturnData" None
          [Elem "m-previousInputsState" None
             [Elem "m-selectedChannels" (Some "4095") [];
              Elem "m-channelValues-0to1" None (List.map item_of vs)];
           Elem "m-aircraftState" None aircraft_state;
           Elem "m-notifications" None notification]]].

(** The distance between two finite floats is at most [10^-4]. *)
Definition within_4_decimals (y x : float64) : Prop :=
  (Qabs (f64_val y - f64_val x) <= 1 # 10000)%Q.

Definition c_0_25 : float64 := dec2float false 25 2.    (* 0.25 *)

(** ** Vocabulary of the value coercion

    The model reads a Python [str] as a [string] of ASCII characters;
    [str.isdigit] and [float] also accept digits outside ASCII, which
    such a string cannot hold.  The statements about [is_number] and
    [parse_tail] are therefore made for ASCII strings. *)
Fixpoint is_ascii (s : string) : bool :=
  match s with
  | EmptyString => true
  | String c r => (N_of_ascii c <? 128)%N && is_ascii r
  end.

Definition sign_text (neg : bool) : string := if neg then "-" else "".

(** The decimal numerals, written independently of [py_float]: an
    optional minus sign, then digits with at most one point and at least
    one digit.  [is_numeral s neg d k] reads [s] as the numeral with sign
    [neg] whose digits, the point left out, make up the integer [d],
    [k] of them behind the point. *)
Inductive is_numeral : string -> bool -> N -> nat -> Prop :=
| numeral_integer (neg : bool) (ip : string) :
    all_digits ip = true -> ip <> EmptyString ->
    is_numeral (sign_text neg ++ ip) neg (digits_value ip 0) 0
| numeral_point (neg : bool) (ip fp : string) :
    all_digits ip = true -> all_digits fp = true ->
    (String.length ip + String.length fp <> 0)%nat ->
    is_numeral (sign_text neg ++ ip ++ "." ++ fp) neg
      (digits_value (ip ++ fp) 0) (String.length fp).

(** The rational number a numeral denotes: [(-1)^neg * d / 10^k]. *)
Definition decimal_value (neg : bool) (d : N) (k : nat) : Q :=
  (if neg then - Z.of_N d else Z.of_N d) # Z.to_pos (10 ^ Z.of_nat k).

(** [f] is a binary64 rounding of the rational [q]: a double nearest to
    [q] among all doubles, or the infinity of the sign of [q] when [q]
    lies beyond every double. *)
Definition rounds_to (q : Q) (f : float64) : Prop :=
  match f with
  | S754_nan => False
  | S754_infinity s =>
      (if s then q < 0 else 0 < q)%Q
      /\ forall x, is_double x = true -> (Qabs (f64_val x) < Qabs q)%Q
  | _ => is_double f = true
         /\ forall x, is_double x = true ->
                      (Qabs (f64_val f - q) <= Qabs (f64_val x - q))%Q
  end.

(** * Properties *)

(** ** The constructor *)

(** C6, as stated, fails: channel 4 is not the throttle channel (channel
    2) and its default is 0.0, not 0.5. *)
Lemma C6_rcin4_default_is_zero :
  4%N <> 2%N /\
  state init !! rcin 4 = Some (VFloat f64_zero) /\
  state init !! rcin 4 <> Some (VFloat c_0_5).
Proof.
  split; [discriminate|]. split; [reflexivity|]. vm_compute. discriminate.
Qed.

(** C6, amended: in a freshly constructed connector the receiver channels
    0, 1 and 3 default to 0.5; channel 2 (throttle) and the channels 4 to
    11 default to 0.0. *)
Theorem C6_rcin_defaults (i : N) :
  (i < 12)%N ->
  state init !! rcin i
  = Some (VFloat (if (i =? 0)%N || (i =? 1)%N || (i =? 3)%N then c_0_5 else f64_zero)).
Proof.
  intros Hi.
  assert (H : In i [0; 1; 2; 3; 4; 5; 6; 7; 8; 9; 10; 11]%N).
  { simpl. lia. }
  simpl in H.
  repeat (destruct H as [<- | H]; [reflexivity|]).
  contradiction.
Qed.

Lemma C6_rcin_defaults_witness :
  state init !! rcin 1 = Some (VFloat c_0_5)
  /\ state init !! rcin 2 = Some (VFloat f64_zero)
  /\ state init !! rcin 7 = Some (VFloat f64_zero).
Proof.
  split; [| split].
  - apply (C6_rcin_defaults 1). reflexivity.
  - apply (C6_rcin_defaults 2). reflexivity.
  - apply (C6_rcin_defaults 7). reflexivity.
Defined.

(** ** Decoding a reply *)

(** C1, as stated, fails: the reply below parses, lacks the aircraft-state
    group, and [parse_reply] raises only after the channel block has
    overwritten [rcin0]. *)
Lemma C1_partial_update_visible :
  malformed xml_fromstring reply_without_aircraft_state
  /\ snd (parse_reply xml_fromstring init_state reply_without_aircraft_state)
     = Raise IndexError
  /\ init_state !! rcin 0 = Some (VFloat c_0_5)
  /\ fst (parse_reply xml_fromstring init_state reply_without_aircraft_state) !! rcin 0
     = Some (VFloat (dec2float false 1 0))
  /\ ~ (exists e, parse_reply xml_fromstring init_state reply_without_aircraft_state
                  = (init_state, Raise e)).
Proof.
  split; [|split; [|split; [|split]]].
  - right. eexists. split; [vm_compute; reflexivity|].
    right. left. exists IndexError. vm_compute. reflexivity.
  - vm_compute. reflexivity.
  - vm_compute. reflexivity.
  - vm_compute. reflexivity.
  - intros [e He].
    assert (H : fst (parse_reply xml_fromstring init_state reply_without_aircraft_state)
                !! rcin 0 = init_state !! rcin 0) by (rewrite He; reflexivity).
    vm_compute in H. discriminate.
Qed.

(** C1, amended: every malformed reply makes [parse_reply] raise one
    exception.  The store is left unchanged when the text is not XML or
    when group 0 is missing.  When group 1 is missing, the store is the
    one the loop over group 0 has produced; when group 2 is missing, it
    is the one the loops over groups 0 and 1 have produced (the one of
    group 0 alone if that loop raised): the writes made before the
    exception are kept. *)
Theorem C1_malformed_reply_raises
    (fromstring : string -> option Element) (st : State) (reply : string) :
  malformed fromstring reply ->
  exists e st',
    parse_reply fromstring st reply = (st', Raise e)
    /\ (malformed_early fromstring reply -> st' = st)
    /\ (forall root g0,
          fromstring (xml_txt reply) = Some root ->
          group root 0 = Return g0 -> raises (group root 1) ->
          st' = fst (channel_blocks (children g0) st))
    /\ (forall root g0 g1,
          fromstring (xml_txt reply) = Some root ->
          group root 0 = Return g0 -> group root 1 = Return g1 ->
          raises (group root 2) ->
          st' = match channel_blocks (children g0) st with
                | (st1, Return _) => fst (known_items (children g1) st1)
                | (st1, Raise _) => st1
                end).
Proof.
  intros [Hnone | (root & Hroot & Hgroups)].
  - unfold parse_reply. rewrite Hnone. exists ParseError, st.
    split; [reflexivity|]. split; [reflexivity|].
    split; intros; congruence.
  - destruct (group root 0) as [g0|e0] eqn:E0.
    + assert (Hearly : ~ malformed_early fromstring reply).
      { intros [H | (r & Hr & [e He])]; [congruence|].
        rewrite Hroot in Hr. injection Hr as <-. congruence. }
      unfold parse_reply. rewrite Hroot. unfold parse_root. rewrite E0.
      destruct (channel_blocks (children g0) st) as [st1 [[]|e1]] eqn:Eb.
      2:{ exists e1, st1. split; [reflexivity|].
          split; [intros H; destruct (Hearly H)|].
          split.
          - intros r g Hr Hg _. injection Hr as <-.
            rewrite E0 in Hg. injection Hg as <-. rewrite Eb. reflexivity.
          - intros r g g1 Hr Hg _ _. injection Hr as <-.
            rewrite E0 in Hg. injection Hg as <-. rewrite Eb. reflexivity. }
      destruct (group root 1) as [g1|e1] eqn:E1.
      2:{ exists e1, st1. split; [reflexivity|].
          split; [intros H; destruct (Hearly H)|].
          split.
          - intros r g Hr Hg _. injection Hr as <-.
            rewrite E0 in Hg. injection Hg as <-. rewrite Eb. reflexivity.
          - intros r g g1 Hr Hg Hg1 _. injection Hr as <-.
            congruence. }
      destruct (known_items (children g1) st1) as [st2 [[]|e2]] eqn:Ek.
      2:{ exists e2, st2. split; [reflexivity|].
          split; [intros H; destruct (Hearly H)|].
          split.
          - intros r g Hr Hg [e He]. injection Hr as <-.
            congruence.
          - intros r g g1' Hr Hg Hg1 _. injection Hr as <-.
            rewrite E0 in Hg. injection Hg as <-.
            rewrite E1 in Hg1. injection Hg1 as <-.
            rewrite Eb, Ek. reflexivity. }
      destruct (group root 2) as [g2|e2] eqn:E2.
      2:{ exists e2, st2. split; [reflexivity|].
          split; [intros H; destruct (Hearly H)|].
          split.
          - intros r g Hr Hg [e He]. injection Hr as <-.
            congruence.
          - intros r g g1' Hr Hg Hg1 _. injection Hr as <-.
            rewrite E0 in Hg. injection Hg as <-.
            rewrite E1 in Hg1. injection Hg1 as <-.
            rewrite Eb, Ek. reflexivity. }
      exfalso.
      destruct Hgroups as [[e He] | [[e He] | [e He]]]; congruence.
    + unfold parse_reply. rewrite Hroot. unfold parse_root. rewrite E0.
      exists e0, st. split; [reflexivity|]. split; [reflexivity|].
      split.
      * intros r g Hr Hg _. injection Hr as <-. congruence.
      * intros r g g1 Hr Hg _ _. injection Hr as <-. congruence.
Qed.

Lemma C1_malformed_reply_raises_witness :
  exists e st',
    parse_reply xml_fromstring init_state reply_without_aircraft_state = (st', Raise e)
    /\ (malformed_early xml_fromstring reply_without_aircraft_state -> st' = init_state)
    /\ (forall root g0,
          xml_fromstring (xml_txt reply_without_aircraft_state) = Some root ->
          group root 0 = Return g0 -> raises (group root 1) ->
          st' = fst (channel_blocks (children g0) init_state))
    /\ (forall root g0 g1,
          xml_fromstring (xml_txt reply_without_aircraft_state) = Some root ->
          group root 0 = Return g0 -> group root 1 = Return g1 ->
          raises (group root 2) ->
          st' = match channel_blocks (children g0) init_state with
                | (st1, Return _) => fst (known_items (children g1) st1)
                | (st1, Raise _) => st1
                end).
Proof.
  apply (C1_malformed_reply_raises xml_fromstring init_state reply_without_aircraft_state).
  right.
  exists (match xml_fromstring (xml_txt reply_without_aircraft_state) with
          | Some root => root
          | None => Elem EmptyString None []
          end).
  split; [vm_compute; reflexivity|].
  right. left. exists IndexError. vm_compute. reflexivity.
Defined.

(** The guarded loops of groups 1 and 2 never change the key set. *)
Lemma known_items_dom (items : list Element) (st : State) :
  dom (fst (known_items items st)) = dom st.
Proof.
  revert st. induction items as [|item rest IH]; intros st; simpl; [reflexivity|].
  destruct (st !! tag item) as [old|] eqn:Hold; [|apply IH].
  destruct (parse_tail (text item)) as [v|e]; [|reflexivity].
  rewrite IH, dom_insert_L.
  assert (tag item ∈ dom st) by (apply elem_of_dom; eauto).
  set_solver.
Qed.

(** C2 fails on the code: the channel block writes [rcin12] for a
    thirteenth item although the key is not in the store, while the loops
    of groups 1 and 2 test membership first ([known_items_dom]). *)
Theorem C2_channel_block_inserts_rcin12 :
  snd (parse_reply xml_fromstring init_state reply_13_items) = Return tt
  /\ init_state !! rcin 12 = None
  /\ fst (parse_reply xml_fromstring init_state reply_13_items) !! rcin 12
     = Some (VFloat (dec2float false 1 0))
  /\ dom (fst (parse_reply xml_fromstring init_state reply_13_items)) <> dom init_state.
Proof.
  assert (Hnew : fst (parse_reply xml_fromstring init_state reply_13_items) !! rcin 12
                 = Some (VFloat (dec2float false 1 0))) by (vm_compute; reflexivity).
  assert (Hold : init_state !! rcin 12 = None) by (vm_compute; reflexivity).
  split; [vm_compute; reflexivity|]. split; [exact Hold|]. split; [exact Hnew|].
  intros Hdom.
  assert (Hin : rcin 12 ∈ dom init_state).
  { rewrite <- Hdom. apply elem_of_dom. rewrite Hnew. eauto. }
  apply elem_of_dom in Hin. rewrite Hold in Hin. destruct Hin as [v Hv]. discriminate.
Qed.

(** ** One exchange *)

(** C4, as stated, fails: a vector of thirteen values is encoded and sent. *)
Lemma C4_longer_vector_is_sent :
  length (control_neutral 13) <> 12%nat
  /\ snd (exchange_data xml_fromstring (always "") init [] (control_neutral 13)) = Return tt
  /\ snd (fst (exchange_data xml_fromstring (always "") init [] (control_neutral 13))) <> [].
Proof.
  split; [vm_compute; lia|]. split; [vm_compute; reflexivity|].
  vm_compute. discriminate.
Qed.

(** C4, amended: a control vector shorter than 12 makes the encoding step
    raise before the transport is used; a vector longer than 12 is not
    rejected: it is encoded like its first 12 values and sent. *)
Theorem C4_control_vector_length
    (fromstring : string -> option Element) (post : string -> string -> result string)
    (self : Session) (wire : list (string * string)) (control_input : list float64) :
  length control_input <> 12%nat ->
  if (length control_input <? 12)%nat
  then exchange_data fromstring post self wire control_input = (self, wire, Raise IndexError)
  else exists msg,
      format_exchange_data control_input = Return msg
      /\ format_exchange_data (firstn 12 control_input) = Return msg
      /\ snd (fst (exchange_data fromstring post self wire control_input))
         = ("ExchangeData", msg) :: wire.
Proof.
  intros _. unfold exchange_data, format_exchange_data.
  destruct (length control_input <? 12)%nat eqn:Hlen; [reflexivity|].
  apply Nat.ltb_ge in Hlen.
  eexists. split; [reflexivity|]. split.
  - rewrite length_firstn, Nat.min_l by exact Hlen. simpl.
    rewrite firstn_firstn. reflexivity.
  - unfold soap_request.
    destruct (post _ _) as [[|c reply]|e]; [reflexivity| |reflexivity].
    destruct (on_reply _ _ _); reflexivity.
Qed.

Lemma C4_control_vector_length_witness :
  exchange_data xml_fromstring (always "") init [] (control_neutral 11)
  = (init, [], Raise IndexError).
Proof.
  apply (C4_control_vector_length xml_fromstring (always "") init [] (control_neutral 11)).
  vm_compute. lia.
Defined.

(** C5, as stated, fails: after an empty reply no counter of the session
    has moved; the connector is exactly as before. *)
Lemma C5_empty_reply_counts_nothing :
  snd (exchange_data xml_fromstring (always "") init [] (control_neutral 12)) = Return tt
  /\ frame_counter (fst (fst (exchange_data xml_fromstring (always "") init []
                                            (control_neutral 12)))) = frame_counter init
  /\ activation_frame_counter (fst (fst (exchange_data xml_fromstring (always "") init []
                                            (control_neutral 12))))
     = activation_frame_counter init
  /\ socket_frame_counter (fst (fst (exchange_data xml_fromstring (always "") init []
                                            (control_neutral 12))))
     = socket_frame_counter init.
Proof.
  repeat split; vm_compute; reflexivity.
Qed.

(** C5, amended: when the transport returns an empty reply, no error is
    raised and the whole session is unchanged, store and counters alike:
    no exchange-attempt counter is incremented. *)
Theorem C5_empty_reply_changes_nothing
    (fromstring : string -> option Element) (post : string -> string -> result string)
    (self : Session) (wire : list (string * string)) (control_input : list float64)
    (msg : string) :
  format_exchange_data control_input = Return msg ->
  post "ExchangeData" msg = Return "" ->
  exchange_data fromstring post self wire control_input
  = (self, ("ExchangeData", msg) :: wire, Return tt).
Proof.
  intros Hfmt Hpost. unfold exchange_data, soap_request.
  rewrite Hfmt, Hpost. reflexivity.
Qed.

Lemma C5_empty_reply_changes_nothing_witness :
  exists msg,
    exchange_data xml_fromstring (always "") init [] (control_neutral 12)
    = (init, [("ExchangeData", msg)], Return tt).
Proof.
  eexists.
  apply (C5_empty_reply_changes_nothing xml_fromstring (always "") init []
           (control_neutral 12)).
  - vm_compute. reflexivity.
  - reflexivity.
Defined.

(** What an exchange leaves alone, on the reply path. *)
Lemma on_reply_frame
    (fromstring : string -> option Element) (self : Session) (reply : string) :
  let self' := fst (on_reply fromstring self reply) in
  servos self' = servos self
  /\ controller_started self' = controller_started self
  /\ frame_counter self' = frame_counter self
  /\ activation_frame_counter self' = activation_frame_counter self.
Proof.
  unfold on_reply.
  destruct (state self !! PHYSICS_TIME) as [lastt_s|]; [|repeat split].
  destruct (parse_reply fromstring (state self) reply) as [st1 [[]|e]]; [|repeat split].
  destruct (st1 !! PHYSICS_TIME) as [now|]; [|repeat split].
  destruct (value_sub now lastt_s) as [dt|e]; [|repeat split].
  destruct (accepted dt); [|repeat split].
  destruct (num_ltb _ _); destruct (blend _ dt); repeat split.
Qed.

(** C10: whatever the control input and the outcome of the transport and
    of the decoding, [exchange_data] leaves [servos], [controller_started],
    [frame_counter] and [activation_frame_counter] as they were. *)
Theorem C10_exchange_frame
    (fromstring : string -> option Element) (post : string -> string -> result string)
    (self : Session) (wire : list (string * string)) (control_input : list float64) :
  let self' := fst (fst (exchange_data fromstring post self wire control_input)) in
  servos self' = servos self
  /\ controller_started self' = controller_started self
  /\ frame_counter self' = frame_counter self
  /\ activation_frame_counter self' = activation_frame_counter self.
Proof.
  unfold exchange_data, soap_request.
  destruct (format_exchange_data control_input) as [msg|e]; [|repeat split].
  destruct (post "ExchangeData" msg) as [[|c reply]|e]; [repeat split| |repeat split].
  pose proof (on_reply_frame fromstring self (String c reply)) as H.
  destruct (on_reply fromstring self (String c reply)) as [self1 r1]. exact H.
Qed.

(** ** Frame timing *)

Lemma accepted_is_float (dt : num) :
  accepted dt = true -> exists d, dt = NFloat d.
Proof.
  destruct dt as [z|d]; [|eauto].
  unfold accepted, num_ltb.
  change c_0_1 with (S754_finite false 7205759403792794 (-56)).
  unfold int_lt_float. simpl Z.leb. cbv iota.
  intros H. apply andb_prop in H as [H0 H1].
  apply Z.ltb_lt in H0, H1. change (- -56) with 56 in H1.
  change (2 ^ 56) with 72057594037927936 in H1. lia.
Qed.

Lemma below_threshold_or_float (a : num) :
  average_ok a -> num_ltb a (NFloat c_1em6) = false -> exists x, a = NFloat x.
Proof.
  destruct a as [z|x]; [|eauto].
  simpl. intros ->. vm_compute. discriminate.
Qed.

Lemma blend_floats (a d : float64) :
  blend (NFloat a) (NFloat d)
  = Return (NFloat (f64_add (f64_mul a c_0_98) (f64_mul d c_0_02))).
Proof. reflexivity. Qed.

(** C3, as stated, fails: with the fresh session and a first physics time
    of 0.00005 s the sample is accepted, and the average stored afterwards
    is not that [dt]. *)
Lemma C3_seeded_average_is_not_dt :
  num_ltb (average_frame_time_s init) (NFloat c_1em6) = true
  /\ state init !! PHYSICS_TIME = Some (VInt 0)
  /\ state (fst (fst (exchange_data xml_fromstring (always (reply_at_time "0.00005"))
                        init [] (control_neutral 12)))) !! PHYSICS_TIME
     = Some (VFloat (dec2float false 5 5))
  /\ value_sub (VFloat (dec2float false 5 5)) (VInt 0) = Return (NFloat (dec2float false 5 5))
  /\ accepted (NFloat (dec2float false 5 5)) = true
  /\ average_frame_time_s
       (fst (fst (exchange_data xml_fromstring (always (reply_at_time "0.00005"))
                    init [] (control_neutral 12))))
     <> NFloat (dec2float false 5 5).
Proof.
  repeat split; try (vm_compute; reflexivity).
  vm_compute. discriminate.
Qed.

(** C3, amended: when the average is still below 1e-6 and the exchange
    yields an accepted [dt], the old average does not enter the new one:
    the connector stores [dt] and then blends it with itself, so that the
    average after the exchange is the float [dt * 0.98 + dt * 0.02]. *)
Theorem C3_first_sample_replaces_average
    (fromstring : string -> option Element) (post : string -> string -> result string)
    (self : Session) (wire : list (string * string)) (control_input : list float64)
    (st1 : State) (lastt_s now : value) (dt : num) :
  num_ltb (average_frame_time_s self) (NFloat c_1em6) = true ->
  exchange_yields fromstring post self control_input st1 lastt_s now dt ->
  accepted dt = true ->
  exists d,
    dt = NFloat d
    /\ snd (exchange_data fromstring post self wire control_input) = Return tt
    /\ average_frame_time_s (fst (fst (exchange_data fromstring post self wire control_input)))
       = NFloat (f64_add (f64_mul d c_0_98) (f64_mul d c_0_02)).
Proof.
  intros Hlow (msg & reply & Hfmt & Hpost & Hne & Hlast & Hparse & Hnow & Hdt) Hacc.
  destruct (accepted_is_float dt Hacc) as [d ->]. exists d.
  split; [reflexivity|].
  unfold exchange_data, soap_request. rewrite Hfmt, Hpost.
  destruct reply as [|c reply]; [congruence|].
  unfold on_reply. rewrite Hlast, Hparse. cbn [set_state state].
  rewrite Hnow, Hdt, Hacc. cbn [average_frame_time_s set_state].
  rewrite Hlow. cbn [average_frame_time_s set_average_frame_time_s].
  rewrite blend_floats. split; reflexivity.
Qed.

Lemma C3_first_sample_replaces_average_witness :
  exists d,
    NFloat (dec2float false 2 2) = NFloat d
    /\ snd (exchange_data xml_fromstring (always (reply_at_time "0.02")) init []
              (control_neutral 12)) = Return tt
    /\ average_frame_time_s
         (fst (fst (exchange_data xml_fromstring (always (reply_at_time "0.02")) init []
                      (control_neutral 12))))
       = NFloat (f64_add (f64_mul d c_0_98) (f64_mul d c_0_02)).
Proof.
  apply (C3_first_sample_replaces_average xml_fromstring (always (reply_at_time "0.02"))
           init [] (control_neutral 12)
           (fst (parse_reply xml_fromstring init_state (reply_at_time "0.02")))
           (VInt 0) (VFloat (dec2float false 2 2))).
  - vm_compute. reflexivity.
  - exists (match format_exchange_data (control_neutral 12) with
            | Return m => m
            | Raise _ => EmptyString
            end), (reply_at_time "0.02").
    repeat split; try (vm_compute; reflexivity).
    vm_compute. discriminate.
  - vm_compute. reflexivity.
Defined.

(** C8, as stated, fails: the reply below is not empty and reports a new
    physics time, but it lacks the notification group, so [parse_reply]
    raises after the store has taken the new time, and the increment of
    [socket_frame_counter] is never reached. *)
Lemma C8_raising_reply_skips_counter :
  reply_without_notifications "0.5" <> EmptyString
  /\ snd (exchange_data xml_fromstring (always (reply_without_notifications "0.5")) init []
            (control_neutral 12)) = Raise IndexError
  /\ state init !! PHYSICS_TIME = Some (VInt 0)
  /\ state (fst (fst (exchange_data xml_fromstring
                        (always (reply_without_notifications "0.5")) init []
                        (control_neutral 12))))
     !! PHYSICS_TIME = Some (VFloat c_0_5)
  /\ socket_frame_counter
       (fst (fst (exchange_data xml_fromstring
                    (always (reply_without_notifications "0.5")) init []
                    (control_neutral 12))))
     = socket_frame_counter init.
Proof.
  split; [vm_compute; discriminate|].
  repeat split; vm_compute; reflexivity.
Qed.

(** C8, amended: on an exchange whose reply decodes and yields a delta
    [dt], the store holds the newly received physics time and
    [socket_frame_counter] is incremented, whether or not the sample is
    accepted; when [dt] is outside (0, 0.1) the average is left
    unchanged.  On a non-empty reply whose decoding raises, the exchange
    raises the same exception, keeps the store as [parse_reply] left it
    and changes neither [socket_frame_counter] nor the average. *)
Theorem C8_rejected_sample_keeps_average
    (fromstring : string -> option Element) (post : string -> string -> result string)
    (self : Session) (wire : list (string * string)) (control_input : list float64)
    (st1 : State) (lastt_s now : value) (dt : num) :
  average_ok (average_frame_time_s self) ->
  (exchange_yields fromstring post self control_input st1 lastt_s now dt ->
   snd (exchange_data fromstring post self wire control_input) = Return tt
   /\ state (fst (fst (exchange_data fromstring post self wire control_input))) = st1
   /\ state (fst (fst (exchange_data fromstring post self wire control_input)))
      !! PHYSICS_TIME = Some now
   /\ socket_frame_counter (fst (fst (exchange_data fromstring post self wire control_input)))
      = socket_frame_counter self + 1
   /\ (accepted dt = false ->
       average_frame_time_s (fst (fst (exchange_data fromstring post self wire control_input)))
       = average_frame_time_s self))
  /\ (forall (msg reply : string) (e : exn),
        format_exchange_data control_input = Return msg ->
        post "ExchangeData"%string msg = Return reply ->
        reply <> EmptyString ->
        state self !! PHYSICS_TIME = Some lastt_s ->
        parse_reply fromstring (state self) reply = (st1, Raise e) ->
        snd (exchange_data fromstring post self wire control_input) = Raise e
        /\ state (fst (fst (exchange_data fromstring post self wire control_input))) = st1
        /\ socket_frame_counter
             (fst (fst (exchange_data fromstring post self wire control_input)))
           = socket_frame_counter self
        /\ average_frame_time_s
             (fst (fst (exchange_data fromstring post self wire control_input)))
           = average_frame_time_s self).
Proof.
  intros Hok. split.
  - intros (msg & reply & Hfmt & Hpost & Hne & Hlast & Hparse & Hnow & Hdt).
    unfold exchange_data, soap_request. rewrite Hfmt, Hpost.
    destruct reply as [|c reply]; [congruence|].
    unfold on_reply. rewrite Hlast, Hparse. cbn [set_state state].
    rewrite Hnow, Hdt.
    destruct (accepted dt) eqn:Hacc.
    + destruct (accepted_is_float dt Hacc) as [d ->].
      cbn [average_frame_time_s set_state].
      destruct (num_ltb (average_frame_time_s self) (NFloat c_1em6)) eqn:Hlow.
      * cbn [average_frame_time_s set_average_frame_time_s]. rewrite blend_floats.
        repeat split; try assumption. discriminate.
      * destruct (below_threshold_or_float _ Hok Hlow) as [x Hx].
        cbn [average_frame_time_s set_state]. rewrite Hx, blend_floats.
        repeat split; try assumption. discriminate.
    + repeat split; assumption.
  - intros msg reply e Hfmt Hpost Hne Hlast Hparse.
    unfold exchange_data, soap_request. rewrite Hfmt, Hpost.
    destruct reply as [|c reply]; [congruence|].
    unfold on_reply. rewrite Hlast, Hparse.
    repeat split; reflexivity.
Qed.

Lemma C8_rejected_sample_keeps_average_witness :
  (snd (exchange_data xml_fromstring (always (reply_at_time "0.5")) init []
          (control_neutral 12)) = Return tt
   /\ state (fst (fst (exchange_data xml_fromstring (always (reply_at_time "0.5")) init []
                         (control_neutral 12))))
      = fst (parse_reply xml_fromstring init_state (reply_at_time "0.5"))
   /\ state (fst (fst (exchange_data xml_fromstring (always (reply_at_time "0.5")) init []
                         (control_neutral 12))))
      !! PHYSICS_TIME = Some (VFloat c_0_5)
   /\ socket_frame_counter
        (fst (fst (exchange_data xml_fromstring (always (reply_at_time "0.5")) init []
                     (control_neutral 12))))
      = socket_frame_counter init + 1
   /\ (accepted (NFloat c_0_5) = false ->
       average_frame_time_s
         (fst (fst (exchange_data xml_fromstring (always (reply_at_time "0.5")) init []
                      (control_neutral 12))))
       = average_frame_time_s init))
  /\ (snd (exchange_data xml_fromstring (always (reply_without_notifications "0.5")) init []
             (control_neutral 12)) = Raise IndexError
      /\ state (fst (fst (exchange_data xml_fromstring
                            (always (reply_without_notifications "0.5")) init []
                            (control_neutral 12))))
         = fst (parse_reply xml_fromstring init_state (reply_without_notifications "0.5"))
      /\ socket_frame_counter
           (fst (fst (exchange_data xml_fromstring
                        (always (reply_without_notifications "0.5")) init []
                        (control_neutral 12))))
         = socket_frame_counter init
      /\ average_frame_time_s
           (fst (fst (exchange_data xml_fromstring
                        (always (reply_without_notifications "0.5")) init []
                        (control_neutral 12))))
         = average_frame_time_s init).
Proof.
  split.
  - apply (C8_rejected_sample_keeps_average xml_fromstring (always (reply_at_time "0.5"))
             init [] (control_neutral 12)
             (fst (parse_reply xml_fromstring init_state (reply_at_time "0.5")))
             (VInt 0) (VFloat c_0_5) (NFloat c_0_5)).
    + reflexivity.
    + exists (match format_exchange_data (control_neutral 12) with
              | Return m => m
              | Raise _ => EmptyString
              end), (reply_at_time "0.5").
      repeat split; try (vm_compute; reflexivity).
      vm_compute. discriminate.
  - destruct (C8_rejected_sample_keeps_average xml_fromstring
                (always (reply_without_notifications "0.5"))
                init [] (control_neutral 12)
                (fst (parse_reply xml_fromstring init_state
                        (reply_without_notifications "0.5")))
                (VInt 0) (VFloat c_0_5) (NFloat c_0_5) eq_refl) as [_ Hraise].
    apply (Hraise (match format_exchange_data (control_neutral 12) with
                   | Return m => m
                   | Raise _ => EmptyString
                   end)
             (reply_without_notifications "0.5") IndexError).
    + vm_compute. reflexivity.
    + vm_compute. reflexivity.
    + vm_compute. discriminate.
    + vm_compute. reflexivity.
    + reflexivity.
Defined.

(** The invariant used by C8 holds initially and is kept by every exchange. *)
Lemma average_ok_init : average_ok (average_frame_time_s init).
Proof. reflexivity. Qed.

Lemma average_ok_exchange_data
    (fromstring : string -> option Element) (post : string -> string -> result string)
    (self : Session) (wire : list (string * string)) (control_input : list float64) :
  average_ok (average_frame_time_s self) ->
  average_ok (average_frame_time_s
                (fst (fst (exchange_data fromstring post self wire control_input)))).
Proof.
  intros Hok. unfold exchange_data, soap_request.
  destruct (format_exchange_data control_input) as [msg|e]; [|exact Hok].
  destruct (post "ExchangeData" msg) as [[|c reply]|e]; [exact Hok| |exact Hok].
  unfold on_reply.
  destruct (state self !! PHYSICS_TIME) as [lastt_s|]; [|exact Hok].
  destruct (parse_reply fromstring (state self) (String c reply)) as [st1 [[]|e]];
    [|exact Hok].
  destruct (st1 !! PHYSICS_TIME) as [now|]; [|exact Hok].
  destruct (value_sub now lastt_s) as [dt|e]; [|exact Hok].
  destruct (accepted dt) eqn:Hacc; [|exact Hok].
  destruct (accepted_is_float dt Hacc) as [d ->].
  cbn [average_frame_time_s set_state].
  destruct (num_ltb (average_frame_time_s self) (NFloat c_1em6)) eqn:Hlow.
  - cbn [average_frame_time_s set_average_frame_time_s]. rewrite blend_floats. exact I.
  - destruct (below_threshold_or_float _ Hok Hlow) as [x Hx].
    cbn [average_frame_time_s set_state]. rewrite Hx, blend_floats. exact I.
Qed.

(** ** Value coercion *)

Lemma isdigit_spec (s : string) :
  isdigit s = true <-> all_digits s = true /\ s <> EmptyString.
Proof.
  destruct s as [|c r]; simpl.
  - split; [discriminate | intros [_ H]; congruence].
  - split; [intros H; split; [exact H | discriminate] | intros [H _]; exact H].
Qed.

Lemma parse_tail_str_number (s : string) :
  is_number s = true ->
  parse_tail_str s = match py_float s with
                     | Return f => Return (VFloat f)
                     | Raise e => Raise e
                     end.
Proof. intros H. unfold parse_tail_str. rewrite H. reflexivity. Qed.

Lemma parse_tail_str_bool (s : string) (b : bool) :
  parse_tail_str s = Return (VBool b) <-> s = if b then "true"%string else "false"%string.
Proof.
  split.
  - unfold parse_tail_str.
    destruct (is_number s); [destruct (py_float s); discriminate|].
    destruct (String.eqb_spec s "true") as [->|Ht].
    { intros [= <-]. reflexivity. }
    destruct (String.eqb_spec s "false") as [->|Hf].
    { intros [= <-]. reflexivity. }
    discriminate.
  - intros ->. destruct b; reflexivity.
Qed.

(** * Further properties *)

(** ** Decimal numerals and channel keys *)

Lemma digit_char_is_digit (d : N) :
  (d < 10)%N -> is_digit (digit_char d) = true /\ digit_val (digit_char d) = d.
Proof.
  intros H.
  assert (Hd : In d [0; 1; 2; 3; 4; 5; 6; 7; 8; 9]%N) by (simpl; lia).
  simpl in Hd.
  repeat (destruct Hd as [<- | Hd]; [split; reflexivity|]).
  contradiction.
Qed.

Lemma string_app_cons (c : ascii) (s t : string) :
  (String c s ++ t)%string = String c (s ++ t).
Proof. reflexivity. Qed.

Lemma string_app_nil_l (t : string) : (EmptyString ++ t)%string = t.
Proof. reflexivity. Qed.

Lemma digits_value_app (s t : string) (v : N) :
  digits_value (s ++ t) v = digits_value t (digits_value s v).
Proof.
  revert v. induction s as [|c s IH]; intros v; [reflexivity|].
  rewrite string_app_cons. simpl. apply IH.
Qed.

Lemma all_digits_app (s t : string) :
  all_digits (s ++ t) = all_digits s && all_digits t.
Proof.
  induction s as [|c s IH]; [reflexivity|].
  rewrite string_app_cons. simpl. rewrite IH. apply andb_assoc.
Qed.

Lemma string_app_assoc (s t u : string) : ((s ++ t) ++ u = s ++ (t ++ u))%string.
Proof.
  induction s as [|c s IH]; [reflexivity|].
  rewrite !string_app_cons, IH. reflexivity.
Qed.

Lemma string_app_length (s t : string) :
  String.length (s ++ t) = (String.length s + String.length t)%nat.
Proof. induction s as [|c s IH]; simpl; [reflexivity | f_equal; exact IH]. Qed.

(** What [str_of_N_fuel] prepends to [acc] when the fuel suffices: the
    decimal digits of [n], most significant first. *)
Lemma str_of_N_fuel_spec (fuel : nat) :
  forall (n : N) (acc : string),
    (n < 2 ^ N.of_nat (S fuel))%N ->
    exists ds : string,
      str_of_N_fuel fuel n acc = (ds ++ acc)%string
      /\ all_digits ds = true
      /\ ds <> EmptyString
      /\ forall v, digits_value ds v = (v * 10 ^ N.of_nat (String.length ds) + n)%N.
Proof.
  induction fuel as [|fuel IH]; intros n acc Hn.
  - assert (Hlt : (n < 10)%N) by (change (2 ^ N.of_nat 1)%N with 2%N in Hn; lia).
    assert (Hmod : (n mod 10 = n)%N) by (apply N.mod_small; exact Hlt).
    destruct (digit_char_is_digit n Hlt) as [Hd Hv].
    exists (String (digit_char n) EmptyString). simpl. rewrite Hmod.
    repeat split.
    + rewrite Hd. reflexivity.
    + discriminate.
    + intros v. rewrite Hv. change (10 ^ N.of_nat 1)%N with 10%N. lia.
  - cbn [str_of_N_fuel].
    assert (H10 : (n mod 10 < 10)%N) by (apply N.mod_lt; discriminate).
    destruct (digit_char_is_digit _ H10) as [Hd Hv].
    destruct (N.eqb_spec (n / 10) 0) as [Hz | Hnz].
    + exists (String (digit_char (n mod 10)) EmptyString). simpl.
      repeat split.
      * rewrite Hd. reflexivity.
      * discriminate.
      * intros v. rewrite Hv. change (10 ^ N.of_nat 1)%N with 10%N.
        pose proof (N.div_mod n 10 ltac:(discriminate)). lia.
    + assert (Hq : (n / 10 < 2 ^ N.of_nat (S fuel))%N).
      { assert (Hpow : (2 ^ N.of_nat (S (S fuel)) = 2 * 2 ^ N.of_nat (S fuel))%N).
        { rewrite (Nat2N.inj_succ (S fuel)), N.pow_succ_r'. reflexivity. }
        pose proof (N.div_mod n 10 ltac:(discriminate)). lia. }
      destruct (IH (n / 10)%N (String (digit_char (n mod 10)) acc) Hq)
        as (ds & Heq & Hall & Hne & Hval).
      exists (ds ++ String (digit_char (n mod 10)) EmptyString)%string.
      repeat split.
      * rewrite Heq, string_app_assoc. reflexivity.
      * rewrite all_digits_app, Hall. simpl. rewrite Hd. reflexivity.
      * destruct ds; [congruence | discriminate].
      * intros v. rewrite digits_value_app, Hval. simpl. rewrite Hv.
        rewrite string_app_length. simpl String.length.
        replace (N.of_nat (String.length ds + 1)) with (N.succ (N.of_nat (String.length ds)))
          by lia.
        rewrite N.pow_succ_r'.
        pose proof (N.div_mod n 10 ltac:(discriminate)). lia.
Qed.

Lemma string_app_nil_r (s : string) : (s ++ EmptyString)%string = s.
Proof.
  induction s as [|c s IH]; [reflexivity|].
  rewrite string_app_cons, IH. reflexivity.
Qed.

Lemma str_of_N_spec (n : N) :
  all_digits (str_of_N n) = true
  /\ str_of_N n <> EmptyString
  /\ forall v, digits_value (str_of_N n) v
               = (v * 10 ^ N.of_nat (String.length (str_of_N n)) + n)%N.
Proof.
  unfold str_of_N.
  assert (Hn : (n < 2 ^ N.of_nat (S (N.to_nat (N.log2 n))))%N).
  { rewrite Nat2N.inj_succ, N2Nat.id.
    destruct n as [|p]; [reflexivity|].
    apply N.log2_spec. reflexivity. }
  destruct (str_of_N_fuel_spec _ n EmptyString Hn) as (ds & Heq & Hall & Hne & Hval).
  rewrite Heq, string_app_nil_r. auto.
Qed.

(** [str] is injective on the naturals, so distinct channels have
    distinct keys. *)
Lemma str_of_N_inj (a b : N) : str_of_N a = str_of_N b -> a = b.
Proof.
  intros H.
  destruct (str_of_N_spec a) as (_ & _ & Ha).
  destruct (str_of_N_spec b) as (_ & _ & Hb).
  specialize (Ha 0%N). specialize (Hb 0%N). rewrite H in Ha. lia.
Qed.

Lemma rcin_inj (i j : N) : rcin i = rcin j -> i = j.
Proof. unfold rcin. simpl. intros [= H]. apply str_of_N_inj, H. Qed.
(** ** The loops of [parse_reply] *)

Lemma channel_items_dom_mono (items : list Element) (c : N) (st : State) :
  dom st ⊆ dom (fst (channel_items items c st)).
Proof.
  revert c st. induction items as [|item rest IH]; intros c st; simpl; [done|].
  destruct (String.eqb (tag item) "item"); [|apply IH].
  destruct (parse_tail (text item)) as [v|e]; [|done].
  etrans; [|apply IH]. rewrite dom_insert_L. set_solver.
Qed.

Lemma channel_blocks_dom_mono (stuffs : list Element) (st : State) :
  dom st ⊆ dom (fst (channel_blocks stuffs st)).
Proof.
  revert st. induction stuffs as [|stuff rest IH]; intros st; simpl; [done|].
  destruct (String.eqb (tag stuff) "m-channelValues-0to1"); [|apply IH].
  pose proof (channel_items_dom_mono (children stuff) 0%N st) as H.
  destruct (channel_items (children stuff) 0%N st) as [st' [[]|e]]; simpl in *.
  - etrans; [exact H | apply IH].
  - exact H.
Qed.

Lemma parse_root_dom_mono (root : Element) (st : State) :
  dom st ⊆ dom (fst (parse_root root st)).
Proof.
  unfold parse_root.
  destruct (group root 0) as [g0|e0]; [|done].
  pose proof (channel_blocks_dom_mono (children g0) st) as H0.
  destruct (channel_blocks (children g0) st) as [st1 [[]|e1]]; simpl in *; [|exact H0].
  destruct (group root 1) as [g1|e1]; [|exact H0].
  pose proof (known_items_dom (children g1) st1) as H1.
  destruct (known_items (children g1) st1) as [st2 [[]|e2]]; simpl in *;
    [|rewrite H1; exact H0].
  destruct (group root 2) as [g2|e2]; [|simpl; rewrite H1; exact H0].
  rewrite known_items_dom, H1. exact H0.
Qed.

Lemma parse_reply_dom_mono
    (fromstring : string -> option Element) (st : State) (reply : string) :
  dom st ⊆ dom (fst (parse_reply fromstring st reply)).
Proof.
  unfold parse_reply.
  destruct (fromstring (xml_txt reply)) as [root|]; [apply parse_root_dom_mono | done].
Qed.

(** X1: [parse_reply] never removes a key: whatever the reply and whether
    or not the call raises, every key of the store before the call is a
    key of the store after it. *)
Theorem parse_reply_keeps_keys
    (fromstring : string -> option Element) (st : State) (reply : string) (k : string) :
  is_Some (st !! k) -> is_Some (fst (parse_reply fromstring st reply) !! k).
Proof.
  rewrite <- !elem_of_dom. apply parse_reply_dom_mono.
Qed.

Lemma parse_reply_keeps_keys_witness :
  is_Some (fst (parse_reply xml_fromstring init_state reply_13_items) !! PHYSICS_TIME).
Proof.
  apply (parse_reply_keeps_keys xml_fromstring init_state reply_13_items PHYSICS_TIME).
  eexists. reflexivity.
Defined.

Lemma channel_items_dom_eq (items : list Element) :
  forall (c : N) (st : State),
    (forall i, (i < length (List.filter is_item items))%nat ->
               is_Some (st !! rcin (c + N.of_nat i))) ->
    dom (fst (channel_items items c st)) = dom st.
Proof.
  induction items as [|item rest IH]; intros c st Hkeys; simpl; [reflexivity|].
  simpl in Hkeys. unfold is_item in Hkeys at 1.
  destruct (String.eqb (tag item) "item"); [|apply IH, Hkeys].
  assert (Hc : rcin c ∈ dom st).
  { apply elem_of_dom. specialize (Hkeys 0%nat ltac:(simpl; lia)).
    rewrite N.add_0_r in Hkeys. exact Hkeys. }
  destruct (parse_tail (text item)) as [v|e]; [|reflexivity].
  rewrite IH.
  - rewrite dom_insert_L. set_solver.
  - intros i Hi. specialize (Hkeys (S i) ltac:(simpl; lia)).
    replace (c + 1 + N.of_nat i)%N with (c + N.of_nat (S i))%N by lia.
    destruct (decide (rcin c = rcin (c + N.of_nat (S i)))) as [<-|Hne].
    + rewrite lookup_insert_eq. eauto.
    + rewrite lookup_insert_ne by exact Hne. exact Hkeys.
Qed.

Lemma channel_blocks_dom_eq (stuffs : list Element) :
  forall st : State,
    (forall i, (i < 12)%N -> is_Some (st !! rcin i)) ->
    forallb block_fits stuffs = true ->
    dom (fst (channel_blocks stuffs st)) = dom st.
Proof.
  induction stuffs as [|stuff rest IH]; intros st Hkeys Hfit; simpl; [reflexivity|].
  simpl in Hfit. apply andb_prop in Hfit as [Hfit Hrest].
  unfold block_fits in Hfit.
  destruct (String.eqb (tag stuff) "m-channelValues-0to1"); [|apply IH; assumption].
  simpl in Hfit. apply Nat.leb_le in Hfit.
  assert (Hdom : dom (fst (channel_items (children stuff) 0%N st)) = dom st).
  { apply channel_items_dom_eq. intros i Hi. apply Hkeys. lia. }
  destruct (channel_items (children stuff) 0%N st) as [st' [[]|e]]; simpl in *;
    [|exact Hdom].
  rewrite IH; [exact Hdom | | exact Hrest].
  intros i Hi. apply elem_of_dom. rewrite Hdom. apply elem_of_dom, Hkeys, Hi.
Qed.

(** X2: when the store holds the twelve channel keys and no channel block
    of the reply lists more than twelve items, [parse_reply] leaves the
    key set exactly as it was, whether it returns or raises. *)
Theorem parse_reply_key_set_preserved
    (fromstring : string -> option Element) (st : State) (reply : string) :
  (forall i, (i < 12)%N -> is_Some (st !! rcin i)) ->
  reply_fits fromstring reply ->
  dom (fst (parse_reply fromstring st reply)) = dom st.
Proof.
  unfold reply_fits, parse_reply. intros Hkeys Hfit.
  destruct (fromstring (xml_txt reply)) as [root|]; [|reflexivity].
  unfold parse_root.
  destruct (group root 0) as [g0|e0]; [|reflexivity].
  pose proof (channel_blocks_dom_eq (children g0) st Hkeys Hfit) as H0.
  destruct (channel_blocks (children g0) st) as [st1 [[]|e1]]; simpl in *; [|exact H0].
  destruct (group root 1) as [g1|e1]; [|exact H0].
  pose proof (known_items_dom (children g1) st1) as H1.
  destruct (known_items (children g1) st1) as [st2 [[]|e2]]; simpl in *;
    [|rewrite H1; exact H0].
  destruct (group root 2) as [g2|e2]; [|simpl; rewrite H1; exact H0].
  rewrite known_items_dom, H1. exact H0.
Qed.

Lemma init_state_has_channels (i : N) : (i < 12)%N -> is_Some (init_state !! rcin i).
Proof.
  intros Hi.
  assert (H : In i [0; 1; 2; 3; 4; 5; 6; 7; 8; 9; 10; 11]%N) by (simpl; lia).
  simpl in H.
  repeat (destruct H as [<- | H]; [eexists; reflexivity|]).
  contradiction.
Qed.

Lemma parse_reply_key_set_preserved_witness :
  dom (fst (parse_reply xml_fromstring init_state reply_without_aircraft_state))
  = dom init_state.
Proof.
  apply (parse_reply_key_set_preserved xml_fromstring init_state
           reply_without_aircraft_state).
  - exact init_state_has_channels.
  - vm_compute. reflexivity.
Defined.

(** X3: the inner loop of the channel block is positional.  When the
    texts of the [item] children coerce to [vs], the loop returns and
    stores [vs] under [rcin c], [rcin (c+1)], ... in document order;
    children with another tag are skipped without advancing the index,
    and every other key keeps its value. *)
Theorem channel_items_positional (items : list Element) :
  forall (c : N) (st : State) (vs : list value),
    Forall2 (fun it v => parse_tail (text it) = Return v) (List.filter is_item items) vs ->
    snd (channel_items items c st) = Return tt
    /\ (forall (i : nat) (v : value),
          vs !! i = Some v ->
          fst (channel_items items c st) !! rcin (c + N.of_nat i) = Some v)
    /\ (forall k : string,
          (forall i, (i < length vs)%nat -> k <> rcin (c + N.of_nat i)) ->
          fst (channel_items items c st) !! k = st !! k).
Proof.
  induction items as [|item rest IH]; intros c st vs Hvs; simpl in *.
  - inversion Hvs; subst.
    split; [reflexivity|]. split; [intros i v Hi; discriminate | reflexivity].
  - unfold is_item in Hvs at 1.
    destruct (String.eqb (tag item) "item"); [|apply IH, Hvs].
    inversion Hvs as [|it v its vs' Hv Hrest]; subst. rewrite Hv.
    destruct (IH (c + 1)%N (<[rcin c := v]> st) vs' Hrest) as (Hret & Hin & Hout).
    split; [exact Hret|]. split.
    + intros [|i] w Hi.
      * simpl in Hi. injection Hi as <-. rewrite N.add_0_r.
        rewrite Hout; [apply lookup_insert_eq|].
        intros i _ Heq. apply rcin_inj in Heq. lia.
      * simpl in Hi.
        replace (c + N.of_nat (S i))%N with (c + 1 + N.of_nat i)%N by lia.
        apply Hin, Hi.
    + intros k Hk. rewrite Hout.
      * apply lookup_insert_ne. intros Heq. apply (Hk 0%nat); [simpl; lia|].
        rewrite N.add_0_r. congruence.
      * intros i Hi. replace (c + 1 + N.of_nat i)%N with (c + N.of_nat (S i))%N by lia.
        apply Hk. simpl. lia.
Qed.

Lemma channel_items_positional_witness :
  snd (channel_items [Elem "item" (Some "0.5") []; Elem "note" None [];
                      Elem "item" (Some "true") []] 0%N init_state) = Return tt
  /\ (forall (i : nat) (v : value),
        [VFloat c_0_5; VBool true] !! i = Some v ->
        fst (channel_items [Elem "item" (Some "0.5") []; Elem "note" None [];
                            Elem "item" (Some "true") []] 0%N init_state)
        !! rcin (0 + N.of_nat i) = Some v)
  /\ (forall k : string,
        (forall i, (i < length [VFloat c_0_5; VBool true])%nat ->
                   k <> rcin (0 + N.of_nat i)) ->
        fst (channel_items [Elem "item" (Some "0.5") []; Elem "note" None [];
                            Elem "item" (Some "true") []] 0%N init_state) !! k
        = init_state !! k).
Proof.
  apply (channel_items_positional
           [Elem "item" (Some "0.5") []; Elem "note" None []; Elem "item" (Some "true") []]
           0%N init_state [VFloat c_0_5; VBool true]).
  repeat constructor.
Defined.

Lemma known_items_app (l1 l2 : list Element) (st : State) :
  known_items (l1 ++ l2)%list st
  = match known_items l1 st with
    | (st1, Return _) => known_items l2 st1
    | (st1, Raise e) => (st1, Raise e)
    end.
Proof.
  revert st. induction l1 as [|item rest IH]; intros st; simpl; [reflexivity|].
  destruct (st !! tag item); [|apply IH].
  destruct (parse_tail (text item)); [apply IH | reflexivity].
Qed.

Lemma channel_items_app (l1 l2 : list Element) (c : N) (st : State) :
  channel_items (l1 ++ l2)%list c st
  = match channel_items l1 c st with
    | (st1, Return _) =>
        channel_items l2 (c + N.of_nat (length (List.filter is_item l1)))%N st1
    | (st1, Raise e) => (st1, Raise e)
    end.
Proof.
  revert c st. induction l1 as [|item rest IH]; intros c st; simpl.
  - rewrite N.add_0_r. reflexivity.
  - unfold is_item at 1. destruct (String.eqb (tag item) "item"); [|apply IH].
    destruct (parse_tail (text item)); [|reflexivity].
    rewrite IH. simpl length.
    replace (c + 1 + N.of_nat (length (List.filter is_item rest)))%N
      with (c + N.of_nat (S (length (List.filter is_item rest))))%N by lia.
    reflexivity.
Qed.

(** X4: a coercion failure stops a loop where it happens.  The exception
    of the first element that fails is the one raised, the writes of
    the elements before it stay in the store, and no element after it is
    looked at; in groups 1 and 2 only elements whose tag is a key of the
    store can fail. *)
Theorem loops_stop_at_first_failure
    (pre post : list Element) (bad : Element) (c : N) (st : State) (e : exn) :
  parse_tail (text bad) = Raise e ->
  (snd (channel_items pre c st) = Return tt ->
   tag bad = "item"%string ->
   channel_items (pre ++ bad :: post)%list c st = (fst (channel_items pre c st), Raise e))
  /\ (snd (known_items pre st) = Return tt ->
      is_Some (st !! tag bad) ->
      known_items (pre ++ bad :: post)%list st = (fst (known_items pre st), Raise e)).
Proof.
  intros Hbad. split.
  - intros Hpre Htag. rewrite channel_items_app.
    destruct (channel_items pre c st) as [st1 [[]|e1]]; [|discriminate].
    simpl. rewrite Htag, Hbad. reflexivity.
  - intros Hpre Hknown. rewrite known_items_app.
    pose proof (known_items_dom pre st) as Hdom.
    destruct (known_items pre st) as [st1 [[]|e1]]; [|discriminate].
    simpl in *.
    assert (H1 : is_Some (st1 !! tag bad)).
    { apply elem_of_dom. rewrite Hdom. apply elem_of_dom, Hknown. }
    destruct H1 as [old ->]. rewrite Hbad. reflexivity.
Qed.

Lemma loops_stop_at_first_failure_witness :
  (snd (channel_items [Elem "item" (Some "1") []] 0%N init_state) = Return tt ->
   tag (Elem "item" (Some "1.2.3") []) = "item"%string ->
   channel_items ([Elem "item" (Some "1") []]
                    ++ Elem "item" (Some "1.2.3") [] :: [Elem "item" (Some "2") []])%list
     0%N init_state
   = (fst (channel_items [Elem "item" (Some "1") []] 0%N init_state), Raise ValueError))
  /\ (snd (known_items [Elem "item" (Some "1") []] init_state) = Return tt ->
      is_Some (init_state !! tag (Elem "item" (Some "1.2.3") [])) ->
      known_items ([Elem "item" (Some "1") []]
                     ++ Elem "item" (Some "1.2.3") [] :: [Elem "item" (Some "2") []])%list
        init_state
      = (fst (known_items [Elem "item" (Some "1") []] init_state), Raise ValueError)).
Proof.
  apply (loops_stop_at_first_failure [Elem "item" (Some "1") []]
           [Elem "item" (Some "2") []] (Elem "item" (Some "1.2.3") []) 0%N init_state
           ValueError).
  vm_compute. reflexivity.
Defined.

(** X5: elements whose tag is not a key of the store are dropped without
    being coerced: whatever their texts, the loop of groups 1 and 2
    returns and leaves the store as it was. *)
Theorem known_items_ignores_unknown_tags (items : list Element) (st : State) :
  Forall (fun it => st !! tag it = None) items ->
  known_items items st = (st, Return tt).
Proof.
  induction 1 as [|item rest Hitem _ IH]; simpl; [reflexivity|].
  rewrite Hitem. exact IH.
Qed.

Lemma known_items_ignores_unknown_tags_witness :
  known_items [Elem "m-flightMode" (Some "1.2.3") []; Elem "m-note" None []] init_state
  = (init_state, Return tt).
Proof.
  apply (known_items_ignores_unknown_tags
           [Elem "m-flightMode" (Some "1.2.3") []; Elem "m-note" None []] init_state).
  repeat constructor.
Defined.

Lemma known_items_lookup_is_Some (items : list Element) (st : State) (k : string) :
  is_Some (fst (known_items items st) !! k) <-> is_Some (st !! k).
Proof.
  rewrite <- !elem_of_dom, known_items_dom. reflexivity.
Qed.

(** X6: groups 1 and 2 are last-wins.  After a loop that returns, a key
    of the store holds the coerced text of the last element carrying it
    as its tag, or its old value when no element carries it; a tag that
    is not a key is never added. *)
Theorem known_items_last_wins (items : list Element) (st : State) :
  snd (known_items items st) = Return tt ->
  forall k : string,
    (st !! k = None -> fst (known_items items st) !! k = None)
    /\ (last_tagged k items = None -> fst (known_items items st) !! k = st !! k)
    /\ (forall it, is_Some (st !! k) -> last_tagged k items = Some it ->
         exists v, parse_tail (text it) = Return v
                   /\ fst (known_items items st) !! k = Some v).
Proof.
  induction items as [|x l IH] using rev_ind; intros Hret k.
  - simpl. split; [intros H; exact H|]. split; [reflexivity|].
    intros it _ H. discriminate.
  - rewrite known_items_app in Hret |- *.
    pose proof (known_items_dom l st) as Hdom.
    destruct (known_items l st) as [st1 [[]|e1]] eqn:El; [|discriminate].
    simpl in IH, Hdom. specialize (IH eq_refl k). destruct IH as (IHnone & IHold & IHnew).
    unfold last_tagged in *. rewrite rev_app_distr. simpl rev. simpl app.
    cbn [List.find]. cbn [known_items] in Hret |- *.
    assert (Hsome : forall t, is_Some (st1 !! t) <-> is_Some (st !! t)).
    { intros t. rewrite <- !elem_of_dom, Hdom. reflexivity. }
    destruct (String.eqb_spec (tag x) k) as [Hk | Hk].
    + subst k. destruct (st1 !! tag x) as [old|] eqn:E1.
      * destruct (parse_tail (text x)) as [v|e] eqn:Ev; [|discriminate].
        simpl. rewrite lookup_insert_eq.
        split; [|split].
        -- intros Hnone. assert (is_Some (st !! tag x)) as [? ?] by (apply Hsome; eauto).
           congruence.
        -- discriminate.
        -- intros it _ [= <-]. eauto.
      * simpl. split; [|split].
        -- intros _. exact E1.
        -- discriminate.
        -- intros it Hs _. apply Hsome in Hs. rewrite E1 in Hs. destruct Hs. discriminate.
    + assert (Hsame : fst (match st1 !! tag x with
                           | Some _ =>
                               match parse_tail (text x) with
                               | Return v => (<[tag x := v]> st1, Return tt)
                               | Raise e => (st1, Raise e)
                               end
                           | None => (st1, Return tt)
                           end) !! k = st1 !! k).
      { destruct (st1 !! tag x); [|reflexivity].
        destruct (parse_tail (text x)); [|reflexivity].
        simpl. apply lookup_insert_ne, Hk. }
      rewrite Hsame. split; [exact IHnone | split; [exact IHold | exact IHnew]].
Qed.

Lemma known_items_last_wins_witness :
  (init_state !! PHYSICS_TIME = None ->
   fst (known_items [Elem PHYSICS_TIME (Some "1.5") []; Elem "m-note" (Some "x") [];
                     Elem PHYSICS_TIME (Some "0.5") []] init_state) !! PHYSICS_TIME = None)
  /\ (last_tagged PHYSICS_TIME
        [Elem PHYSICS_TIME (Some "1.5") []; Elem "m-note" (Some "x") [];
         Elem PHYSICS_TIME (Some "0.5") []] = None ->
      fst (known_items [Elem PHYSICS_TIME (Some "1.5") []; Elem "m-note" (Some "x") [];
                        Elem PHYSICS_TIME (Some "0.5") []] init_state) !! PHYSICS_TIME
      = init_state !! PHYSICS_TIME)
  /\ (forall it, is_Some (init_state !! PHYSICS_TIME) ->
       last_tagged PHYSICS_TIME
         [Elem PHYSICS_TIME (Some "1.5") []; Elem "m-note" (Some "x") [];
          Elem PHYSICS_TIME (Some "0.5") []] = Some it ->
       exists v, parse_tail (text it) = Return v
                 /\ fst (known_items [Elem PHYSICS_TIME (Some "1.5") [];
                                      Elem "m-note" (Some "x") [];
                                      Elem PHYSICS_TIME (Some "0.5") []] init_state)
                    !! PHYSICS_TIME = Some v).
Proof.
  apply (known_items_last_wins
           [Elem PHYSICS_TIME (Some "1.5") []; Elem "m-note" (Some "x") [];
            Elem PHYSICS_TIME (Some "0.5") []] init_state).
  vm_compute. reflexivity.
Defined.

(** ** The text handed to the parser *)

Lemma split_lf_nonempty (s : string) : split_lf s <> [].
Proof.
  induction s as [|c r IH]; simpl; [discriminate|].
  destruct (Ascii.eqb c "010"); [discriminate|].
  destruct (split_lf r); [congruence | discriminate].
Qed.

Lemma split_lf_no_lf (s : string) : no_lf s = true -> split_lf s = [s].
Proof.
  induction s as [|c r IH]; simpl; [reflexivity|].
  destruct (Ascii.eqb c "010"); [discriminate|].
  simpl. intros H. rewrite (IH H). reflexivity.
Qed.

Lemma split_lf_app (s t : string) :
  split_lf (s ++ LF ++ t) = (split_lf s ++ split_lf t)%list.
Proof.
  induction s as [|c r IH].
  - reflexivity.
  - rewrite string_app_cons. simpl. rewrite IH.
    destruct (Ascii.eqb c "010"); [reflexivity|].
    pose proof (split_lf_nonempty r) as Hne.
    destruct (split_lf r) as [|h tl]; [congruence | reflexivity].
Qed.

Lemma last_two_app {A} (l : list A) (a b : A) :
  last_two (l ++ [a; b])%list = [a; b].
Proof.
  unfold last_two. rewrite length_app. simpl.
  replace (length l + 2 - 2)%nat with (length l + 0)%nat by lia.
  rewrite skipn_app. rewrite Nat.add_0_r, skipn_all.
  replace (length l - length l)%nat with 0%nat by lia. reflexivity.
Qed.

(** X7: only the last two lines of a reply reach the XML parser.  For a
    reply that ends in the lines [l1] and [l2], the parsed text is their
    concatenation and everything before them is discarded: the result of
    [parse_reply] does not depend on it. *)
Theorem parse_reply_reads_last_two_lines
    (fromstring : string -> option Element) (st : State) (head l1 l2 : string) :
  no_lf l1 = true ->
  no_lf l2 = true ->
  xml_txt (head ++ LF ++ l1 ++ LF ++ l2) = (l1 ++ l2)%string
  /\ parse_reply fromstring st (head ++ LF ++ l1 ++ LF ++ l2)
     = parse_reply fromstring st (l1 ++ LF ++ l2).
Proof.
  intros H1 H2.
  assert (Hx : forall h, xml_txt (h ++ LF ++ l1 ++ LF ++ l2) = (l1 ++ l2)%string).
  { intros h. unfold xml_txt.
    rewrite !split_lf_app, (split_lf_no_lf l1 H1), (split_lf_no_lf l2 H2).
    change ([l1] ++ [l2])%list with [l1; l2]. rewrite last_two_app.
    simpl. rewrite string_app_nil_r. reflexivity. }
  split; [apply Hx|].
  unfold parse_reply. rewrite Hx.
  assert (Hy : xml_txt (l1 ++ LF ++ l2) = (l1 ++ l2)%string).
  { unfold xml_txt. rewrite split_lf_app, (split_lf_no_lf l1 H1), (split_lf_no_lf l2 H2).
    simpl. rewrite string_app_nil_r. reflexivity. }
  rewrite Hy. reflexivity.
Qed.

Lemma parse_reply_reads_last_two_lines_witness :
  xml_txt ("HTTP/1.1 200 OK" ++ LF ++ "<a><b>" ++ LF ++ "</b></a>") = ("<a><b>" ++ "</b></a>")%string
  /\ parse_reply xml_fromstring init_state
       ("HTTP/1.1 200 OK" ++ LF ++ "<a><b>" ++ LF ++ "</b></a>")
     = parse_reply xml_fromstring init_state ("<a><b>" ++ LF ++ "</b></a>").
Proof.
  apply (parse_reply_reads_last_two_lines xml_fromstring init_state
           "HTTP/1.1 200 OK" "<a><b>" "</b></a>"); reflexivity.
Defined.

(** ** The numeric test *)

Lemma strip_cons (a : ascii) (r : string) :
  remove_char "-" (remove_char "." (String a r))
  = if Ascii.eqb a "." || Ascii.eqb a "-"
    then remove_char "-" (remove_char "." r)
    else String a (remove_char "-" (remove_char "." r)).
Proof.
  simpl. destruct (Ascii.eqb a "."); [reflexivity|].
  simpl. destruct (Ascii.eqb a "-"); reflexivity.
Qed.

Lemma strip_all_digits (s : string) :
  all_digits (remove_char "-" (remove_char "." s)) = true
  <-> forall c, In c (list_ascii_of_string s) ->
                is_digit c = true \/ c = "."%char \/ c = "-"%char.
Proof.
  induction s as [|a r IH].
  - simpl. split; [intros _ c [] | reflexivity].
  - rewrite strip_cons. cbn [list_ascii_of_string].
    destruct (Ascii.eqb_spec a ".") as [->|Hdot]; simpl orb; cbv iota.
    { rewrite IH. split.
      - intros H c [<-|Hc]; [right; left; reflexivity | apply H, Hc].
      - intros H c Hc. apply H. right. exact Hc. }
    destruct (Ascii.eqb_spec a "-") as [->|Hminus]; cbv iota.
    { rewrite IH. split.
      - intros H c [<-|Hc]; [right; right; reflexivity | apply H, Hc].
      - intros H c Hc. apply H. right. exact Hc. }
    simpl all_digits. rewrite andb_true_iff, IH. split.
    + intros [Ha H] c [<-|Hc]; [left; exact Ha | apply H, Hc].
    + intros H. split.
      * destruct (H a (or_introl eq_refl)) as [Ha | [Ha | Ha]];
          [exact Ha | contradiction | contradiction].
      * intros c Hc. apply H. right. exact Hc.
Qed.

Lemma strip_nonempty (s : string) :
  remove_char "-" (remove_char "." s) <> EmptyString
  <-> exists c, In c (list_ascii_of_string s) /\ c <> "."%char /\ c <> "-"%char.
Proof.
  induction s as [|a r IH].
  - simpl. split; [congruence | intros (c & [] & _)].
  - rewrite strip_cons. cbn [list_ascii_of_string].
    destruct (Ascii.eqb_spec a ".") as [->|Hdot]; simpl orb; cbv iota.
    { rewrite IH. split.
      - intros (c & Hc & H). exists c. split; [right; exact Hc | exact H].
      - intros (c & [<-|Hc] & H1 & H2); [congruence | eauto]. }
    destruct (Ascii.eqb_spec a "-") as [->|Hminus]; cbv iota.
    { rewrite IH. split.
      - intros (c & Hc & H). exists c. split; [right; exact Hc | exact H].
      - intros (c & [<-|Hc] & H1 & H2); [congruence | eauto]. }
    split; [|discriminate].
    intros _. exists a. split; [left; reflexivity | split; assumption].
Qed.

Lemma is_digit_range (c : ascii) :
  is_digit c = true <-> (48 <= N_of_ascii c <= 57)%N.
Proof.
  unfold is_digit. rewrite andb_true_iff, !N.leb_le. reflexivity.
Qed.

(** [is_number] in terms of the characters of the string. *)
Lemma is_number_chars (s : string) :
  is_number s = true
  <-> (forall c, In c (list_ascii_of_string s) ->
                 is_digit c = true \/ c = "."%char \/ c = "-"%char)
      /\ (exists c, In c (list_ascii_of_string s) /\ is_digit c = true).
Proof.
  unfold is_number.
  rewrite isdigit_spec, strip_all_digits, strip_nonempty.
  split; intros [Hall (c & Hc & H)]; (split; [exact Hall|]); exists c.
  - split; [exact Hc|].
    destruct (Hall c Hc) as [Hd | [-> | ->]]; [exact Hd | | ]; destruct H; congruence.
  - split; [exact Hc|]. split; intros ->; discriminate.
Qed.

(** X8: on an ASCII string, [is_number] holds exactly when every
    character is one of ['0'] to ['9'] (codes 48 to 57), ['.'] and ['-'],
    and at least one character is a digit. *)
Theorem is_number_characters (s : string) :
  is_ascii s = true ->
  (is_number s = true
   <-> (forall c, In c (list_ascii_of_string s) ->
                  (48 <= N_of_ascii c <= 57)%N \/ c = "."%char \/ c = "-"%char)
       /\ (exists c, In c (list_ascii_of_string s) /\ (48 <= N_of_ascii c <= 57)%N)).
Proof.
  intros _. rewrite is_number_chars. split.
  - intros [Hall (c & Hc & Hd)]. split.
    + intros a Ha. destruct (Hall a Ha) as [H | H]; [left; apply is_digit_range, H | right; exact H].
    + exists c. split; [exact Hc | apply is_digit_range, Hd].
  - intros [Hall (c & Hc & Hd)]. split.
    + intros a Ha. destruct (Hall a Ha) as [H | H]; [left; apply is_digit_range, H | right; exact H].
    + exists c. split; [exact Hc | apply is_digit_range, Hd].
Qed.

Lemma is_number_characters_witness :
  is_ascii "-0.5" = true
  /\ (is_number "-0.5" = true
      <-> (forall c, In c (list_ascii_of_string "-0.5") ->
                     (48 <= N_of_ascii c <= 57)%N \/ c = "."%char \/ c = "-"%char)
          /\ (exists c, In c (list_ascii_of_string "-0.5") /\ (48 <= N_of_ascii c <= 57)%N)).
Proof.
  split; [reflexivity|].
  apply (is_number_characters "-0.5"). reflexivity.
Defined.

(** ** More on one exchange *)

(** The timing fields after the body of [if reply:]. *)
Lemma on_reply_timing
    (fromstring : string -> option Element) (self : Session) (reply : string) :
  let self' := fst (on_reply fromstring self reply) in
  (raises (snd (on_reply fromstring self reply)) ->
   average_frame_time_s self' = average_frame_time_s self
   /\ socket_frame_counter self' = socket_frame_counter self)
  /\ (snd (on_reply fromstring self reply) = Return tt ->
      socket_frame_counter self' = socket_frame_counter self + 1).
Proof.
  unfold on_reply.
  destruct (state self !! PHYSICS_TIME) as [lastt_s|];
    [|split; [intros _; split; reflexivity | discriminate]].
  destruct (parse_reply fromstring (state self) reply) as [st1 [[]|e]];
    [|split; [intros _; split; reflexivity | discriminate]].
  destruct (st1 !! PHYSICS_TIME) as [now|];
    [|split; [intros _; split; reflexivity | discriminate]].
  destruct (value_sub now lastt_s) as [dt|e];
    [|split; [intros _; split; reflexivity | discriminate]].
  destruct (accepted dt) eqn:Hacc;
    [|split; [intros [e He]; discriminate | reflexivity]].
  destruct (accepted_is_float dt Hacc) as [d ->].
  cbn [average_frame_time_s set_state].
  destruct (num_ltb (average_frame_time_s self) (NFloat c_1em6)).
  - cbn [average_frame_time_s set_average_frame_time_s]. rewrite blend_floats.
    split; [intros [e He]; discriminate | reflexivity].
  - destruct (blend (average_frame_time_s (set_state self st1)) (NFloat d)) as [a|e];
      split; try reflexivity; try discriminate.
    + intros [e He]. discriminate.
    + intros _. split; reflexivity.
Qed.

(** X9: an exchange that raises has left the timing state alone: the
    average frame time and [socket_frame_counter] are what they were, so
    that only the telemetry store can have changed.  An exchange moves
    [socket_frame_counter] by at most one step, upwards. *)
Theorem exchange_data_failure_keeps_timing
    (fromstring : string -> option Element) (post : string -> string -> result string)
    (self : Session) (wire : list (string * string)) (control_input : list float64) :
  let self' := fst (fst (exchange_data fromstring post self wire control_input)) in
  (raises (snd (exchange_data fromstring post self wire control_input)) ->
   average_frame_time_s self' = average_frame_time_s self
   /\ socket_frame_counter self' = socket_frame_counter self)
  /\ socket_frame_counter self <= socket_frame_counter self'
     <= socket_frame_counter self + 1.
Proof.
  unfold exchange_data, soap_request.
  destruct (format_exchange_data control_input) as [msg|e];
    [|cbn [fst snd]; split; [intros _; split; reflexivity | lia]].
  destruct (post "ExchangeData" msg) as [[|c reply]|e];
    [cbn [fst snd]; split; [intros _; split; reflexivity | lia]|
    |cbn [fst snd]; split; [intros _; split; reflexivity | lia]].
  destruct (on_reply_timing fromstring self (String c reply)) as [Hraise Hret].
  destruct (on_reply fromstring self (String c reply)) as [self1 [[]|e1]]; cbn [fst snd] in *.
  - split; [intros [e He]; discriminate|]. rewrite (Hret eq_refl). lia.
  - destruct (Hraise ltac:(eexists; reflexivity)) as [Ha Hs].
    split; [intros _; split; assumption|]. rewrite Hs. lia.
Qed.

Lemma f64_sub_diag_not_accepted (x : float64) : accepted (NFloat (f64_sub x x)) = false.
Proof.
  destruct x as [s|s| |s m e].
  - destruct s; reflexivity.
  - destruct s; reflexivity.
  - reflexivity.
  - unfold f64_sub, SFsub. rewrite Z.sub_diag. reflexivity.
Qed.

Lemma value_sub_diag_not_accepted (v : value) (dt : num) :
  value_sub v v = Return dt -> accepted dt = false.
Proof.
  unfold value_sub.
  destruct v as [z|x|b|s]; simpl; try discriminate.
  - unfold num_sub. simpl. intros [= <-]. rewrite Z.sub_diag. reflexivity.
  - unfold num_sub. simpl. intros [= <-]. apply f64_sub_diag_not_accepted.
  - unfold num_sub. simpl. intros [= <-]. rewrite Z.sub_diag. reflexivity.
Qed.

(** X10: a repeated frame does not feed the estimator.  When the store
    decoded from the reply holds the same physics time as before the
    exchange, the delta is rejected: the average is unchanged and the
    exchange still returns and counts the frame. *)
Theorem repeated_physics_time_is_rejected
    (fromstring : string -> option Element) (post : string -> string -> result string)
    (self : Session) (wire : list (string * string)) (control_input : list float64)
    (st1 : State) (t : value) (dt : num) :
  exchange_yields fromstring post self control_input st1 t t dt ->
  accepted dt = false
  /\ snd (exchange_data fromstring post self wire control_input) = Return tt
  /\ average_frame_time_s (fst (fst (exchange_data fromstring post self wire control_input)))
     = average_frame_time_s self
  /\ socket_frame_counter (fst (fst (exchange_data fromstring post self wire control_input)))
     = socket_frame_counter self + 1.
Proof.
  intros (msg & reply & Hfmt & Hpost & Hne & Hlast & Hparse & Hnow & Hdt).
  pose proof (value_sub_diag_not_accepted t dt Hdt) as Hacc.
  split; [exact Hacc|].
  unfold exchange_data, soap_request. rewrite Hfmt, Hpost.
  destruct reply as [|c reply]; [congruence|].
  unfold on_reply. rewrite Hlast, Hparse. cbn [set_state state].
  rewrite Hnow, Hdt, Hacc. repeat split.
Qed.

Lemma repeated_physics_time_is_rejected_witness :
  accepted (NFloat (f64_sub c_0_5 c_0_5)) = false
  /\ snd (exchange_data xml_fromstring (always (reply_at_time "0.5"))
            (set_state init (fst (parse_reply xml_fromstring init_state (reply_at_time "0.5"))))
            [] (control_neutral 12)) = Return tt
  /\ average_frame_time_s
       (fst (fst (exchange_data xml_fromstring (always (reply_at_time "0.5"))
                    (set_state init
                       (fst (parse_reply xml_fromstring init_state (reply_at_time "0.5"))))
                    [] (control_neutral 12))))
     = average_frame_time_s
         (set_state init (fst (parse_reply xml_fromstring init_state (reply_at_time "0.5"))))
  /\ socket_frame_counter
       (fst (fst (exchange_data xml_fromstring (always (reply_at_time "0.5"))
                    (set_state init
                       (fst (parse_reply xml_fromstring init_state (reply_at_time "0.5"))))
                    [] (control_neutral 12))))
     = socket_frame_counter
         (set_state init (fst (parse_reply xml_fromstring init_state (reply_at_time "0.5"))))
       + 1.
Proof.
  apply (repeated_physics_time_is_rejected xml_fromstring (always (reply_at_time "0.5"))
           (set_state init (fst (parse_reply xml_fromstring init_state (reply_at_time "0.5"))))
           [] (control_neutral 12)
           (fst (parse_reply xml_fromstring init_state (reply_at_time "0.5")))
           (VFloat c_0_5) (NFloat (f64_sub c_0_5 c_0_5))).
  exists (match format_exchange_data (control_neutral 12) with
          | Return m => m
          | Raise _ => EmptyString
          end), (reply_at_time "0.5").
  repeat split; try (vm_compute; reflexivity).
  vm_compute. discriminate.
Defined.

(** ** Manual mode and the main loop *)

Lemma mode_manual_from_length
    (str_to_float : string -> result float64) (st : State) (n : nat) :
  forall (i : N) (c : list float64),
    mode_manual_from str_to_float st i n = Return c -> length c = n.
Proof.
  induction n as [|n IH]; intros i c; simpl.
  - intros [= <-]. reflexivity.
  - destruct (st !! rcin i) as [v|]; [|discriminate].
    destruct (to_float64 str_to_float v) as [x|e]; [|discriminate].
    destruct (mode_manual_from str_to_float st (i + 1)%N n) as [xs|e] eqn:E; [|discriminate].
    intros [= <-]. simpl. rewrite (IH _ _ E). reflexivity.
Qed.

(** X11: manual mode always builds a vector that the encoder accepts: when
    [mode_manual] returns, its result has exactly twelve values and
    [format_exchange_data] does not raise on it. *)
Theorem mode_manual_fits_the_envelope
    (str_to_float : string -> result float64) (fac : Session) (c : list float64) :
  mode_manual str_to_float fac = Return c ->
  length c = 12%nat /\ exists msg, format_exchange_data c = Return msg.
Proof.
  intros H. apply mode_manual_from_length in H.
  split; [exact H|]. unfold format_exchange_data. rewrite H. simpl. eauto.
Qed.

Lemma mode_manual_fits_the_envelope_witness :
  length [c_0_5; c_0_5; f64_zero; c_0_5; f64_zero; f64_zero; f64_zero; f64_zero;
          f64_zero; f64_zero; f64_zero; f64_zero] = 12%nat
  /\ exists msg,
      format_exchange_data
        [c_0_5; c_0_5; f64_zero; c_0_5; f64_zero; f64_zero; f64_zero; f64_zero;
         f64_zero; f64_zero; f64_zero; f64_zero] = Return msg.
Proof.
  apply (mode_manual_fits_the_envelope py_float init).
  vm_compute. reflexivity.
Defined.

Lemma mode_manual_from_floats
    (str_to_float : string -> result float64) (st : State) (vs : list float64) :
  forall i : N,
    (forall (j : nat) (v : float64),
        vs !! j = Some v -> st !! rcin (i + N.of_nat j) = Some (VFloat v)) ->
    mode_manual_from str_to_float st i (length vs) = Return vs.
Proof.
  induction vs as [|v vs IH]; intros i H; simpl; [reflexivity|].
  pose proof (H 0%nat v eq_refl) as H0. rewrite N.add_0_r in H0. rewrite H0. simpl.
  rewrite IH; [reflexivity|].
  intros j w Hj. replace (i + 1 + N.of_nat j)%N with (i + N.of_nat (S j))%N by lia.
  apply H. exact Hj.
Qed.

(** X12: manual mode echoes the receiver channels.  When the store holds
    floats under [rcin0] to [rcin11], [mode_manual] returns exactly these
    twelve floats, in channel order. *)
Theorem mode_manual_echoes_channels
    (str_to_float : string -> result float64) (fac : Session) (vs : list float64) :
  length vs = 12%nat ->
  (forall (j : nat) (v : float64),
      vs !! j = Some v -> state fac !! rcin (N.of_nat j) = Some (VFloat v)) ->
  mode_manual str_to_float fac = Return vs.
Proof.
  intros Hlen H. unfold mode_manual. rewrite <- Hlen.
  apply mode_manual_from_floats. intros j v Hj. rewrite N.add_0_l. apply H, Hj.
Qed.

Lemma mode_manual_from_raises
    (str_to_float : string -> result float64) (st : State) (n : nat) :
  forall (i : N) (k : nat) (v : value),
    (k < n)%nat ->
    st !! rcin (i + N.of_nat k) = Some v ->
    raises (to_float64 str_to_float v) ->
    raises (mode_manual_from str_to_float st i n).
Proof.
  induction n as [|n IH]; intros i k v Hk Hv Hbad; [lia|].
  simpl. destruct k as [|k].
  - rewrite N.add_0_r in Hv. rewrite Hv. destruct Hbad as [e ->]. eexists. reflexivity.
  - destruct (st !! rcin i) as [w|]; [|eexists; reflexivity].
    destruct (to_float64 str_to_float w) as [x|e]; [|eexists; reflexivity].
    assert (Hr : raises (mode_manual_from str_to_float st (i + 1)%N n)).
    { apply (IH (i + 1)%N k v); [lia | | exact Hbad].
      replace (i + 1 + N.of_nat k)%N with (i + N.of_nat (S k))%N by lia. exact Hv. }
    destruct Hr as [e ->]. eexists. reflexivity.
Qed.

(** X13: a channel that holds a string which is not a number stalls the
    main loop.  [mode_manual] raises in every round, the bare [except]
    swallows it, and no round sends a request or changes the connector
    any more, whatever the transport would answer. *)
Theorem main_loop_stalls_on_text_channel
    (str_to_float : string -> result float64) (fromstring : string -> option Element)
    (fac : Session) (wire : list (string * string)) (i : N) (s : string)
    (posts : list (string -> string -> result string)) :
  (i < 12)%N ->
  state fac !! rcin i = Some (VStr s) ->
  raises (str_to_float s) ->
  main_loop str_to_float fromstring posts (fac, wire) = (fac, wire).
Proof.
  intros Hi Hs Hbad.
  assert (Hmm : raises (mode_manual str_to_float fac)).
  { unfold mode_manual.
    apply (mode_manual_from_raises str_to_float (state fac) 12 0%N (N.to_nat i) (VStr s)).
    - lia.
    - rewrite N2Nat.id, N.add_0_l. exact Hs.
    - exact Hbad. }
  destruct Hmm as [e He].
  unfold main_loop. induction posts as [|post posts IH]; simpl; [reflexivity|].
  rewrite He. exact IH.
Qed.

Lemma main_loop_stalls_on_text_channel_witness :
  main_loop py_float xml_fromstring
    [always (reply_at_time "0.5"); always (reply_at_time "0.75")]
    (set_state init (<[rcin 3 := VStr "CAS-FLYING"]> init_state), [])
  = (set_state init (<[rcin 3 := VStr "CAS-FLYING"]> init_state), []).
Proof.
  apply (main_loop_stalls_on_text_channel py_float xml_fromstring
           (set_state init (<[rcin 3 := VStr "CAS-FLYING"]> init_state)) [] 3%N
           "CAS-FLYING").
  - reflexivity.
  - vm_compute. reflexivity.
  - exists ValueError. vm_compute. reflexivity.
Defined.

Lemma mode_manual_echoes_channels_witness :
  mode_manual py_float init
  = Return [c_0_5; c_0_5; f64_zero; c_0_5; f64_zero; f64_zero; f64_zero; f64_zero;
            f64_zero; f64_zero; f64_zero; f64_zero].
Proof.
  apply (mode_manual_echoes_channels py_float init); [reflexivity|].
  intros j v Hj.
  do 12 (destruct j as [|j]; [injection Hj as <-; reflexivity|]).
  discriminate.
Defined.

Lemma on_reply_state
    (fromstring : string -> option Element) (self : Session) (reply : string) :
  state (fst (on_reply fromstring self reply)) = state self
  \/ state (fst (on_reply fromstring self reply))
     = fst (parse_reply fromstring (state self) reply).
Proof.
  unfold on_reply.
  destruct (state self !! PHYSICS_TIME) as [lastt_s|]; [|left; reflexivity].
  destruct (parse_reply fromstring (state self) reply) as [st1 [[]|e]];
    [|right; reflexivity].
  destruct (st1 !! PHYSICS_TIME) as [now|]; [|right; reflexivity].
  destruct (value_sub now lastt_s) as [dt|e]; [|right; reflexivity].
  destruct (accepted dt); [|right; reflexivity].
  destruct (num_ltb _ _); destruct (blend _ dt); right; reflexivity.
Qed.

(** What one exchange keeps, bounds and grows. *)
Lemma exchange_data_step
    (fromstring : string -> option Element) (post : string -> string -> result string)
    (self : Session) (wire : list (string * string)) (control_input : list float64) :
  let self' := fst (fst (exchange_data fromstring post self wire control_input)) in
  let wire' := snd (fst (exchange_data fromstring post self wire control_input)) in
  (servos self' = servos self
   /\ controller_started self' = controller_started self
   /\ frame_counter self' = frame_counter self
   /\ activation_frame_counter self' = activation_frame_counter self)
  /\ dom (state self) ⊆ dom (state self')
  /\ socket_frame_counter self <= socket_frame_counter self' <= socket_frame_counter self + 1
  /\ (length wire <= length wire' <= length wire + 1)%nat.
Proof.
  unfold exchange_data, soap_request.
  destruct (format_exchange_data control_input) as [msg|e];
    [|cbn [fst snd]; repeat split; try done; lia].
  destruct (post "ExchangeData" msg) as [[|c reply]|e];
    try (cbn [fst snd length]; repeat split; try done; lia).
  pose proof (on_reply_frame fromstring self (String c reply)) as Hframe.
  pose proof (on_reply_state fromstring self (String c reply)) as Hstate.
  destruct (on_reply_timing fromstring self (String c reply)) as [Hraise Hret].
  destruct (on_reply fromstring self (String c reply)) as [self1 r1]; cbn [fst snd length] in *.
  split; [exact Hframe|]. split; [|split; [|lia]].
  - destruct Hstate as [-> | ->]; [done | apply parse_reply_dom_mono].
  - destruct r1 as [[]|e1].
    + rewrite (Hret eq_refl). lia.
    + destruct (Hraise ltac:(eexists; reflexivity)) as [_ ->]. lia.
Qed.

Lemma main_step_invariants
    (str_to_float : string -> result float64) (fromstring : string -> option Element)
    (post : string -> string -> result string)
    (fac : Session) (wire : list (string * string)) :
  let fac' := fst (main_step str_to_float fromstring post (fac, wire)) in
  let wire' := snd (main_step str_to_float fromstring post (fac, wire)) in
  (servos fac' = servos fac
   /\ controller_started fac' = controller_started fac
   /\ frame_counter fac' = frame_counter fac
   /\ activation_frame_counter fac' = activation_frame_counter fac)
  /\ dom (state fac) ⊆ dom (state fac')
  /\ socket_frame_counter fac <= socket_frame_counter fac' <= socket_frame_counter fac + 1
  /\ (length wire <= length wire' <= length wire + 1)%nat
  /\ (average_ok (average_frame_time_s fac) -> average_ok (average_frame_time_s fac')).
Proof.
  unfold main_step.
  destruct (mode_manual str_to_float fac) as [control_input|e].
  - pose proof (exchange_data_step fromstring post fac wire control_input) as H.
    pose proof (average_ok_exchange_data fromstring post fac wire control_input) as Hok.
    cbv zeta in H. destruct H as (H1 & H2 & H3 & H4).
    repeat split; try apply H1; try apply H3; try apply H4; assumption.
  - cbn [fst snd]. repeat split; try done; lia.
Qed.

(** X14: what the main loop can and cannot change.  After any number of
    rounds, whatever the transport returned or raised in each of them:
    [servos], [controller_started], [frame_counter] and
    [activation_frame_counter] are unchanged; no key of the store has been
    removed; [socket_frame_counter] has not decreased and has grown by at
    most one per round; at most one request per round was sent; and an
    average that was the integer 0 or a float still is. *)
Theorem main_loop_invariants
    (str_to_float : string -> result float64) (fromstring : string -> option Element)
    (posts : list (string -> string -> result string))
    (fac : Session) (wire : list (string * string)) :
  let fac' := fst (main_loop str_to_float fromstring posts (fac, wire)) in
  let wire' := snd (main_loop str_to_float fromstring posts (fac, wire)) in
  (servos fac' = servos fac
   /\ controller_started fac' = controller_started fac
   /\ frame_counter fac' = frame_counter fac
   /\ activation_frame_counter fac' = activation_frame_counter fac)
  /\ dom (state fac) ⊆ dom (state fac')
  /\ socket_frame_counter fac <= socket_frame_counter fac'
     <= socket_frame_counter fac + Z.of_nat (length posts)
  /\ (length wire <= length wire' <= length wire + length posts)%nat
  /\ (average_ok (average_frame_time_s fac) -> average_ok (average_frame_time_s fac')).
Proof.
  unfold main_loop. revert fac wire.
  induction posts as [|post posts IH]; intros fac wire.
  - cbn [fold_left fst snd length]. repeat split; try done; lia.
  - cbn [fold_left length].
    pose proof (main_step_invariants str_to_float fromstring post fac wire) as Hstep.
    destruct (main_step str_to_float fromstring post (fac, wire)) as [fac1 wire1].
    cbv zeta in Hstep. cbn [fst snd] in Hstep.
    destruct Hstep as ((S1 & S2 & S3 & S4) & Sdom & Scnt & Swire & Sok).
    specialize (IH fac1 wire1). cbv zeta in IH.
    destruct IH as ((I1 & I2 & I3 & I4) & Idom & Icnt & Iwire & Iok).
    split; [repeat split; congruence|].
    split; [etrans; eassumption|].
    split; [lia|]. split; [lia|]. auto.
Qed.

(** ** Formatting and reading back four decimals *)

Lemma py_float_minus (body : string) :
  py_float (String "-" body) = py_float_body true body.
Proof. reflexivity. Qed.

Lemma py_float_digit (c : ascii) (r : string) :
  is_digit c = true -> py_float (String c r) = py_float_body false (String c r).
Proof.
  intros H.
  destruct c as [b0 b1 b2 b3 b4 b5 b6 b7].
  destruct b0, b1, b2, b3, b4, b5, b6, b7; try discriminate H; reflexivity.
Qed.

Lemma span_digits_app (ds : string) (c : ascii) (t : string) :
  all_digits ds = true -> is_digit c = false ->
  span_digits (ds ++ String c t) = (ds, String c t).
Proof.
  intros Hds Hc. induction ds as [|d ds IH].
  - rewrite string_app_nil_l. simpl. rewrite Hc. reflexivity.
  - rewrite string_app_cons. simpl in Hds |- *.
    apply andb_prop in Hds as [Hd Hds]. rewrite Hd, (IH Hds). reflexivity.
Qed.

Lemma digits_value_shift (s : string) :
  forall v, digits_value s v
            = (v * 10 ^ N.of_nat (String.length s) + digits_value s 0)%N.
Proof.
  induction s as [|c r IH]; intros v; simpl.
  - change (10 ^ N.of_nat 0)%N with 1%N. lia.
  - rewrite IH, (IH (10 * 0 + digit_val c)%N).
    replace (N.of_nat (S (String.length r))) with (N.succ (N.of_nat (String.length r)))
      by lia.
    rewrite N.pow_succ_r'. lia.
Qed.

Lemma remove_char_app (c : ascii) (s t : string) :
  remove_char c (s ++ t) = (remove_char c s ++ remove_char c t)%string.
Proof.
  induction s as [|a s IH]; [reflexivity|].
  rewrite string_app_cons. simpl. destruct (Ascii.eqb a c); [exact IH|].
  rewrite string_app_cons, IH. reflexivity.
Qed.

Lemma remove_char_digits (c : ascii) (s : string) :
  is_digit c = false -> all_digits s = true -> remove_char c s = s.
Proof.
  intros Hc. induction s as [|a s IH]; [reflexivity|].
  simpl. intros H. apply andb_prop in H as [Ha Hs].
  destruct (Ascii.eqb_spec a c) as [->|_]; [congruence|].
  rewrite (IH Hs). reflexivity.
Qed.

(** The four decimals printed for [r < 10000], checked for each [r]. *)
Lemma frac4_checked :
  forallb (fun r : N =>
             all_digits (pad_left_zeros 4 (str_of_N r))
             && (String.length (pad_left_zeros 4 (str_of_N r)) =? 4)%nat
             && (digits_value (pad_left_zeros 4 (str_of_N r)) 0 =? r)%N)
    (List.map N.of_nat (seq 0 (N.to_nat 10000))) = true.
Proof. vm_compute. reflexivity. Qed.

Lemma frac4_spec (r : N) :
  (r < 10000)%N ->
  all_digits (pad_left_zeros 4 (str_of_N r)) = true
  /\ String.length (pad_left_zeros 4 (str_of_N r)) = 4%nat
  /\ digits_value (pad_left_zeros 4 (str_of_N r)) 0 = r.
Proof.
  intros Hr.
  pose proof frac4_checked as H. rewrite forallb_forall in H.
  specialize (H r). 
  assert (Hin : In r (List.map N.of_nat (seq 0 (N.to_nat 10000)))).
  { apply in_map_iff. exists (N.to_nat r). split; [lia|]. apply in_seq. lia. }
  specialize (H Hin).
  apply andb_prop in H as [H H3]. apply andb_prop in H as [H1 H2].
  apply Nat.eqb_eq in H2. apply N.eqb_eq in H3. auto.
Qed.

Lemma fixed4_is_number (neg : bool) (n : N) : is_number (fixed4 neg n) = true.
Proof.
  destruct (str_of_N_spec (n / 10000)) as (Hi & Hne & _).
  destruct (frac4_spec (n mod 10000)) as (Hf & _ & _);
    [apply N.mod_lt; discriminate|].
  unfold is_number, fixed4.
  set (ip := str_of_N (n / 10000)) in *.
  set (fp := pad_left_zeros 4 (str_of_N (n mod 10000))) in *.
  assert (Hstrip : remove_char "-" (remove_char "." ((if neg then "-" else "") ++ ip ++ "." ++ fp))
                   = (ip ++ fp)%string).
  { rewrite !remove_char_app.
    rewrite (remove_char_digits "." ip), (remove_char_digits "." fp) by (reflexivity || assumption).
    rewrite (remove_char_digits "-" ip), (remove_char_digits "-" fp) by (reflexivity || assumption).
    destruct neg; reflexivity. }
  rewrite Hstrip. unfold isdigit.
  destruct ip as [|c ip']; [congruence|].
  rewrite string_app_cons. rewrite <- string_app_cons.
  rewrite all_digits_app, Hi, Hf. reflexivity.
Qed.

Lemma fixed4_py_float (neg : bool) (n : N) :
  py_float (fixed4 neg n) = Return (dec2float neg n 4).
Proof.
  destruct (str_of_N_spec (n / 10000)) as (Hi & Hne & Hiv).
  destruct (frac4_spec (n mod 10000)) as (Hf & Hflen & Hfv);
    [apply N.mod_lt; discriminate|].
  unfold fixed4.
  set (ip := str_of_N (n / 10000)) in *.
  set (fp := pad_left_zeros 4 (str_of_N (n mod 10000))) in *.
  assert (Hbody : py_float_body neg (ip ++ "." ++ fp) = Return (dec2float neg n 4)).
  { unfold py_float_body.
    change ("." ++ fp)%string with (String "." fp).
    rewrite (span_digits_app ip "." fp Hi eq_refl).
    rewrite Hf, Hflen. 
    replace (String.length ip + 4 =? 0)%nat with false
      by (symmetry; apply Nat.eqb_neq; lia).
    simpl andb. cbv iota.
    rewrite digits_value_app, (digits_value_shift fp), Hflen, Hfv, Hiv.
    replace (0 * 10 ^ N.of_nat (String.length ip) + n / 10000)%N with (n / 10000)%N by lia.
    change (10 ^ N.of_nat 4)%N with 10000%N.
    replace (n / 10000 * 10000 + n mod 10000)%N with n
      by (pose proof (N.div_mod n 10000 ltac:(discriminate)); lia).
    reflexivity. }
  destruct neg.
  - change ("-" ++ ip ++ "." ++ fp)%string with (String "-" (ip ++ "." ++ fp)).
    rewrite py_float_minus. exact Hbody.
  - rewrite string_app_nil_l.
    destruct ip as [|c ip'] eqn:Eip; [congruence|].
    rewrite string_app_cons. rewrite py_float_digit.
    + rewrite <- string_app_cons. exact Hbody.
    + simpl in Hi. apply andb_prop in Hi as [Hc _]. exact Hc.
Qed.

Lemma fixed4_parse_tail (neg : bool) (n : N) :
  parse_tail (Some (fixed4 neg n)) = Return (VFloat (dec2float neg n 4)).
Proof.
  simpl. unfold parse_tail_str. rewrite fixed4_is_number, fixed4_py_float. reflexivity.
Qed.
(** ** Rounding to nearest *)

Lemma rne_div_cases (a d : Z) :
  0 < d ->
  let m := rne_div a d in
  (m = a / d /\ 2 * (a mod d) <= d) \/ (m = a / d + 1 /\ d <= 2 * (a mod d)).
Proof.
  intros Hd. unfold rne_div.
  destruct (Z.compare_spec (2 * (a mod d)) d) as [H|H|H].
  - destruct (Z.even (a / d)); [left | right]; split; lia.
  - left. split; lia.
  - right. split; lia.
Qed.

(** [rne_div a d] is an integer nearest to [a / d]. *)
Lemma rne_div_nearest (a d k : Z) :
  0 < d -> Z.abs (rne_div a d * d - a) <= Z.abs (k * d - a).
Proof.
  intros Hd.
  pose proof (Z.div_mod a d ltac:(lia)) as Hdm.
  pose proof (Z.mod_pos_bound a d Hd) as Hr.
  destruct (rne_div_cases a d Hd) as [[-> Hle] | [-> Hle]].
  - destruct (Z_le_gt_dec k (a / d)) as [Hk | Hk].
    + assert (k * d <= a / d * d) by (apply Z.mul_le_mono_nonneg_r; lia). lia.
    + assert ((a / d + 1) * d <= k * d) by (apply Z.mul_le_mono_nonneg_r; lia). lia.
  - destruct (Z_le_gt_dec k (a / d)) as [Hk | Hk].
    + assert (k * d <= a / d * d) by (apply Z.mul_le_mono_nonneg_r; lia). lia.
    + assert ((a / d + 1) * d <= k * d) by (apply Z.mul_le_mono_nonneg_r; lia). lia.
Qed.

Lemma rne_div_error (a d : Z) :
  0 < d -> 2 * Z.abs (rne_div a d * d - a) <= d.
Proof.
  intros Hd.
  pose proof (Z.div_mod a d ltac:(lia)) as Hdm.
  pose proof (Z.mod_pos_bound a d Hd) as Hr.
  destruct (rne_div_cases a d Hd) as [[-> Hle] | [-> Hle]]; lia.
Qed.

Lemma rne_div_scale (a d c : Z) :
  0 < d -> 0 < c -> rne_div (a * c) (d * c) = rne_div a d.
Proof.
  intros Hd Hc. unfold rne_div.
  rewrite Z.div_mul_cancel_r by lia.
  rewrite Z.mul_mod_distr_r by lia.
  replace (2 * (a mod d * c)) with ((2 * (a mod d)) * c) by lia.
  assert (Hcmp : (2 * (a mod d) * c ?= d * c) = (2 * (a mod d) ?= d)).
  { destruct (Z.compare_spec (2 * (a mod d)) d) as [H|H|H].
    - rewrite H. apply Z.compare_refl.
    - apply Z.compare_lt_iff. apply Z.mul_lt_mono_pos_r; assumption.
    - apply Z.compare_gt_iff. apply Z.mul_lt_mono_pos_r; assumption. }
  rewrite Hcmp. reflexivity.
Qed.

Lemma rne_div_bounds (a d n : Z) :
  0 < d -> 0 <= a -> a < n * d -> 0 <= rne_div a d <= n.
Proof.
  intros Hd Ha Hn.
  pose proof (Z.div_mod a d ltac:(lia)) as Hdm.
  pose proof (Z.mod_pos_bound a d Hd) as Hr.
  assert (Hq : 0 <= a / d) by (apply Z.div_pos; lia).
  assert (Hqn : a / d < n) by (apply Z.div_lt_upper_bound; lia).
  destruct (rne_div_cases a d Hd) as [[-> Hle] | [-> Hle]]; lia.
Qed.

(** ** Powers of two *)

Lemma pow2_pos (x : Z) : 0 <= x -> 0 < 2 ^ x.
Proof. intros H. apply Z.pow_pos_nonneg; lia. Qed.

Lemma pow2_add (x y : Z) : 0 <= x -> 0 <= y -> 2 ^ (x + y) = 2 ^ x * 2 ^ y.
Proof. intros. apply Z.pow_add_r; assumption. Qed.

Lemma pow2_le (x y : Z) : 0 <= x <= y -> 2 ^ x <= 2 ^ y.
Proof. intros H. apply Z.pow_le_mono_r; lia. Qed.

Lemma pow2_succ (x : Z) : 0 <= x -> 2 ^ (x + 1) = 2 * 2 ^ x.
Proof. intros H. rewrite pow2_add by lia. change (2 ^ 1) with 2. lia. Qed.

(** [2^x] as base for comparing exponents. *)
Lemma pow2_lt_inv (x y : Z) : 0 <= x -> 0 <= y -> 2 ^ x < 2 ^ y -> x < y.
Proof. intros Hx Hy H. apply (Z.pow_lt_mono_r_iff 2); lia. Qed.

(** ** The binade of a quotient *)

(** [ilog2_ratio a b] is the integer [lg] with [2^lg <= a / b < 2^(lg+1)];
    the inequalities are stated after scaling by [2^K] to keep every
    exponent non-negative. *)
Lemma ilog2_ratio_spec (a b : positive) (K : Z) :
  0 <= K -> 0 <= ilog2_ratio a b + K ->
  Z.pos b * 2 ^ (ilog2_ratio a b + K) <= Z.pos a * 2 ^ K
  /\ Z.pos a * 2 ^ K < Z.pos b * 2 ^ (ilog2_ratio a b + K + 1).
Proof.
  intros HK. unfold ilog2_ratio.
  destruct (Z.log2_spec (Z.pos a) ltac:(lia)) as [Ha1 Ha2].
  destruct (Z.log2_spec (Z.pos b) ltac:(lia)) as [Hb1 Hb2].
  pose proof (Z.log2_nonneg (Z.pos a)) as Hla.
  pose proof (Z.log2_nonneg (Z.pos b)) as Hlb.
  set (la := Z.log2 (Z.pos a)) in *. set (lb := Z.log2 (Z.pos b)) in *.
  rewrite Z.pow_succ_r in Ha2, Hb2 by assumption.
  pose proof (pow2_pos K HK) as HpK.
  destruct (Z.leb_spec 0 (la - lb)) as [Hd | Hd].
  - (* la = lb + d *)
    assert (Hla' : 2 ^ la = 2 ^ lb * 2 ^ (la - lb)).
    { rewrite <- pow2_add by lia. f_equal. lia. }
    pose proof (pow2_pos (la - lb) Hd) as Hpd.
    pose proof (pow2_pos lb Hlb) as Hplb.
    destruct (Z.leb_spec (Z.pos b * 2 ^ (la - lb)) (Z.pos a)) as [Ht | Ht]; intros HlgK.
    + rewrite (pow2_succ (la - lb + K)) by lia.
      rewrite (pow2_add (la - lb) K) by lia.
      assert (H2 : Z.pos a < 2 * (Z.pos b * 2 ^ (la - lb))) by nia.
      split; nia.
    + replace (la - lb - 1 + K + 1) with (la - lb + K) by lia.
      rewrite (pow2_add (la - lb) K) by lia.
      assert (H3 : Z.pos b * 2 ^ (la - lb) < 2 * Z.pos a) by nia.
      split; [|nia].
      destruct (Z.eq_dec K 0) as [-> | HK0].
      * replace (la - lb - 1 + 0) with (la - lb - 1) by lia.
        assert (Hs : 2 ^ (la - lb) = 2 * 2 ^ (la - lb - 1)).
        { rewrite <- pow2_succ by lia. f_equal. lia. }
        pose proof (pow2_pos (la - lb - 1) ltac:(lia)). nia.
      * replace (la - lb - 1 + K) with ((la - lb) + (K - 1)) by lia.
        rewrite (pow2_add (la - lb) (K - 1)) by lia.
        assert (Hs : 2 ^ K = 2 * 2 ^ (K - 1)).
        { rewrite <- pow2_succ by lia. f_equal. lia. }
        pose proof (pow2_pos (K - 1) ltac:(lia)). nia.
  - (* lb = la + c *)
    set (c := - (la - lb)) in *.
    assert (Hc : 0 < c) by (unfold c; lia).
    assert (Hlb' : 2 ^ lb = 2 ^ la * 2 ^ c).
    { rewrite <- pow2_add by lia. f_equal. unfold c. lia. }
    pose proof (pow2_pos c ltac:(lia)) as Hpc.
    pose proof (pow2_pos la Hla) as Hpla.
    destruct (Z.leb_spec (Z.pos b) (Z.pos a * 2 ^ c)) as [Ht | Ht]; intros HlgK.
    + replace (la - lb + K) with (K - c) by (unfold c; lia).
      rewrite (pow2_succ (K - c)) by lia.
      assert (Hs : 2 ^ K = 2 ^ c * 2 ^ (K - c)).
      { rewrite <- pow2_add by lia. f_equal. lia. }
      pose proof (pow2_pos (K - c) ltac:(lia)).
      assert (H4 : Z.pos a * 2 ^ c < 2 * Z.pos b) by nia.
      split; nia.
    + replace (la - lb - 1 + K + 1) with (K - c) by (unfold c; lia).
      replace (la - lb - 1 + K) with (K - c - 1) by (unfold c; lia).
      assert (Hs : 2 ^ K = 2 ^ c * 2 ^ (K - c)).
      { rewrite <- pow2_add by lia. f_equal. lia. }
      assert (Hs' : 2 ^ (K - c) = 2 * 2 ^ (K - c - 1)).
      { rewrite <- pow2_succ by lia. f_equal. lia. }
      pose proof (pow2_pos (K - c - 1) ltac:(lia)).
      assert (H5 : Z.pos b < 2 * (Z.pos a * 2 ^ c)) by nia.
      split; nia.
Qed.

(** ** The rounding of [round64] *)

Lemma round64_units (neg : bool) (a b : positive) :
  exists E m : Z,
    0 <= E
    /\ m = rne_div (Z.pos a * 2 ^ 1074) (Z.pos b * 2 ^ E)
    /\ 0 <= m <= 2 ^ 53
    /\ Z.pos a * 2 ^ 1074 < 2 ^ 53 * (Z.pos b * 2 ^ E)
    /\ (0 < E -> 2 ^ 52 * (Z.pos b * 2 ^ E) <= Z.pos a * 2 ^ 1074)
    /\ ((round64 neg a b = S754_infinity neg
         /\ (2045 < E \/ (m = 2 ^ 53 /\ 2045 <= E)))
        \/ (is_finite (round64 neg a b) = true
            /\ f64_units (round64 neg a b) = (if neg then -1 else 1) * (m * 2 ^ E))).
Proof.
  pose proof (pow2_pos 1074 ltac:(lia)) as HU.
  assert (HU52 : 2 ^ 1074 = 2 ^ 52 * 2 ^ 1022) by (rewrite <- pow2_add by lia; reflexivity).
  set (lg := ilog2_ratio a b).
  set (e := Z.max (lg - 52) (-1074)).
  set (E := e + 1074).
  assert (He : -1074 <= e) by (unfold e; lia).
  assert (HE : 0 <= E) by (unfold E; lia).
  pose proof (pow2_pos E HE) as HpE.
  set (m := rne_div (Z.pos a * 2 ^ 1074) (Z.pos b * 2 ^ E)).
  assert (Hm0 : (if 0 <=? e
                 then rne_div (Z.pos a) (Z.pos b * 2 ^ e)
                 else rne_div (Z.pos a * 2 ^ (- e)) (Z.pos b)) = m).
  { unfold m. destruct (Z.leb_spec 0 e) as [H0 | H0].
    - replace (2 ^ E) with (2 ^ e * 2 ^ 1074)
        by (unfold E; rewrite pow2_add by lia; reflexivity).
      rewrite Z.mul_assoc. rewrite rne_div_scale; [reflexivity| |lia].
      pose proof (pow2_pos e H0). lia.
    - replace (2 ^ 1074) with (2 ^ (- e) * 2 ^ E)
        by (unfold E; rewrite <- pow2_add by lia; f_equal; lia).
      rewrite Z.mul_assoc. rewrite rne_div_scale; [reflexivity|lia|lia]. }
  assert (Hup : Z.pos a * 2 ^ 1074 < 2 ^ 53 * (Z.pos b * 2 ^ E)
                /\ (0 < E -> 2 ^ 52 * (Z.pos b * 2 ^ E) <= Z.pos a * 2 ^ 1074)).
  { destruct (Z_le_gt_dec (-1074) (lg - 52)) as [Hn | Hs].
    - assert (HEq : E = lg + 1022) by (unfold E, e; lia).
      destruct (ilog2_ratio_spec a b 1074 ltac:(lia) ltac:(fold lg; lia)) as [Hlo Hhi].
      fold lg in Hlo, Hhi.
      replace (lg + 1074) with (52 + E) in Hlo by lia.
      replace (lg + 1074 + 1) with (53 + E) in Hhi by lia.
      rewrite pow2_add in Hlo, Hhi by lia. split; [nia | intros _; nia].
    - assert (HEq : E = 0) by (unfold E, e; lia).
      rewrite HEq. change (2 ^ 0) with 1. split; [|lia].
      destruct (ilog2_ratio_spec a b (- lg) ltac:(lia) ltac:(fold lg; lia)) as [_ Hhi].
      fold lg in Hhi. replace (lg + - lg + 1) with 1 in Hhi by lia.
      change (2 ^ 1) with 2 in Hhi.
      destruct (Z_le_gt_dec 1074 (- lg)) as [Hbig | Hsmall].
      + assert (2 ^ 1074 <= 2 ^ (- lg)) by (apply pow2_le; lia).
        assert (1 < 2 ^ 53) by (apply Z.pow_gt_1; lia). nia.
      + assert (Hs2 : 2 ^ 1074 = 2 ^ (- lg) * 2 ^ (1074 + lg))
          by (rewrite <- pow2_add by lia; f_equal; lia).
        assert (Hle : 2 ^ (1074 + lg) <= 2 ^ 51) by (apply pow2_le; lia).
        pose proof (pow2_pos (1074 + lg) ltac:(lia)).
        pose proof (pow2_pos (- lg) ltac:(lia)).
        assert (H53 : 2 ^ 53 = 4 * 2 ^ 51) by reflexivity.
        rewrite Hs2, H53. nia. }
  destruct Hup as [Hlt Hge].
  assert (Hm : 0 <= m <= 2 ^ 53).
  { unfold m. apply rne_div_bounds; [lia | lia | exact Hlt]. }
  exists E, m. split; [exact HE|]. split; [reflexivity|]. split; [exact Hm|].
  split; [exact Hlt|]. split; [exact Hge|].
  unfold round64. fold lg. fold e. rewrite Hm0.
  destruct (Z.eqb_spec m (2 ^ 53)) as [H53 | H53].
  - change (2 ^ 52) with (Z.pos (2 ^ 52)%positive).
    destruct (Z.leb_spec (e + 1) 971) as [Hfit | Hover].
    + right. split; [reflexivity|]. unfold f64_units.
      replace (e + 1 + 1074) with (E + 1) by (unfold E; lia).
      rewrite pow2_succ by lia. rewrite H53.
      change (2 ^ 53) with (2 * Z.pos (2 ^ 52)%positive).
      destruct neg; lia.
    + left. split; [reflexivity|]. right. split; [exact H53 | unfold E; lia].
  - destruct m as [|p|p] eqn:Em; [| |lia].
    + right. split; [reflexivity|]. simpl f64_units. destruct neg; lia.
    + destruct (Z.leb_spec e 971) as [Hfit | Hover].
      * right. split; [reflexivity|]. unfold f64_units. fold E. destruct neg; lia.
      * left. split; [reflexivity|]. left. unfold E. lia.
Qed.

(** ** Doubles *)

Lemma digits2_pos_bound (m : positive) : Z.pos m < 2 ^ Z.pos (digits2_pos m).
Proof.
  induction m as [p IH | p IH |]; simpl digits2_pos.
  - rewrite Pos2Z.inj_succ, Z.pow_succ_r by lia. lia.
  - rewrite Pos2Z.inj_succ, Z.pow_succ_r by lia. lia.
  - reflexivity.
Qed.

(** The mantissa and the exponent of a double are in range. *)
Lemma bounded_range (m : positive) (e : Z) :
  bounded prec64 emax64 m e = true ->
  -1074 <= e <= 971 /\ Z.pos m < 2 ^ 53.
Proof.
  unfold bounded, canonical_mantissa, fexp, emin, prec64, emax64.
  intros H. apply andb_prop in H as [Hc He].
  apply Z.eqb_eq in Hc. apply Z.leb_le in He.
  pose proof (digits2_pos_bound m) as Hd.
  assert (Hdig : Z.pos (digits2_pos m) <= 53) by lia.
  split; [lia|].
  eapply Z.lt_le_trans; [exact Hd|]. apply pow2_le. lia.
Qed.

(** The result of [round64] is at least as close to [a / b] as any
    double [mx * 2^ex]; distances are in units of [2^-1074], times [b]. *)
Lemma rne_units_nearest (a b : positive) (E : Z) (mx : positive) (ex : Z) :
  0 <= E ->
  Z.pos a * 2 ^ 1074 < 2 ^ 53 * (Z.pos b * 2 ^ E) ->
  (0 < E -> 2 ^ 52 * (Z.pos b * 2 ^ E) <= Z.pos a * 2 ^ 1074) ->
  -1074 <= ex -> Z.pos mx < 2 ^ 53 ->
  Z.abs (rne_div (Z.pos a * 2 ^ 1074) (Z.pos b * 2 ^ E) * 2 ^ E * Z.pos b
         - Z.pos a * 2 ^ 1074)
  <= Z.abs (Z.pos mx * 2 ^ (ex + 1074) * Z.pos b - Z.pos a * 2 ^ 1074).
Proof.
  intros HE Hlt Hge Hex Hmx.
  set (A := Z.pos a * 2 ^ 1074) in *.
  set (D := Z.pos b * 2 ^ E) in *.
  pose proof (pow2_pos E HE) as HpE.
  assert (HD : 0 < D) by (unfold D; lia).
  replace (rne_div A D * 2 ^ E * Z.pos b) with (rne_div A D * D) by (unfold D; lia).
  destruct (Z_le_gt_dec E (ex + 1074)) as [Hcoarse | Hfine].
  - replace (2 ^ (ex + 1074)) with (2 ^ (ex + 1074 - E) * 2 ^ E)
      by (rewrite <- pow2_add by lia; f_equal; lia).
    replace (Z.pos mx * (2 ^ (ex + 1074 - E) * 2 ^ E) * Z.pos b)
      with (Z.pos mx * 2 ^ (ex + 1074 - E) * D) by (unfold D; lia).
    apply rne_div_nearest. exact HD.
  - specialize (Hge ltac:(lia)).
    pose proof (rne_div_nearest A D (2 ^ 52) HD) as Hnear.
    assert (Hstep : 2 ^ (ex + 1074) * 2 <= 2 ^ E).
    { rewrite Z.mul_comm, <- pow2_succ by lia. apply pow2_le. lia. }
    pose proof (pow2_pos (ex + 1074) ltac:(lia)) as Hpx.
    assert (H53 : 2 ^ 53 = 2 ^ 52 * 2) by reflexivity.
    assert (H52 : 0 < 2 ^ 52) by reflexivity.
    assert (Hx : Z.pos mx * 2 ^ (ex + 1074) * Z.pos b < 2 ^ 52 * D).
    { unfold D.
      assert (Z.pos mx * 2 ^ (ex + 1074) < 2 ^ 52 * 2 ^ E) by nia.
      nia. }
    lia.
Qed.

(** No overflow below a double. *)
Lemma rne_units_no_overflow (a b : positive) (E : Z) (mu : positive) (eu : Z) :
  0 <= E ->
  (0 < E -> 2 ^ 52 * (Z.pos b * 2 ^ E) <= Z.pos a * 2 ^ 1074) ->
  eu <= 971 -> -1074 <= eu -> Z.pos mu < 2 ^ 53 ->
  Z.pos a * 2 ^ 1074 <= Z.pos mu * 2 ^ (eu + 1074) * Z.pos b ->
  ~ (2045 < E
     \/ (rne_div (Z.pos a * 2 ^ 1074) (Z.pos b * 2 ^ E) = 2 ^ 53 /\ 2045 <= E)).
Proof.
  intros HE Hge Heu Heu' Hmu Hbound.
  set (A := Z.pos a * 2 ^ 1074) in *.
  pose proof (pow2_pos E HE) as HpE.
  pose proof (pow2_pos (eu + 1074) ltac:(lia)) as Hpu.
  assert (Hpu' : 2 ^ (eu + 1074) <= 2 ^ 2045) by (apply pow2_le; lia).
  assert (H53 : 2 ^ 53 = 2 ^ 52 * 2) by reflexivity.
  assert (H52 : 0 < 2 ^ 52) by reflexivity.
  assert (HA : A <= (2 ^ 53 - 1) * 2 ^ 2045 * Z.pos b).
  { eapply Z.le_trans; [exact Hbound|].
    apply Z.mul_le_mono_nonneg_r; [lia|].
    assert (Z.pos mu <= 2 ^ 53 - 1) by lia. nia. }
  assert (HE45 : 0 < E -> E <= 2045).
  { intros HEpos. specialize (Hge HEpos).
    assert (Hlt : 2 ^ E < 2 ^ 2046).
    { assert (H46 : 2 ^ 2046 = 2 * 2 ^ 2045) by (rewrite <- pow2_succ by lia; reflexivity).
      rewrite H46. pose proof (pow2_pos 2045 ltac:(lia)). nia. }
    apply pow2_lt_inv in Hlt; lia. }
  intros [Hbig | [Hm HE']].
  - specialize (HE45 ltac:(lia)). lia.
  - assert (E = 2045) by (specialize (HE45 ltac:(lia)); lia). subst E.
    pose proof (rne_div_error A (Z.pos b * 2 ^ 2045) ltac:(lia)) as Herr.
    rewrite Hm in Herr. nia.
Qed.

(** ** Four decimals and back *)

Lemma scaled4_error (mx : positive) (ex : Z) :
  -1074 <= ex ->
  0 <= scaled4 mx ex
  /\ 2 * Z.abs (scaled4 mx ex * 2 ^ 1074 - Z.pos mx * 2 ^ (ex + 1074) * 10000) <= 2 ^ 1074
  /\ (0 <= ex -> scaled4 mx ex * 2 ^ 1074 = Z.pos mx * 2 ^ (ex + 1074) * 10000)
  /\ (ex < 0 -> scaled4 mx ex <= Z.pos mx * 10000 + 1).
Proof.
  intros Hex. unfold scaled4.
  pose proof (pow2_pos 1074 ltac:(lia)) as HU.
  destruct (Z.leb_spec 0 ex) as [Hpos | Hneg].
  - pose proof (pow2_pos ex Hpos) as Hp.
    assert (Heq : Z.pos mx * 2 ^ ex * 10000 * 2 ^ 1074
                  = Z.pos mx * 2 ^ (ex + 1074) * 10000).
    { rewrite pow2_add by lia. lia. }
    split; [nia|]. split; [rewrite Heq, Z.sub_diag; simpl Z.abs; lia|].
    split; [intros _; exact Heq | lia].
  - pose proof (pow2_pos (- ex) ltac:(lia)) as Hp.
    pose proof (pow2_pos (ex + 1074) ltac:(lia)) as Hq.
    assert (HU' : 2 ^ 1074 = 2 ^ (- ex) * 2 ^ (ex + 1074))
      by (rewrite <- pow2_add by lia; f_equal; lia).
    pose proof (rne_div_error (Z.pos mx * 10000) (2 ^ (- ex)) Hp) as Herr.
    assert (Hp1 : 1 <= 2 ^ (- ex)) by lia.
    destruct (rne_div_bounds (Z.pos mx * 10000) (2 ^ (- ex)) (Z.pos mx * 10000 + 1) Hp
                ltac:(lia) ltac:(nia)) as [Hn0 Hn1].
    set (n := rne_div (Z.pos mx * 10000) (2 ^ (- ex))) in *.
    split; [exact Hn0|]. split; [|split; [lia | intros _; exact Hn1]].
    replace (n * 2 ^ 1074 - Z.pos mx * 2 ^ (ex + 1074) * 10000)
      with ((n * 2 ^ (- ex) - Z.pos mx * 10000) * 2 ^ (ex + 1074))
      by (rewrite HU'; lia).
    rewrite Z.abs_mul, (Z.abs_eq (2 ^ (ex + 1074))) by lia.
    rewrite HU'. nia.
Qed.

Lemma round64_exponent (neg : bool) (a b : positive) :
  match round64 neg a b with
  | S754_finite _ _ e => -1074 <= e
  | _ => True
  end.
Proof.
  unfold round64.
  set (e := Z.max (ilog2_ratio a b - 52) (-1074)).
  assert (He : -1074 <= e) by (unfold e; lia).
  set (m := if 0 <=? e then _ else _).
  destruct (m =? 2 ^ 53).
  - change (2 ^ 52) with (Z.pos (2 ^ 52)%positive). cbv iota beta.
    destruct (e + 1 <=? 971); [lia | exact I].
  - destruct m; [exact I | | exact I].
    destruct (e <=? 971); [exact He | exact I].
Qed.

(** Formatting a double with four decimals and reading it back, in units
    of [2^-1074]. *)
Lemma round_trip_units (s : bool) (mx : positive) (ex : Z) :
  bounded prec64 emax64 mx ex = true ->
  let y := dec2float s (Z.to_N (scaled4 mx ex)) 4 in
  is_finite y = true
  /\ match y with S754_finite _ _ e => -1074 <= e | _ => True end
  /\ Z.abs (f64_units y - f64_units (S754_finite s mx ex)) * 10000 <= 2 ^ 1074.
Proof.
  intros Hb. destruct (bounded_range mx ex Hb) as [[Hex1 Hex2] Hmx].
  destruct (scaled4_error mx ex Hex1) as (Hn0 & Herr & Hexact & Hsmall).
  pose proof (pow2_pos 1074 ltac:(lia)) as HU.
  pose proof (pow2_pos (ex + 1074) ltac:(lia)) as Hpx.
  set (n := scaled4 mx ex) in *.
  assert (Hx : f64_units (S754_finite s mx ex)
               = (if s then -1 else 1) * (Z.pos mx * 2 ^ (ex + 1074))).
  { unfold f64_units. destruct s; lia. }
  destruct n as [|p|p] eqn:En; [| |lia].
  - (* the decimals are all zero *)
    cbv zeta. simpl Z.to_N. simpl dec2float.
    split; [reflexivity|]. split; [exact I|].
    rewrite Hx. simpl f64_units. destruct s; lia.
  - cbv zeta. simpl Z.to_N. unfold dec2float.
    change (Z.to_pos (10 ^ Z.of_nat 4)) with 10000%positive.
    pose proof (round64_exponent s p 10000) as Hexp.
    destruct (round64_units s p 10000) as (E & m & HE & Hm & Hmr & Hlt & Hge & Hres).
    assert (Hno : ~ (2045 < E \/ (m = 2 ^ 53 /\ 2045 <= E))).
    { rewrite Hm.
      destruct (Z_le_gt_dec 0 ex) as [Hpos | Hneg].
      - specialize (Hexact Hpos).
        apply (rne_units_no_overflow p 10000 E mx ex); try assumption; lia.
      - specialize (Hsmall ltac:(lia)).
        apply (rne_units_no_overflow p 10000 E (2 ^ 52)%positive 2); try assumption; lia. }
    destruct Hres as [[_ Hbad] | [Hfin Hval]]; [contradiction|].
    split; [exact Hfin|]. split; [exact Hexp|].
    rewrite Hval, Hx.
    pose proof (rne_units_nearest p 10000 E mx ex HE Hlt Hge Hex1 Hmx) as Hnear.
    rewrite <- Hm in Hnear.
    replace ((if s then -1 else 1) * (m * 2 ^ E)
             - (if s then -1 else 1) * (Z.pos mx * 2 ^ (ex + 1074)))
      with ((if s then -1 else 1) * (m * 2 ^ E - Z.pos mx * 2 ^ (ex + 1074)))
      by (destruct s; lia).
    rewrite Z.abs_mul.
    replace (Z.abs (if s then -1 else 1)) with 1 by (destruct s; reflexivity).
    lia.
Qed.

Lemma f64_val_units (x : float64) :
  match x with S754_finite _ _ e => -1074 <= e | _ => True end ->
  (f64_val x == f64_units x # Z.to_pos (2 ^ 1074))%Q.
Proof.
  pose proof (pow2_pos 1074 ltac:(lia)) as HU.
  assert (HP : Z.pos (Z.to_pos (2 ^ 1074)) = 2 ^ 1074) by (apply Z2Pos.id; exact HU).
  destruct x as [s|s| |s m e]; intros He; try reflexivity.
  unfold f64_val, f64_units, Qeq.
  set (a := if s then Z.neg m else Z.pos m).
  destruct (Z.leb_spec 0 e) as [Hpos | Hneg].
  - cbn [Qnum Qden inject_Z]. rewrite HP, pow2_add by lia. lia.
  - cbn [Qnum Qden]. rewrite HP.
    rewrite Z2Pos.id by (apply pow2_pos; lia).
    replace (2 ^ 1074) with (2 ^ (e + 1074) * 2 ^ (- e))
      by (rewrite <- pow2_add by lia; f_equal; lia).
    lia.
Qed.

Lemma units_tolerance (x y : float64) :
  match x with S754_finite _ _ e => -1074 <= e | _ => True end ->
  match y with S754_finite _ _ e => -1074 <= e | _ => True end ->
  Z.abs (f64_units y - f64_units x) * 10000 <= 2 ^ 1074 ->
  (Qabs (f64_val y - f64_val x) <= 1 # 10000)%Q.
Proof.
  intros Hx Hy H.
  rewrite (f64_val_units x Hx), (f64_val_units y Hy).
  pose proof (pow2_pos 1074 ltac:(lia)) as HU.
  assert (HP : Z.pos (Z.to_pos (2 ^ 1074)) = 2 ^ 1074) by (apply Z2Pos.id; exact HU).
  set (P := Z.to_pos (2 ^ 1074)) in *.
  set (ux := f64_units x) in *. set (uy := f64_units y) in *.
  unfold Qminus, Qplus, Qopp, Qabs, Qle. cbn [Qnum Qden].
  rewrite Pos2Z.inj_mul.
  replace (uy * Z.pos P + - ux * Z.pos P) with ((uy - ux) * Z.pos P) by lia.
  rewrite Z.abs_mul, (Z.abs_eq (Z.pos P)) by lia.
  rewrite <- HP in H. nia.
Qed.

Lemma fmt4_read_back (x : float64) :
  is_double x = true ->
  exists y, parse_tail (Some (fmt4 x)) = Return (VFloat y)
            /\ is_finite y = true
            /\ within_4_decimals y x.
Proof.
  unfold is_double, within_4_decimals. intros H. apply andb_prop in H as [Hfin Hvalid].
  destruct x as [s|s| |s m e]; try discriminate Hfin.
  - exists (S754_zero s). split; [apply (fixed4_parse_tail s 0)|].
    split; [reflexivity|]. vm_compute. discriminate.
  - simpl in Hvalid.
    destruct (round_trip_units s m e Hvalid) as (Hyfin & Hyexp & Hunits).
    destruct (bounded_range m e Hvalid) as [[He _] _].
    exists (dec2float s (Z.to_N (scaled4 m e)) 4).
    split; [apply fixed4_parse_tail|]. split; [exact Hyfin|].
    apply units_tolerance; assumption.
Qed.

(** X15: four decimals and back.  For every double [x], the text printed
    by the encoder's [{:.4f}] is accepted by [parse_tail] as a number,
    never as a string and never with an error, and the float read back
    is finite and within [10^-4] of [x]. *)
Theorem fmt4_parse_tail_round_trip (x : float64) :
  is_double x = true ->
  exists y, parse_tail (Some (fmt4 x)) = Return (VFloat y)
            /\ is_finite y = true
            /\ within_4_decimals y x.
Proof.
  intros H. destruct (fmt4_read_back x H) as (y & Hparse & Hfin & Htol).
  exists y. split; [exact Hparse|]. split; [exact Hfin | exact Htol].
Qed.

Lemma fmt4_parse_tail_round_trip_witness :
  exists y, parse_tail (Some (fmt4 c_0_1)) = Return (VFloat y)
            /\ is_finite y = true
            /\ within_4_decimals y c_0_1.
Proof.
  apply (fmt4_parse_tail_round_trip c_0_1).
  vm_compute. reflexivity.
Defined.

Lemma channel_items_other_keys (items : list Element) (k : string) :
  forall (c : N) (st : State),
    (forall j : nat, k <> rcin (c + N.of_nat j)) ->
    fst (channel_items items c st) !! k = st !! k.
Proof.
  induction items as [|item rest IH]; intros c st Hk; simpl; [reflexivity|].
  destruct (String.eqb (tag item) "item"); [|apply IH, Hk].
  destruct (parse_tail (text item)) as [v|e]; [|reflexivity].
  rewrite IH.
  - apply lookup_insert_ne. intros Heq. apply (Hk 0%nat).
    change (N.of_nat 0) with 0%N. rewrite N.add_0_r. symmetry. exact Heq.
  - intros j. replace (c + 1 + N.of_nat j)%N with (c + N.of_nat (S j))%N by lia. apply Hk.
Qed.

Lemma known_items_other_keys (items : list Element) (k : string) :
  forall st : State,
    Forall (fun it => tag it <> k) items ->
    fst (known_items items st) !! k = st !! k.
Proof.
  induction items as [|item rest IH]; intros st Hk; simpl; [reflexivity|].
  inversion Hk as [|it its Hit Hrest]; subst.
  destruct (st !! tag item) as [old|]; [|apply IH, Hrest].
  destruct (parse_tail (text item)) as [w|e]; [|reflexivity].
  rewrite (IH _ Hrest). apply lookup_insert_ne, Hit.
Qed.

Lemma channel_items_formatted (vs : list float64) :
  forall (c : N) (st : State),
    Forall (fun v => is_double v = true) vs ->
    snd (channel_items (List.map item_of vs) c st) = Return tt
    /\ forall (i : nat) (v : float64),
        vs !! i = Some v ->
        exists y, fst (channel_items (List.map item_of vs) c st) !! rcin (c + N.of_nat i)
                  = Some (VFloat y)
                  /\ within_4_decimals y v.
Proof.
  induction vs as [|v0 vs IH]; intros c st Hvs.
  - split; [reflexivity | intros i v Hi; discriminate].
  - inversion Hvs as [|w ws Hv0 Hrest]; subst.
    destruct (fmt4_read_back v0 Hv0) as (y0 & Hparse & _ & Htol).
    cbn [List.map channel_items item_of tag text]. 
    change (String.eqb "item" "item") with true. cbv iota.
    rewrite Hparse.
    destruct (IH (c + 1)%N (<[rcin c := VFloat y0]> st) Hrest) as [Hret Hlook].
    split; [exact Hret|].
    intros [|i] v Hi.
    + injection Hi as <-. exists y0. split; [|exact Htol].
      rewrite N.add_0_r, channel_items_other_keys; [apply lookup_insert_eq|].
      intros j Heq. apply rcin_inj in Heq. lia.
    + replace (c + N.of_nat (S i))%N with (c + 1 + N.of_nat i)%N by lia.
      apply Hlook. exact Hi.
Qed.

(** X16: round trip through the reply decoder.  When the reply parses to
    a reply-shaped document whose channel block lists the values [vs] as
    the encoder prints them, and no element of the two other groups is
    tagged with a channel key, then after [parse_reply] the store holds
    under [rcin i] a float within [10^-4] of [vs\[i\]], for every [i],
    in channel order. *)
Theorem channel_values_round_trip
    (fromstring : string -> option Element) (st : State) (reply : string)
    (vs : list float64) (aircraft_state notification : list Element) :
  Forall (fun v => is_double v = true) vs ->
  Forall (fun it => forall i : N, tag it <> rcin i) (aircraft_state ++ notification)%list ->
  fromstring (xml_txt reply) = Some (reply_document vs aircraft_state notification) ->
  forall (i : nat) (v : float64),
    vs !! i = Some v ->
    exists y, fst (parse_reply fromstring st reply) !! rcin (N.of_nat i) = Some (VFloat y)
              /\ within_4_decimals y v.
Proof.
  intros Hvs Htags Hdoc i v Hi.
  apply Forall_app in Htags as [Ha Hn].
  destruct (channel_items_formatted vs 0%N st Hvs) as [Hret Hlook].
  destruct (Hlook i v Hi) as (y & Hy & Htol). rewrite N.add_0_l in Hy.
  exists y. split; [|exact Htol].
  unfold parse_reply. rewrite Hdoc. unfold parse_root, reply_document.
  cbn [group child children nth_error channel_blocks tag].
  change (String.eqb "m-selectedChannels" "m-channelValues-0to1") with false.
  change (String.eqb "m-channelValues-0to1" "m-channelValues-0to1") with true.
  cbv iota.
  destruct (channel_items (List.map item_of vs) 0%N st) as [st1 r1] eqn:E1.
  cbn [fst snd] in Hret, Hy. subst r1.
  assert (Ha' : Forall (fun it => tag it <> rcin (N.of_nat i)) aircraft_state).
  { eapply Forall_impl; [exact Ha|]. intros it H. apply H. }
  assert (Hn' : Forall (fun it => tag it <> rcin (N.of_nat i)) notification).
  { eapply Forall_impl; [exact Hn|]. intros it H. apply H. }
  pose proof (known_items_other_keys aircraft_state (rcin (N.of_nat i)) st1 Ha') as H1.
  destruct (known_items aircraft_state st1) as [st2 [[]|e2]]; cbn [fst] in H1 |- *.
  - rewrite (known_items_other_keys notification _ st2 Hn'), H1. exact Hy.
  - rewrite H1. exact Hy.
Qed.

Lemma channel_values_round_trip_witness :
  exists y,
    fst (parse_reply xml_fromstring init_state
           (reply_of (envelope_of (channel_group ["0.5000"; "0.2500"]
                                   ++ "<m-aircraftState/><m-notifications/>"))))
    !! rcin (N.of_nat 1) = Some (VFloat y)
    /\ within_4_decimals y c_0_25.
Proof.
  apply (channel_values_round_trip xml_fromstring init_state
           (reply_of (envelope_of (channel_group ["0.5000"; "0.2500"]
                                   ++ "<m-aircraftState/><m-notifications/>")))
           [c_0_5; c_0_25] [] [] ltac:(repeat constructor) ltac:(constructor)
           ltac:(vm_compute; reflexivity) 1%nat c_0_25).
  reflexivity.
Defined.




(** ** The estimator in steady state *)

(** X17: the steady-state step of the estimator.  When the average is a
    float that is not below 1e-6 and the exchange yields an accepted
    delta [dt], the exchange returns, counts the frame, and stores the
    blend [average * 0.98 + dt * 0.02] of the old average and [dt]. *)
Theorem accepted_sample_blends_with_average
    (fromstring : string -> option Element) (post : string -> string -> result string)
    (self : Session) (wire : list (string * string)) (control_input : list float64)
    (st1 : State) (lastt_s now : value) (dt : num) (a : float64) :
  average_frame_time_s self = NFloat a ->
  num_ltb (NFloat a) (NFloat c_1em6) = false ->
  exchange_yields fromstring post self control_input st1 lastt_s now dt ->
  accepted dt = true ->
  exists d,
    dt = NFloat d
    /\ snd (exchange_data fromstring post self wire control_input) = Return tt
    /\ average_frame_time_s (fst (fst (exchange_data fromstring post self wire control_input)))
       = NFloat (f64_add (f64_mul a c_0_98) (f64_mul d c_0_02))
    /\ socket_frame_counter (fst (fst (exchange_data fromstring post self wire control_input)))
       = socket_frame_counter self + 1.
Proof.
  intros Havg Hhigh (msg & reply & Hfmt & Hpost & Hne & Hlast & Hparse & Hnow & Hdt) Hacc.
  destruct (accepted_is_float dt Hacc) as [d ->]. exists d.
  split; [reflexivity|].
  unfold exchange_data, soap_request. rewrite Hfmt, Hpost.
  destruct reply as [|c reply]; [congruence|].
  unfold on_reply. rewrite Hlast, Hparse. cbn [set_state state].
  rewrite Hnow, Hdt, Hacc. cbn [average_frame_time_s set_state].
  rewrite Havg, Hhigh. cbn [average_frame_time_s set_state].
  rewrite Havg, blend_floats. repeat split.
Qed.

Lemma accepted_sample_blends_with_average_witness :
  exists d,
    NFloat (dec2float false 2 2) = NFloat d
    /\ snd (exchange_data xml_fromstring (always (reply_at_time "0.02"))
              (set_average_frame_time_s init (NFloat c_0_02)) [] (control_neutral 12))
       = Return tt
    /\ average_frame_time_s
         (fst (fst (exchange_data xml_fromstring (always (reply_at_time "0.02"))
                      (set_average_frame_time_s init (NFloat c_0_02)) []
                      (control_neutral 12))))
       = NFloat (f64_add (f64_mul c_0_02 c_0_98) (f64_mul d c_0_02))
    /\ socket_frame_counter
         (fst (fst (exchange_data xml_fromstring (always (reply_at_time "0.02"))
                      (set_average_frame_time_s init (NFloat c_0_02)) []
                      (control_neutral 12))))
       = socket_frame_counter (set_average_frame_time_s init (NFloat c_0_02)) + 1.
Proof.
  apply (accepted_sample_blends_with_average xml_fromstring (always (reply_at_time "0.02"))
           (set_average_frame_time_s init (NFloat c_0_02)) [] (control_neutral 12)
           (fst (parse_reply xml_fromstring init_state (reply_at_time "0.02")))
           (VInt 0) (VFloat (dec2float false 2 2)) (NFloat (dec2float false 2 2)) c_0_02).
  - reflexivity.
  - vm_compute. reflexivity.
  - exists (match format_exchange_data (control_neutral 12) with
            | Return m => m
            | Raise _ => EmptyString
            end), (reply_at_time "0.02").
    repeat split; try (vm_compute; reflexivity).
    vm_compute. discriminate.
  - vm_compute. reflexivity.
Defined.

(** ** Rounding to binary64 *)
(** ** [round64] returns a nearest double *)

Lemma digits2_pos_lower (m : positive) : 2 ^ (Z.pos (digits2_pos m) - 1) <= Z.pos m.
Proof.
  induction m as [p IH | p IH |]; simpl digits2_pos.
  - rewrite Pos2Z.inj_succ. replace (Z.succ (Z.pos (digits2_pos p)) - 1)
      with (Z.succ (Z.pos (digits2_pos p) - 1)) by lia.
    rewrite Z.pow_succ_r by lia. lia.
  - rewrite Pos2Z.inj_succ. replace (Z.succ (Z.pos (digits2_pos p)) - 1)
      with (Z.succ (Z.pos (digits2_pos p) - 1)) by lia.
    rewrite Z.pow_succ_r by lia. lia.
  - reflexivity.
Qed.

Lemma bounded_normal (p : positive) (e : Z) :
  2 ^ 52 <= Z.pos p < 2 ^ 53 -> -1074 <= e <= 971 -> bounded prec64 emax64 p e = true.
Proof.
  intros [Hlo Hhi] He.
  pose proof (digits2_pos_bound p) as Hub. pose proof (digits2_pos_lower p) as Hlb.
  assert (Hd : Z.pos (digits2_pos p) = 53).
  { assert (H1 : 52 < Z.pos (digits2_pos p)).
    { apply (pow2_lt_inv 52 (Z.pos (digits2_pos p))); lia. }
    assert (H2 : Z.pos (digits2_pos p) - 1 < 53).
    { apply (pow2_lt_inv (Z.pos (digits2_pos p) - 1) 53); lia. }
    lia. }
  unfold bounded, canonical_mantissa, fexp, emin, prec64, emax64. rewrite Hd.
  apply andb_true_intro. split; [apply Z.eqb_eq | apply Z.leb_le]; lia.
Qed.

Lemma bounded_subnormal (p : positive) :
  Z.pos p < 2 ^ 53 -> bounded prec64 emax64 p (-1074) = true.
Proof.
  intros Hhi. pose proof (digits2_pos_lower p) as Hlb.
  assert (Hd : Z.pos (digits2_pos p) <= 53).
  { assert (H2 : Z.pos (digits2_pos p) - 1 < 53).
    { apply (pow2_lt_inv (Z.pos (digits2_pos p) - 1) 53); lia. }
    lia. }
  unfold bounded, canonical_mantissa, fexp, emin, prec64, emax64.
  apply andb_true_intro. split; [apply Z.eqb_eq | apply Z.leb_le]; lia.
Qed.

Lemma rne_div_lower (a d n : Z) : 0 < d -> n * d <= a -> n <= rne_div a d.
Proof.
  intros Hd Hn.
  assert (Hq : n <= a / d) by (apply Z.div_le_lower_bound; lia).
  destruct (rne_div_cases a d Hd) as [[-> _] | [-> _]]; lia.
Qed.

(** [round64] returns a double, a zero or an infinity; the quantities are
    those of [round64_units]. *)
Lemma round64_shape (neg : bool) (a b : positive) :
  exists E m : Z,
    0 <= E
    /\ m = rne_div (Z.pos a * 2 ^ 1074) (Z.pos b * 2 ^ E)
    /\ Z.pos a * 2 ^ 1074 < 2 ^ 53 * (Z.pos b * 2 ^ E)
    /\ (0 < E -> 2 ^ 52 * (Z.pos b * 2 ^ E) <= Z.pos a * 2 ^ 1074)
    /\ ((round64 neg a b = S754_infinity neg
         /\ (2045 < E \/ (m = 2 ^ 53 /\ 2045 <= E)))
        \/ (is_double (round64 neg a b) = true
            /\ f64_units (round64 neg a b) = (if neg then -1 else 1) * (m * 2 ^ E))).
Proof.
  pose proof (pow2_pos 1074 ltac:(lia)) as HU.
  assert (HU52 : 2 ^ 1074 = 2 ^ 52 * 2 ^ 1022) by (rewrite <- pow2_add by lia; reflexivity).
  set (lg := ilog2_ratio a b).
  set (e := Z.max (lg - 52) (-1074)).
  set (E := e + 1074).
  assert (He : -1074 <= e) by (unfold e; lia).
  assert (HE : 0 <= E) by (unfold E; lia).
  pose proof (pow2_pos E HE) as HpE.
  set (m := rne_div (Z.pos a * 2 ^ 1074) (Z.pos b * 2 ^ E)).
  assert (Hm0 : (if 0 <=? e
                 then rne_div (Z.pos a) (Z.pos b * 2 ^ e)
                 else rne_div (Z.pos a * 2 ^ (- e)) (Z.pos b)) = m).
  { unfold m. destruct (Z.leb_spec 0 e) as [H0 | H0].
    - replace (2 ^ E) with (2 ^ e * 2 ^ 1074)
        by (unfold E; rewrite pow2_add by lia; reflexivity).
      rewrite Z.mul_assoc. rewrite rne_div_scale; [reflexivity| |lia].
      pose proof (pow2_pos e H0). lia.
    - replace (2 ^ 1074) with (2 ^ (- e) * 2 ^ E)
        by (unfold E; rewrite <- pow2_add by lia; f_equal; lia).
      rewrite Z.mul_assoc. rewrite rne_div_scale; [reflexivity|lia|lia]. }
  assert (Hup : Z.pos a * 2 ^ 1074 < 2 ^ 53 * (Z.pos b * 2 ^ E)
                /\ (0 < E -> 2 ^ 52 * (Z.pos b * 2 ^ E) <= Z.pos a * 2 ^ 1074)).
  { destruct (Z_le_gt_dec (-1074) (lg - 52)) as [Hn | Hs].
    - assert (HEq : E = lg + 1022) by (unfold E, e; lia).
      destruct (ilog2_ratio_spec a b 1074 ltac:(lia) ltac:(fold lg; lia)) as [Hlo Hhi].
      fold lg in Hlo, Hhi.
      replace (lg + 1074) with (52 + E) in Hlo by lia.
      replace (lg + 1074 + 1) with (53 + E) in Hhi by lia.
      rewrite pow2_add in Hlo, Hhi by lia. split; [nia | intros _; nia].
    - assert (HEq : E = 0) by (unfold E, e; lia).
      rewrite HEq. change (2 ^ 0) with 1. split; [|lia].
      destruct (ilog2_ratio_spec a b (- lg) ltac:(lia) ltac:(fold lg; lia)) as [_ Hhi].
      fold lg in Hhi. replace (lg + - lg + 1) with 1 in Hhi by lia.
      change (2 ^ 1) with 2 in Hhi.
      destruct (Z_le_gt_dec 1074 (- lg)) as [Hbig | Hsmall].
      + assert (2 ^ 1074 <= 2 ^ (- lg)) by (apply pow2_le; lia).
        assert (1 < 2 ^ 53) by (apply Z.pow_gt_1; lia). nia.
      + assert (Hs2 : 2 ^ 1074 = 2 ^ (- lg) * 2 ^ (1074 + lg))
          by (rewrite <- pow2_add by lia; f_equal; lia).
        assert (Hle : 2 ^ (1074 + lg) <= 2 ^ 51) by (apply pow2_le; lia).
        pose proof (pow2_pos (1074 + lg) ltac:(lia)).
        pose proof (pow2_pos (- lg) ltac:(lia)).
        assert (H53 : 2 ^ 53 = 4 * 2 ^ 51) by reflexivity.
        rewrite Hs2, H53. nia. }
  destruct Hup as [Hlt Hge].
  assert (Hm : 0 <= m <= 2 ^ 53).
  { unfold m. apply rne_div_bounds; [lia | lia | exact Hlt]. }
  exists E, m. split; [exact HE|]. split; [reflexivity|].
  split; [exact Hlt|]. split; [exact Hge|].
  unfold round64. fold lg. fold e. rewrite Hm0.
  destruct (Z.eqb_spec m (2 ^ 53)) as [H53 | H53].
  - change (2 ^ 52) with (Z.pos (2 ^ 52)%positive).
    destruct (Z.leb_spec (e + 1) 971) as [Hfit | Hover].
    + right. split.
      * unfold is_double. simpl is_finite. simpl valid_binary.
        apply bounded_normal; [split; [reflexivity | reflexivity] | lia].
      * unfold f64_units.
        replace (e + 1 + 1074) with (E + 1) by (unfold E; lia).
        rewrite pow2_succ by lia. rewrite H53.
        change (2 ^ 53) with (2 * Z.pos (2 ^ 52)%positive).
        destruct neg; lia.
    + left. split; [reflexivity|]. right. split; [exact H53 | unfold E; lia].
  - destruct m as [|p|p] eqn:Em; [| |lia].
    + right. split; [reflexivity|]. simpl f64_units. destruct neg; lia.
    + destruct (Z.leb_spec e 971) as [Hfit | Hover].
      * right. split.
        -- unfold is_double. simpl is_finite. simpl valid_binary.
           destruct (Z_le_gt_dec e (-1074)) as [Hsub | Hnorm].
           ++ replace e with (-1074) by lia. apply bounded_subnormal. lia.
           ++ apply bounded_normal; [|lia]. split; [|lia].
              rewrite <- Em. unfold m. apply rne_div_lower; [lia|].
              apply Hge. unfold E. lia.
        -- unfold f64_units. fold E. destruct neg; lia.
      * left. split; [reflexivity|]. left. unfold E. lia.
Qed.

Lemma Qabs_diff_le (u1 u2 n : Z) (P T : positive) :
  Z.abs (u1 * Z.pos T - n * Z.pos P) <= Z.abs (u2 * Z.pos T - n * Z.pos P) ->
  (Qabs ((u1 # P) - (n # T)) <= Qabs ((u2 # P) - (n # T)))%Q.
Proof.
  intros H. unfold Qminus, Qplus, Qopp, Qabs, Qle. cbn [Qnum Qden].
  replace (u1 * Z.pos T + - n * Z.pos P) with (u1 * Z.pos T - n * Z.pos P) by lia.
  replace (u2 * Z.pos T + - n * Z.pos P) with (u2 * Z.pos T - n * Z.pos P) by lia.
  apply Z.mul_le_mono_nonneg_r; [lia | exact H].
Qed.

Lemma Qabs_lt_frac (u n : Z) (P T : positive) :
  Z.abs u * Z.pos T < Z.abs n * Z.pos P -> (Qabs (u # P) < Qabs (n # T))%Q.
Proof. intros H. unfold Qabs, Qlt. cbn [Qnum Qden]. exact H. Qed.

(** The units of a double. *)
Lemma is_double_units (x : float64) :
  is_double x = true ->
  match x with S754_finite _ _ e => -1074 <= e | _ => True end
  /\ ((f64_units x = 0)
      \/ exists (s : bool) (mx : positive) (ex : Z),
          -1074 <= ex <= 971 /\ Z.pos mx < 2 ^ 53
          /\ f64_units x = (if s then -1 else 1) * (Z.pos mx * 2 ^ (ex + 1074))).
Proof.
  unfold is_double. intros H. apply andb_prop in H as [Hfin Hvalid].
  destruct x as [s|s| |s m e]; try discriminate Hfin.
  - split; [exact I | left; reflexivity].
  - simpl in Hvalid. destruct (bounded_range m e Hvalid) as [He Hm].
    split; [lia|]. right. exists s, m, e. split; [exact He|]. split; [exact Hm|].
    unfold f64_units. destruct s; lia.
Qed.

(** Rounding a positive quotient: nearest among all doubles, in units. *)
Lemma round64_nearest_units (neg : bool) (a b : positive) (x : float64) :
  is_double (round64 neg a b) = true ->
  is_double x = true ->
  Z.abs (f64_units (round64 neg a b) * Z.pos b
         - (if neg then -1 else 1) * (Z.pos a * 2 ^ 1074))
  <= Z.abs (f64_units x * Z.pos b - (if neg then -1 else 1) * (Z.pos a * 2 ^ 1074)).
Proof.
  intros Hf Hx.
  destruct (round64_shape neg a b) as (E & m & HE & Hm & Hlt & Hge & Hres).
  destruct Hres as [[Hinf _] | [_ Hval]].
  { rewrite Hinf in Hf. discriminate. }
  pose proof (pow2_pos 1074 ltac:(lia)) as HU.
  pose proof (pow2_pos E HE) as HpE.
  set (A := Z.pos a * 2 ^ 1074) in *.
  assert (HA : 0 < A) by (unfold A; lia).
  assert (Hzero : Z.abs (m * 2 ^ E * Z.pos b - A) <= A).
  { pose proof (rne_div_nearest A (Z.pos b * 2 ^ E) 0 ltac:(lia)) as H0.
    rewrite <- Hm in H0.
    replace (m * 2 ^ E * Z.pos b) with (m * (Z.pos b * 2 ^ E)) by lia. lia. }
  rewrite Hval.
  replace ((if neg then -1 else 1) * (m * 2 ^ E) * Z.pos b - (if neg then -1 else 1) * A)
    with ((if neg then -1 else 1) * (m * 2 ^ E * Z.pos b - A)) by (destruct neg; lia).
  rewrite Z.abs_mul.
  replace (Z.abs (if neg then -1 else 1)) with 1 by (destruct neg; reflexivity).
  rewrite Z.mul_1_l.
  destruct (is_double_units x Hx) as [_ [Hx0 | (s & mx & ex & Hex & Hmx & Hxu)]].
  - rewrite Hx0. destruct neg; lia.
  - rewrite Hxu.
    pose proof (rne_units_nearest a b E mx ex HE Hlt Hge ltac:(lia) Hmx) as Hnear.
    fold A in Hnear. rewrite <- Hm in Hnear.
    pose proof (pow2_pos (ex + 1074) ltac:(lia)) as Hpx.
    assert (Hxpos : 0 <= Z.pos mx * 2 ^ (ex + 1074) * Z.pos b) by nia.
    destruct s, neg; lia.
Qed.

Lemma round64_overflow_units (neg : bool) (a b : positive) (x : float64) :
  is_double (round64 neg a b) = false ->
  is_double x = true ->
  round64 neg a b = S754_infinity neg
  /\ Z.abs (f64_units x) * Z.pos b < Z.pos a * 2 ^ 1074.
Proof.
  intros Hf Hx.
  destruct (round64_shape neg a b) as (E & m & HE & Hm & Hlt & Hge & Hres).
  destruct Hres as [[Hinf Hover] | [Hd _]]; [|congruence].
  split; [exact Hinf|].
  pose proof (pow2_pos 1074 ltac:(lia)) as HU.
  destruct (is_double_units x Hx) as [_ [Hx0 | (s & mx & ex & Hex & Hmx & Hxu)]].
  - rewrite Hx0. simpl Z.abs. lia.
  - rewrite Hxu.
    pose proof (pow2_pos (ex + 1074) ltac:(lia)) as Hpx.
    rewrite Z.abs_mul.
    replace (Z.abs (if s then -1 else 1)) with 1 by (destruct s; reflexivity).
    rewrite Z.mul_1_l, Z.abs_eq by nia.
    destruct (Z_lt_le_dec (Z.pos mx * 2 ^ (ex + 1074) * Z.pos b) (Z.pos a * 2 ^ 1074))
      as [Hlt' | Hle]; [exact Hlt'|].
    exfalso. rewrite Hm in Hover.
    exact (rne_units_no_overflow a b E mx ex HE Hge ltac:(lia) ltac:(lia) Hmx Hle Hover).
Qed.

(** [dec2float] rounds the value of the numeral to binary64. *)
Lemma dec2float_rounds (neg : bool) (d : N) (k : nat) :
  rounds_to (decimal_value neg d k) (dec2float neg d k).
Proof.
  pose proof (pow2_pos 1074 ltac:(lia)) as HU.
  assert (HP : Z.pos (Z.to_pos (2 ^ 1074)) = 2 ^ 1074) by (apply Z2Pos.id; exact HU).
  unfold decimal_value, dec2float.
  set (T := Z.to_pos (10 ^ Z.of_nat k)).
  destruct d as [|p].
  - (* all digits are zero *)
    cbn [rounds_to]. split; [reflexivity|].
    intros x _. replace (if neg then - Z.of_N 0 else Z.of_N 0) with 0
      by (destruct neg; reflexivity).
    cbn [f64_val]. unfold Qminus, Qplus, Qopp, Qabs, Qle. cbn [Qnum Qden].
    simpl Z.abs at 1. pose proof (Z.abs_nonneg (Qnum (f64_val x) * Z.pos T + -0 * Z.pos (Qden (f64_val x)))). nia.
  - change (Z.of_N (N.pos p)) with (Z.pos p).
    set (n := if neg then - Z.pos p else Z.pos p).
    assert (Hn : n * 2 ^ 1074 = (if neg then -1 else 1) * (Z.pos p * 2 ^ 1074))
      by (unfold n; destruct neg; lia).
    pose proof (round64_exponent neg p T) as Hexp.
    destruct (is_double (round64 neg p T)) eqn:Hd.
    + assert (Hgoal : forall x, is_double x = true ->
                (Qabs (f64_val (round64 neg p T) - (n # T))
                 <= Qabs (f64_val x - (n # T)))%Q).
      { intros x Hx.
        destruct (is_double_units x Hx) as [Hxe _].
        rewrite (f64_val_units _ Hexp), (f64_val_units x Hxe).
        apply Qabs_diff_le. rewrite HP, Hn.
        apply round64_nearest_units; assumption. }
      destruct (round64 neg p T) as [s|s| |s m e]; try discriminate Hd;
        cbn [rounds_to]; (split; [exact Hd | exact Hgoal]).
    + assert (Hnot : is_double (round64 neg p T) = false) by exact Hd.
      destruct (round64_overflow_units neg p T (S754_zero false) Hnot eq_refl) as [Hinf _].
      rewrite Hinf. cbn [rounds_to]. split; [unfold n; destruct neg; reflexivity|].
      intros x Hx.
      destruct (round64_overflow_units neg p T x Hnot Hx) as [_ Hlt].
      destruct (is_double_units x Hx) as [Hxe _].
      rewrite (f64_val_units x Hxe). apply Qabs_lt_frac. rewrite HP.
      replace (Z.abs n) with (Z.pos p) by (unfold n; destruct neg; reflexivity).
      exact Hlt.
Qed.

(** ** The decimal grammar read by [py_float] *)

Lemma span_digits_all (ds : string) :
  all_digits ds = true -> span_digits ds = (ds, EmptyString).
Proof.
  induction ds as [|d ds IH]; [reflexivity|].
  simpl. intros H. apply andb_prop in H as [Hd Hds].
  rewrite Hd, (IH Hds). reflexivity.
Qed.

Lemma span_digits_spec (s : string) :
  s = (fst (span_digits s) ++ snd (span_digits s))%string
  /\ all_digits (fst (span_digits s)) = true.
Proof.
  induction s as [|c r [IH1 IH2]]; [split; reflexivity|].
  simpl. destruct (is_digit c) eqn:Hc.
  - destruct (span_digits r) as [d t]. cbn [fst snd] in *.
    rewrite string_app_cons, <- IH1. simpl. rewrite Hc, IH2. split; reflexivity.
  - split; reflexivity.
Qed.

Lemma py_float_other (c : ascii) (r : string) :
  c <> "-"%char -> py_float (String c r) = py_float_body false (String c r).
Proof.
  intros H.
  destruct c as [b0 b1 b2 b3 b4 b5 b6 b7].
  destruct b0, b1, b2, b3, b4, b5, b6, b7; try reflexivity; congruence.
Qed.

(** [py_float] splits the sign off and reads the rest. *)
Lemma py_float_sign (neg : bool) (body : string) :
  match body with String c _ => c <> "-"%char | EmptyString => True end ->
  py_float (sign_text neg ++ body) = py_float_body neg body.
Proof.
  intros H. destruct neg.
  - reflexivity.
  - unfold sign_text. rewrite string_app_nil_l.
    destruct body as [|c r]; [reflexivity | apply py_float_other, H].
Qed.

Lemma digits_head (ip rest : string) :
  all_digits ip = true ->
  match rest with String c _ => c <> "-"%char | EmptyString => True end ->
  match (ip ++ rest)%string with String c _ => c <> "-"%char | EmptyString => True end.
Proof.
  intros Hip Hrest. destruct ip as [|c ip]; [exact Hrest|].
  rewrite string_app_cons. simpl in Hip. apply andb_prop in Hip as [Hc _].
  intros ->. discriminate Hc.
Qed.

Lemma py_float_body_integer (neg : bool) (ip : string) :
  all_digits ip = true -> ip <> EmptyString ->
  py_float_body neg ip = Return (dec2float neg (digits_value ip 0) 0).
Proof.
  intros Hip Hne. unfold py_float_body. rewrite (span_digits_all ip Hip).
  destruct ip; [congruence | reflexivity].
Qed.

Lemma py_float_body_point (neg : bool) (ip fp : string) :
  all_digits ip = true -> all_digits fp = true ->
  (String.length ip + String.length fp <> 0)%nat ->
  py_float_body neg (ip ++ "." ++ fp)
  = Return (dec2float neg (digits_value (ip ++ fp) 0) (String.length fp)).
Proof.
  intros Hip Hfp Hlen. unfold py_float_body.
  change ("." ++ fp)%string with (String "." fp).
  rewrite (span_digits_app ip "." fp Hip eq_refl), Hfp.
  replace (String.length ip + String.length fp =? 0)%nat with false
    by (symmetry; apply Nat.eqb_neq; exact Hlen).
  reflexivity.
Qed.

(** Every numeral is read, with the sign, digits and scale it shows. *)
Lemma numeral_py_float (s : string) (neg : bool) (d : N) (k : nat) :
  is_numeral s neg d k -> py_float s = Return (dec2float neg d k).
Proof.
  intros [neg' ip Hip Hne | neg' ip fp Hip Hfp Hlen].
  - rewrite py_float_sign.
    + apply py_float_body_integer; assumption.
    + rewrite <- (string_app_nil_r ip). apply digits_head; [exact Hip | exact I].
  - rewrite py_float_sign.
    + apply py_float_body_point; assumption.
    + apply digits_head; [exact Hip|]. discriminate.
Qed.

Lemma numeral_is_number (s : string) (neg : bool) (d : N) (k : nat) :
  is_numeral s neg d k -> is_number s = true.
Proof.
  assert (Hsign : forall n, remove_char "-" (remove_char "." (sign_text n)) = EmptyString)
    by (intros []; reflexivity).
  intros [neg' ip Hip Hne | neg' ip fp Hip Hfp Hlen]; unfold is_number.
  - rewrite !remove_char_app, Hsign, string_app_nil_l.
    rewrite (remove_char_digits "." ip), (remove_char_digits "-" ip)
      by (reflexivity || assumption).
    apply isdigit_spec. split; assumption.
  - rewrite !remove_char_app, Hsign, string_app_nil_l.
    rewrite (remove_char_digits "." ip), (remove_char_digits "." fp)
      by (reflexivity || assumption).
    rewrite (remove_char_digits "-" ip), (remove_char_digits "-" fp)
      by (reflexivity || assumption).
    change (remove_char "-" (remove_char "." ".")) with EmptyString.
    rewrite string_app_nil_l.
    apply isdigit_spec. split.
    + rewrite all_digits_app, Hip, Hfp. reflexivity.
    + intros H. apply (f_equal String.length) in H.
      rewrite string_app_length in H. simpl in H. lia.
Qed.

(** What [py_float] does not read as a numeral it rejects. *)
Lemma py_float_body_cases (neg : bool) (body : string) :
  py_float_body neg body = Raise ValueError
  \/ exists d k, is_numeral (sign_text neg ++ body) neg d k.
Proof.
  unfold py_float_body.
  destruct (span_digits_spec body) as [Hb Hd].
  destruct (span_digits body) as [ip rest]. cbn [fst snd] in *.
  destruct rest as [|c fp].
  - destruct ip as [|c ip]; [left; reflexivity|]. right.
    rewrite string_app_nil_r in Hb. subst body.
    eexists _, _. apply numeral_integer; [exact Hd | discriminate].
  - destruct (Ascii.eqb_spec c ".") as [->|Hc].
    + cbv beta iota.
      destruct (all_digits fp) eqn:Hfp; [|left; reflexivity].
      destruct (Nat.eqb_spec (String.length ip + String.length fp) 0) as [Hz|Hnz];
        [left; reflexivity|].
      right. subst body. eexists _, _.
      apply (numeral_point neg ip fp); assumption.
    + left. destruct c as [b0 b1 b2 b3 b4 b5 b6 b7].
      destruct b0, b1, b2, b3, b4, b5, b6, b7; try reflexivity; congruence.
Qed.

Lemma py_float_cases (s : string) :
  py_float s = Raise ValueError \/ exists neg d k, is_numeral s neg d k.
Proof.
  destruct s as [|c r]; [left; reflexivity|].
  destruct (Ascii.eqb_spec c "-") as [->|Hc].
  - rewrite py_float_minus.
    destruct (py_float_body_cases true r) as [H | (d & k & H)]; [left; exact H|].
    right. exists true, d, k. exact H.
  - rewrite (py_float_other c r Hc).
    destruct (py_float_body_cases false (String c r)) as [H | (d & k & H)];
      [left; exact H|].
    right. exists false, d, k. exact H.
Qed.

(** ** The value coercion on ASCII strings *)

(** C7, as stated, fails: ["-"] is not empty and nothing but digits is
    left of it once ['.'] and ['-'] are removed, yet [parse_tail] neither
    returns a float nor raises; it returns the string.  The same holds
    for ["."]. *)
Lemma C7_sign_alone_is_returned :
  is_ascii "-" = true
  /\ "-"%string <> EmptyString
  /\ all_digits (remove_char "-" (remove_char "." "-")) = true
  /\ parse_tail (Some "-"%string) = Return (VStr "-")
  /\ all_digits (remove_char "-" (remove_char "." ".")) = true
  /\ parse_tail (Some "."%string) = Return (VStr ".").
Proof. repeat split; try reflexivity. discriminate. Qed.

(** C7, amended: on an ASCII string [s], [is_number] holds exactly when
    [s] is made of digits, ['.'] and ['-'] and has at least one digit.
    When [s] is a decimal numeral, [parse_tail] returns the float
    [dec2float] reads from it, which is a binary64 rounding of the
    numeral's value.  When [s] passes [is_number] and is no numeral,
    [parse_tail] raises [ValueError]; a string that passes [is_number] is
    never returned as a string.  Exactly ["true"] and ["false"] give the
    booleans, and every other string is returned unchanged. *)
Theorem C7_parse_tail_coercion (s : string) :
  is_ascii s = true ->
  (is_number s = true
   <-> (forall c, In c (list_ascii_of_string s) ->
                  is_digit c = true \/ c = "."%char \/ c = "-"%char)
       /\ (exists c, In c (list_ascii_of_string s) /\ is_digit c = true))
  /\ (forall neg d k, is_numeral s neg d k ->
        is_number s = true
        /\ parse_tail (Some s) = Return (VFloat (dec2float neg d k))
        /\ rounds_to (decimal_value neg d k) (dec2float neg d k))
  /\ (is_number s = true -> (forall neg d k, ~ is_numeral s neg d k) ->
      parse_tail (Some s) = Raise ValueError)
  /\ (is_number s = true -> parse_tail (Some s) <> Return (VStr s))
  /\ (parse_tail (Some s) = Return (VBool true) <-> s = "true"%string)
  /\ (parse_tail (Some s) = Return (VBool false) <-> s = "false"%string)
  /\ (is_number s = false -> s <> "true"%string -> s <> "false"%string ->
      parse_tail (Some s) = Return (VStr s))
  /\ parse_tail (Some "1000"%string)
     = Return (VFloat (S754_finite false 8796093022208000 (-43)))
  /\ (f64_val (S754_finite false 8796093022208000 (-43)) == 1000)%Q
  /\ parse_tail (Some "-0.5"%string)
     = Return (VFloat (S754_finite true 4503599627370496 (-53)))
  /\ (f64_val (S754_finite true 4503599627370496 (-53)) == - (1 # 2))%Q
  /\ is_number "1.2.3" = true /\ parse_tail (Some "1.2.3"%string) = Raise ValueError
  /\ is_number "--1" = true /\ parse_tail (Some "--1"%string) = Raise ValueError
  /\ parse_tail (Some "CAS-FLYING"%string) = Return (VStr "CAS-FLYING").
Proof.
  intros _.
  split; [apply is_number_chars|].
  split.
  { intros neg d k Hnum.
    pose proof (numeral_is_number s neg d k Hnum) as Hn.
    split; [exact Hn|]. split; [|apply dec2float_rounds].
    cbn [parse_tail]. rewrite (parse_tail_str_number s Hn).
    rewrite (numeral_py_float s neg d k Hnum). reflexivity. }
  split.
  { intros Hn Hnot. cbn [parse_tail]. rewrite (parse_tail_str_number s Hn).
    destruct (py_float_cases s) as [-> | (neg & d & k & H)]; [reflexivity|].
    destruct (Hnot neg d k H). }
  split.
  { intros Hn. cbn [parse_tail]. rewrite (parse_tail_str_number s Hn).
    destruct (py_float s); discriminate. }
  split; [apply (parse_tail_str_bool s true)|].
  split; [apply (parse_tail_str_bool s false)|].
  split.
  { intros H Ht Hf. cbn [parse_tail]. unfold parse_tail_str. rewrite H.
    destruct (String.eqb_spec s "true"); [contradiction|].
    destruct (String.eqb_spec s "false"); [contradiction|]. reflexivity. }
  repeat split; vm_compute; reflexivity.
Qed.

Lemma C7_parse_tail_coercion_witness :
  is_ascii "-0.5" = true
  /\ is_number "-0.5" = true
  /\ parse_tail (Some "-0.5"%string) = Return (VFloat (dec2float true 5 1))
  /\ rounds_to (decimal_value true 5 1) (dec2float true 5 1).
Proof.
  split; [reflexivity|].
  destruct (C7_parse_tail_coercion "-0.5" eq_refl) as (_ & Hnum & _).
  apply (Hnum true 5%N 1%nat).
  exact (numeral_point true "0" "5" eq_refl eq_refl ltac:(discriminate)).
Defined.
